(** * postui: the key-event state machine of the tabbed variant

    A shallow embedding of the Go sources

    - [models] (the variant with tabs and saved requests): [AppModel] and
      its methods,
    - [events/handler.go] (the variant whose handlers return the
      "consumed" flag): [HandleKeyEvent] and the handlers under it,
    - [httpclient/client.go]: [NewHTTPRequest],

    followed by the properties of the specification that concern them.

    Go values are modelled as the code has them.  A slice is a triple
    (array, length, capacity) into a store of backing arrays, since
    [AddHeader], [RemoveLastHeader], [AddNewSavedRequest] and
    [LoadRequestFromSaved] copy slice headers and not the arrays.  The
    enumerations [Tab], [Section] and [HTTPMethod] are Go [int]s and are
    kept as integers with the arithmetic of the handlers written out.  A
    run-time panic is the result [None]. *)

From Stdlib Require Import ZArith String Ascii List Bool Lia DecimalString.
From stdpp Require Import base option list relations.
Import ListNotations.

#[local] Open Scope Z_scope.
#[local] Open Scope string_scope.
#[local] Open Scope list_scope.

(** ** Go integers *)

(** Go's [int] on the 64-bit targets: two's complement wrap-around. *)
Definition int64 (z : Z) : Z := (z + 2 ^ 63) mod 2 ^ 64 - 2 ^ 63.

Definition int_add (a b : Z) : Z := int64 (a + b).
Definition int_sub (a b : Z) : Z := int64 (a - b).
(** Go's [%] truncates towards zero, as [Z.rem] does. *)
Definition int_rem (a b : Z) : Z := Z.rem a b.

(** ** Go strings *)

Definition str_eqb (a b : string) : bool := String.eqb a b.

(** [case "a", "b":] of a [switch] over a string. *)
Definition key_in (k : string) (cases : list string) : bool :=
  existsb (str_eqb k) cases.

(** [strings.ToLower] on the ASCII letters.  The handlers only compare
    the result with ["y"], ["n"] and ["esc"]; no letter outside ASCII
    has one of these letters as its lower case, so the bytes above 127
    are left as they are. *)
Definition lower_ascii (c : ascii) : ascii :=
  let n := nat_of_ascii c in
  if (Nat.leb 65 n && Nat.leb n 90)%bool then ascii_of_nat (n + 32) else c.

Fixpoint ToLower (s : string) : string :=
  match s with
  | EmptyString => EmptyString
  | String c r => String (lower_ascii c) (ToLower r)
  end.

(** [strings.Index(s, "=")] followed by the two slicings of
    [strings.SplitN]: the text before the first ["="] and the text after
    it, or nothing when there is no ["="]. *)
Fixpoint cut_eq (s : string) : option (string * string) :=
  match s with
  | EmptyString => None
  | String c r =>
      if Ascii.eqb c "="%char then Some (EmptyString, r)
      else match cut_eq r with
           | Some (a, b) => Some (String c a, b)
           | None => None
           end
  end.

(** [strings.SplitN(s, "=", 2)]. *)
Definition SplitN_eq_2 (s : string) : list string :=
  match cut_eq s with
  | Some (a, b) => [a; b]
  | None => [s]
  end.

(** No ["="] occurs in [s]. *)
Fixpoint no_eq (s : string) : bool :=
  match s with
  | EmptyString => true
  | String c r => negb (Ascii.eqb c "="%char) && no_eq r
  end.

(** [fmt.Sprintf("%d", n)]. *)
Definition itoa (n : Z) : string := NilZero.string_of_int (Z.to_int n).

(** ** Go slices *)

(** A slice header.  Every slice expression of the modelled code starts
    at index 0 of its array ([s[:n]]), so no offset is kept. *)
Record slice := Slice { s_arr : nat; s_len : nat; s_cap : nat }.

(** The backing arrays of one element type, by address. *)
Abbreviation heap A := (list (list A)).

Section GoSlice.
Context {A : Type}.
(** the zero value of the element type *)
Variable zero : A.
(** the capacity the runtime picks when [append] has to reallocate a
    slice of the given capacity; never less than what is needed, see
    [go_append] *)
Variable growslice : nat -> nat.

Definition backing (h : heap A) (s : slice) : list A :=
  default [] (h !! s_arr s).

(** The elements one sees through the slice: [s[0] .. s[len(s)-1]]. *)
Definition elems (h : heap A) (s : slice) : list A :=
  take (s_len s) (backing h s).

(** A composite literal [[]T{x1, .., xn}]: a new array, length and
    capacity [n]. *)
Definition go_lit (h : heap A) (l : list A) : heap A * slice :=
  (h ++ [l], Slice (length h) (length l) (length l)).

(** [append(s, x)]: in place when the capacity allows it, into a new
    array otherwise. *)
Definition go_append (h : heap A) (s : slice) (x : A) : heap A * slice :=
  if Nat.ltb (s_len s) (s_cap s) then
    (<[s_arr s := <[s_len s := x]> (backing h s)]> h,
     Slice (s_arr s) (S (s_len s)) (s_cap s))
  else
    let c := Nat.max (S (s_len s)) (growslice (s_cap s)) in
    (h ++ [elems h s ++ x :: replicate (c - S (s_len s)) zero],
     Slice (length h) (S (s_len s)) c).

(** [s[:n]] for [n <= cap(s)]. *)
Definition go_prefix (s : slice) (n : nat) : slice :=
  Slice (s_arr s) n (s_cap s).

(** The slice lies within an array of the store. *)
Definition wf_slice (h : heap A) (s : slice) : Prop :=
  (s_len s <= s_cap s)%nat /\
  exists a, h !! s_arr s = Some a /\ (s_cap s <= length a)%nat.
End GoSlice.

(** ** The data of [models] *)

Definition TabRequest : Z := 0.
Definition TabResponse : Z := 1.
Definition TabSaved : Z := 2.

Definition SectionMethod : Z := 0.
Definition SectionURL : Z := 1.
Definition SectionHeaders : Z := 2.
Definition SectionBody : Z := 3.
Definition SectionParams : Z := 4.

Definition MethodGET : Z := 0.
Definition MethodPOST : Z := 1.
Definition MethodPUT : Z := 2.
Definition MethodDELETE : Z := 3.
Definition MethodPATCH : Z := 4.
Definition MethodHEAD : Z := 5.
Definition MethodOPTIONS : Z := 6.

Definition MethodNames : list string :=
  ["GET"; "POST"; "PUT"; "DELETE"; "PATCH"; "HEAD"; "OPTIONS"].

Record Header := mkHeader { hKey : string; hValue : string }.
Record Param := mkParam { pKey : string; pValue : string }.

(** [SavedRequest] as the program holds it: [Headers] and [Params] are
    slice headers. *)
Record SavedRequest := mkSavedRequest {
  Name : string;
  Method : Z;
  URL : string;
  Body : string;
  Headers : slice;
  Params : slice
}.

(** [SavedRequest] as [json.MarshalIndent] writes it: the elements of
    the two slices at the time of the call. *)
Record SavedRequestJSON := mkSavedRequestJSON {
  jName : string;
  jMethod : Z;
  jURL : string;
  jBody : string;
  jHeaders : list Header;
  jParams : list Param
}.

Record ResponseData := mkResponseData {
  rBody : string;
  rStatus : string;
  rTime : string;
  rStatusCode : Z
}.

Record ErrorData := mkErrorData { Message : string }.

(** [tea.Msg], by the cases the program distinguishes.  A key message
    is the string [msg.String()] that the handlers switch over.
    [FilterMatchesMsg] is the message in which the list widget receives
    the result of its filter: the positions of the matching items. *)
Inductive Msg :=
| KeyMsg (key : string)
| WindowSizeMsg (w h : Z)
| ResponseDataMsg (d : ResponseData)
| ErrorDataMsg (e : ErrorData)
| FilterMatchesMsg (ranks : list nat)
| OtherMsg.

(** *** The widgets of charmbracelet/bubbles

    Each widget is the data the program reads from it.  What a widget
    does with a message of its own ([Update]) is the library's and is a
    parameter, see [Env]. *)

(** [textinput.Model]: [Value()] and [Focused()]. *)
Record textinput := mkTextinput { ti_value : string; ti_focus : bool }.

(** [textarea.Model]: [Value()] and [Focused()]. *)
Record textarea := mkTextarea { ta_value : string; ta_focus : bool }.

(** [viewport.Model]: the content and the scroll offset. *)
Record viewport := mkViewport { vp_content : string; vp_YOffset : Z }.

(** [list.Model]: the items, the filter and [Index()].  The widget
    filters its items (the program leaves the filter enabled): [l_filter]
    is [None] while the list is unfiltered and otherwise holds the
    positions, among the items, of the items that the filter shows, in
    the order in which it shows them.  [Index()] counts within the items
    shown. *)
Record listModel := mkListModel {
  l_items : list SavedRequest;
  l_filter : option (list nat);
  l_index : nat
}.

(** [SetValue] stores the text.  The widget also replaces control
    characters and cuts the text at its [CharLimit]; the texts set by
    the program are [""] and the URL and body of a saved request. *)
Definition ti_SetValue (v : string) (t : textinput) : textinput :=
  mkTextinput v (ti_focus t).
Definition ti_Focus (t : textinput) : textinput := mkTextinput (ti_value t) true.
Definition ti_Blur (t : textinput) : textinput := mkTextinput (ti_value t) false.

Definition ta_SetValue (v : string) (t : textarea) : textarea :=
  mkTextarea v (ta_focus t).
Definition ta_Focus (t : textarea) : textarea := mkTextarea (ta_value t) true.
Definition ta_Blur (t : textarea) : textarea := mkTextarea (ta_value t) false.

(** [SetItems] replaces the items and keeps the index.  With a filter
    on, it empties the items shown, and a command of the widget computes
    them again (they arrive in a [FilterMatchesMsg]). *)
Definition l_SetItems (items : list SavedRequest) (l : listModel) : listModel :=
  mkListModel items
    (match l_filter l with Some _ => Some [] | None => None end)
    (l_index l).

(** [VisibleItems()]: all the items, or those the filter shows. *)
Definition l_VisibleItems (l : listModel) : list SavedRequest :=
  match l_filter l with
  | None => l_items l
  | Some ranks => omap (fun i => l_items l !! i) ranks
  end.

(** [SelectedItem()]: the visible item under the index, if there is
    one. *)
Definition l_SelectedItem (l : listModel) : option SavedRequest :=
  l_VisibleItems l !! l_index l.

(** *** [AppModel] *)

Record AppModel := mkAppModel {
  urlInput : textinput;
  bodyInput : textarea;
  responseVP : viewport;
  paramInput : textinput;
  headerInput : textinput;
  savedList : listModel;
  saveNameInput : textinput;
  params : slice;
  headers : slice;
  savedRequests : list SavedRequest;
  configPath : string;
  activeTab : Z;
  activeSection : Z;
  selectedMethod : Z;
  loading : bool;
  response : string;
  status : string;
  responseTime : string;
  errorMsg : string;
  inputMode : bool;
  isSaving : bool;
  isDeleting : bool;
  width : Z;
  height : Z
}.

Definition set_urlInput (v : textinput) (m : AppModel) : AppModel :=
  mkAppModel
    v (bodyInput m) (responseVP m) (paramInput m) (headerInput m) (savedList
    m) (saveNameInput m) (params m) (headers m) (savedRequests m)
    (configPath m) (activeTab m) (activeSection m) (selectedMethod m)
    (loading m) (response m) (status m) (responseTime m) (errorMsg m)
    (inputMode m) (isSaving m) (isDeleting m) (width m) (height m).

Definition set_bodyInput (v : textarea) (m : AppModel) : AppModel :=
  mkAppModel
    (urlInput m) v (responseVP m) (paramInput m) (headerInput m) (savedList
    m) (saveNameInput m) (params m) (headers m) (savedRequests m)
    (configPath m) (activeTab m) (activeSection m) (selectedMethod m)
    (loading m) (response m) (status m) (responseTime m) (errorMsg m)
    (inputMode m) (isSaving m) (isDeleting m) (width m) (height m).

Definition set_responseVP (v : viewport) (m : AppModel) : AppModel :=
  mkAppModel
    (urlInput m) (bodyInput m) v (paramInput m) (headerInput m) (savedList
    m) (saveNameInput m) (params m) (headers m) (savedRequests m)
    (configPath m) (activeTab m) (activeSection m) (selectedMethod m)
    (loading m) (response m) (status m) (responseTime m) (errorMsg m)
    (inputMode m) (isSaving m) (isDeleting m) (width m) (height m).

Definition set_paramInput (v : textinput) (m : AppModel) : AppModel :=
  mkAppModel
    (urlInput m) (bodyInput m) (responseVP m) v (headerInput m) (savedList
    m) (saveNameInput m) (params m) (headers m) (savedRequests m)
    (configPath m) (activeTab m) (activeSection m) (selectedMethod m)
    (loading m) (response m) (status m) (responseTime m) (errorMsg m)
    (inputMode m) (isSaving m) (isDeleting m) (width m) (height m).

Definition set_headerInput (v : textinput) (m : AppModel) : AppModel :=
  mkAppModel
    (urlInput m) (bodyInput m) (responseVP m) (paramInput m) v (savedList m)
    (saveNameInput m) (params m) (headers m) (savedRequests m) (configPath
    m) (activeTab m) (activeSection m) (selectedMethod m) (loading m)
    (response m) (status m) (responseTime m) (errorMsg m) (inputMode m)
    (isSaving m) (isDeleting m) (width m) (height m).

Definition set_savedList (v : listModel) (m : AppModel) : AppModel :=
  mkAppModel
    (urlInput m) (bodyInput m) (responseVP m) (paramInput m) (headerInput m)
    v (saveNameInput m) (params m) (headers m) (savedRequests m) (configPath
    m) (activeTab m) (activeSection m) (selectedMethod m) (loading m)
    (response m) (status m) (responseTime m) (errorMsg m) (inputMode m)
    (isSaving m) (isDeleting m) (width m) (height m).

Definition set_saveNameInput (v : textinput) (m : AppModel) : AppModel :=
  mkAppModel
    (urlInput m) (bodyInput m) (responseVP m) (paramInput m) (headerInput m)
    (savedList m) v (params m) (headers m) (savedRequests m) (configPath m)
    (activeTab m) (activeSection m) (selectedMethod m) (loading m) (response
    m) (status m) (responseTime m) (errorMsg m) (inputMode m) (isSaving m)
    (isDeleting m) (width m) (height m).

Definition set_params (v : slice) (m : AppModel) : AppModel :=
  mkAppModel
    (urlInput m) (bodyInput m) (responseVP m) (paramInput m) (headerInput m)
    (savedList m) (saveNameInput m) v (headers m) (savedRequests m)
    (configPath m) (activeTab m) (activeSection m) (selectedMethod m)
    (loading m) (response m) (status m) (responseTime m) (errorMsg m)
    (inputMode m) (isSaving m) (isDeleting m) (width m) (height m).

Definition set_headers (v : slice) (m : AppModel) : AppModel :=
  mkAppModel
    (urlInput m) (bodyInput m) (responseVP m) (paramInput m) (headerInput m)
    (savedList m) (saveNameInput m) (params m) v (savedRequests m)
    (configPath m) (activeTab m) (activeSection m) (selectedMethod m)
    (loading m) (response m) (status m) (responseTime m) (errorMsg m)
    (inputMode m) (isSaving m) (isDeleting m) (width m) (height m).

Definition set_savedRequests (v : list SavedRequest) (m : AppModel) : AppModel :=
  mkAppModel
    (urlInput m) (bodyInput m) (responseVP m) (paramInput m) (headerInput m)
    (savedList m) (saveNameInput m) (params m) (headers m) v (configPath m)
    (activeTab m) (activeSection m) (selectedMethod m) (loading m) (response
    m) (status m) (responseTime m) (errorMsg m) (inputMode m) (isSaving m)
    (isDeleting m) (width m) (height m).

Definition set_configPath (v : string) (m : AppModel) : AppModel :=
  mkAppModel
    (urlInput m) (bodyInput m) (responseVP m) (paramInput m) (headerInput m)
    (savedList m) (saveNameInput m) (params m) (headers m) (savedRequests m)
    v (activeTab m) (activeSection m) (selectedMethod m) (loading m)
    (response m) (status m) (responseTime m) (errorMsg m) (inputMode m)
    (isSaving m) (isDeleting m) (width m) (height m).

Definition set_activeTab (v : Z) (m : AppModel) : AppModel :=
  mkAppModel
    (urlInput m) (bodyInput m) (responseVP m) (paramInput m) (headerInput m)
    (savedList m) (saveNameInput m) (params m) (headers m) (savedRequests m)
    (configPath m) v (activeSection m) (selectedMethod m) (loading m)
    (response m) (status m) (responseTime m) (errorMsg m) (inputMode m)
    (isSaving m) (isDeleting m) (width m) (height m).

Definition set_activeSection (v : Z) (m : AppModel) : AppModel :=
  mkAppModel
    (urlInput m) (bodyInput m) (responseVP m) (paramInput m) (headerInput m)
    (savedList m) (saveNameInput m) (params m) (headers m) (savedRequests m)
    (configPath m) (activeTab m) v (selectedMethod m) (loading m) (response
    m) (status m) (responseTime m) (errorMsg m) (inputMode m) (isSaving m)
    (isDeleting m) (width m) (height m).

Definition set_selectedMethod (v : Z) (m : AppModel) : AppModel :=
  mkAppModel
    (urlInput m) (bodyInput m) (responseVP m) (paramInput m) (headerInput m)
    (savedList m) (saveNameInput m) (params m) (headers m) (savedRequests m)
    (configPath m) (activeTab m) (activeSection m) v (loading m) (response
    m) (status m) (responseTime m) (errorMsg m) (inputMode m) (isSaving m)
    (isDeleting m) (width m) (height m).

Definition set_loading (v : bool) (m : AppModel) : AppModel :=
  mkAppModel
    (urlInput m) (bodyInput m) (responseVP m) (paramInput m) (headerInput m)
    (savedList m) (saveNameInput m) (params m) (headers m) (savedRequests m)
    (configPath m) (activeTab m) (activeSection m) (selectedMethod m) v
    (response m) (status m) (responseTime m) (errorMsg m) (inputMode m)
    (isSaving m) (isDeleting m) (width m) (height m).

Definition set_response (v : string) (m : AppModel) : AppModel :=
  mkAppModel
    (urlInput m) (bodyInput m) (responseVP m) (paramInput m) (headerInput m)
    (savedList m) (saveNameInput m) (params m) (headers m) (savedRequests m)
    (configPath m) (activeTab m) (activeSection m) (selectedMethod m)
    (loading m) v (status m) (responseTime m) (errorMsg m) (inputMode m)
    (isSaving m) (isDeleting m) (width m) (height m).

Definition set_status (v : string) (m : AppModel) : AppModel :=
  mkAppModel
    (urlInput m) (bodyInput m) (responseVP m) (paramInput m) (headerInput m)
    (savedList m) (saveNameInput m) (params m) (headers m) (savedRequests m)
    (configPath m) (activeTab m) (activeSection m) (selectedMethod m)
    (loading m) (response m) v (responseTime m) (errorMsg m) (inputMode m)
    (isSaving m) (isDeleting m) (width m) (height m).

Definition set_responseTime (v : string) (m : AppModel) : AppModel :=
  mkAppModel
    (urlInput m) (bodyInput m) (responseVP m) (paramInput m) (headerInput m)
    (savedList m) (saveNameInput m) (params m) (headers m) (savedRequests m)
    (configPath m) (activeTab m) (activeSection m) (selectedMethod m)
    (loading m) (response m) (status m) v (errorMsg m) (inputMode m)
    (isSaving m) (isDeleting m) (width m) (height m).

Definition set_errorMsg (v : string) (m : AppModel) : AppModel :=
  mkAppModel
    (urlInput m) (bodyInput m) (responseVP m) (paramInput m) (headerInput m)
    (savedList m) (saveNameInput m) (params m) (headers m) (savedRequests m)
    (configPath m) (activeTab m) (activeSection m) (selectedMethod m)
    (loading m) (response m) (status m) (responseTime m) v (inputMode m)
    (isSaving m) (isDeleting m) (width m) (height m).

Definition set_inputMode (v : bool) (m : AppModel) : AppModel :=
  mkAppModel
    (urlInput m) (bodyInput m) (responseVP m) (paramInput m) (headerInput m)
    (savedList m) (saveNameInput m) (params m) (headers m) (savedRequests m)
    (configPath m) (activeTab m) (activeSection m) (selectedMethod m)
    (loading m) (response m) (status m) (responseTime m) (errorMsg m) v
    (isSaving m) (isDeleting m) (width m) (height m).

Definition set_isSaving (v : bool) (m : AppModel) : AppModel :=
  mkAppModel
    (urlInput m) (bodyInput m) (responseVP m) (paramInput m) (headerInput m)
    (savedList m) (saveNameInput m) (params m) (headers m) (savedRequests m)
    (configPath m) (activeTab m) (activeSection m) (selectedMethod m)
    (loading m) (response m) (status m) (responseTime m) (errorMsg m)
    (inputMode m) v (isDeleting m) (width m) (height m).

Definition set_isDeleting (v : bool) (m : AppModel) : AppModel :=
  mkAppModel
    (urlInput m) (bodyInput m) (responseVP m) (paramInput m) (headerInput m)
    (savedList m) (saveNameInput m) (params m) (headers m) (savedRequests m)
    (configPath m) (activeTab m) (activeSection m) (selectedMethod m)
    (loading m) (response m) (status m) (responseTime m) (errorMsg m)
    (inputMode m) (isSaving m) v (width m) (height m).

Definition set_width (v : Z) (m : AppModel) : AppModel :=
  mkAppModel
    (urlInput m) (bodyInput m) (responseVP m) (paramInput m) (headerInput m)
    (savedList m) (saveNameInput m) (params m) (headers m) (savedRequests m)
    (configPath m) (activeTab m) (activeSection m) (selectedMethod m)
    (loading m) (response m) (status m) (responseTime m) (errorMsg m)
    (inputMode m) (isSaving m) (isDeleting m) v (height m).

Definition set_height (v : Z) (m : AppModel) : AppModel :=
  mkAppModel
    (urlInput m) (bodyInput m) (responseVP m) (paramInput m) (headerInput m)
    (savedList m) (saveNameInput m) (params m) (headers m) (savedRequests m)
    (configPath m) (activeTab m) (activeSection m) (selectedMethod m)
    (loading m) (response m) (status m) (responseTime m) (errorMsg m)
    (inputMode m) (isSaving m) (isDeleting m) (width m) v.

(** *** The memory of the program

    The one [AppModel] the program allocates, the arrays its slices
    point to, and the payloads handed to [ioutil.WriteFile(configPath, ..)]
    so far, newest first.  [saveRequests] drops the error of the write,
    and so does the model. *)
Record Store := mkStore {
  model : AppModel;
  headerMem : heap Header;
  paramMem : heap Param;
  written : list (list SavedRequestJSON)
}.

Definition on_model (f : AppModel -> AppModel) (s : Store) : Store :=
  mkStore (f (model s)) (headerMem s) (paramMem s) (written s).

Definition zeroHeader : Header := mkHeader "" "".
Definition zeroParam : Param := mkParam "" "".

(** What [json.MarshalIndent] reads of a saved request. *)
Definition marshal (s : Store) (r : SavedRequest) : SavedRequestJSON :=
  mkSavedRequestJSON (Name r) (Method r) (URL r) (Body r)
    (elems (headerMem s) (Headers r)) (elems (paramMem s) (Params r)).

(** ** [httpclient]: the request *)

(** [HTTPRequest]; [qBody] is [None] for the nil byte slice. *)
Record HTTPRequest := mkHTTPRequest {
  qMethod : string;
  qURL : string;
  qHeaders : slice;
  qParams : slice;
  qBody : option string
}.

(** The request as [SendRequest] reads it through its pointer: the
    elements of the two slices at that time. *)
Record WireRequest := mkWireRequest {
  wMethod : string;
  wURL : string;
  wHeaders : list Header;
  wParams : list Param;
  wBody : option string
}.

(** ** The libraries and the runtime

    What the program calls and does not define: the capacity policy of
    [append], the key handling of the bubbles widgets, [json.Indent],
    and the network side of [HTTPClient.SendRequest] (which parses the
    URL, adds the parameters to its query and the headers to the request
    and performs the round trip, all of it a function of the request it
    is given). *)
Class Env := {
  growslice : nat -> nat;
  (** [Update] of a focused text input, of a focused text area *)
  textinput_edit : textinput -> Msg -> textinput;
  textarea_edit : textarea -> Msg -> textarea;
  viewport_SetContent : string -> viewport -> viewport;
  viewport_Update : viewport -> Msg -> viewport;
  (** the index and the filter of the list after its [Update] *)
  list_Update_index : listModel -> Msg -> nat;
  list_Update_filter : listModel -> Msg -> option (list nat);
  (** [json.Indent(.., "", "  ")]: the indented text, or an error *)
  json_Indent : string -> option string;
  (** [SendRequest]: the response, or the text of the error *)
  SendRequest : WireRequest -> ResponseData + string
}.

Section Program.
Context {E : Env}.

(** [textinput.Update] and [textarea.Update] return at once when the
    widget is not focused. *)
Definition ti_Update (t : textinput) (msg : Msg) : textinput :=
  if ti_focus t then textinput_edit t msg else t.

Definition ta_Update (t : textarea) (msg : Msg) : textarea :=
  if ta_focus t then textarea_edit t msg else t.

(** [list.Update] leaves the items alone. *)
Definition l_Update (l : listModel) (msg : Msg) : listModel :=
  mkListModel (l_items l) (list_Update_filter l msg) (list_Update_index l msg).

(** ** The methods of [AppModel] *)

(** [loadRequests], by its outcome: [None] when the file does not exist
    or cannot be read or decoded (the model is left as it is), the
    decoded requests otherwise. *)
Definition loadRequests (loaded : option (list SavedRequest)) (m : AppModel)
  : AppModel :=
  match loaded with
  | None => m
  | Some items =>
      set_savedList (l_SetItems items (savedList m)) (set_savedRequests items m)
  end.

(** [NewAppModel].  [hm] and [pm] hold the arrays that [json.Unmarshal]
    allocates for the requests of the file; the two literals of the
    constructor get arrays of their own. *)
Definition NewAppModel (path : string) (hm : heap Header) (pm : heap Param)
    (loaded : option (list SavedRequest)) : Store :=
  let '(pm', ps) := go_lit pm ([] : list Param) in
  let '(hm', hs) := go_lit hm [mkHeader "Content-Type" "application/json"] in
  let m :=
    mkAppModel
      (mkTextinput "" false) (mkTextarea "" false) (mkViewport "" 0)
      (mkTextinput "" false) (mkTextinput "" false) (mkListModel [] None 0)
      (mkTextinput "" false)
      ps hs [] path
      TabRequest SectionMethod MethodGET false "" "" "" "" false false false
      0 0 in
  mkStore (loadRequests loaded m) hm' pm' [].

Definition saveRequests (s : Store) : Store :=
  mkStore (model s) (headerMem s) (paramMem s)
    (map (marshal s) (savedRequests (model s)) :: written s).

Definition AddNewSavedRequest (name : string) (s : Store) : Store :=
  let m := model s in
  let newReq :=
    mkSavedRequest name (selectedMethod m) (ti_value (urlInput m))
      (ta_value (bodyInput m)) (headers m) (params m) in
  let s1 := on_model (set_savedRequests (savedRequests m ++ [newReq])) s in
  let s2 :=
    on_model (fun m => set_savedList
                         (l_SetItems (savedRequests m) (savedList m)) m) s1 in
  saveRequests s2.

Definition LoadRequestFromSaved (s : Store) : Store :=
  match l_SelectedItem (savedList (model s)) with
  | Some item =>
      on_model (fun m =>
        set_activeTab TabRequest
          (set_params (Params item)
            (set_headers (Headers item)
              (set_bodyInput (ta_SetValue (Body item) (bodyInput m))
                (set_urlInput (ti_SetValue (URL item) (urlInput m))
                  (set_selectedMethod (Method item) m)))))) s
  | None => s
  end.

(** [DeleteSelectedRequest].  [savedRequests[idx+1:]] panics when
    [idx+1] exceeds the length.  The slice of saved requests and the
    items of the list are replaced together at every change, so both are
    kept by value. *)
Definition DeleteSelectedRequest (s : Store) : option Store :=
  let l := savedRequests (model s) in
  if Nat.ltb 0 (length l) then
    let idx := l_index (savedList (model s)) in
    if Nat.leb (idx + 1) (length l) then
      let s1 := on_model (set_savedRequests (take idx l ++ drop (idx + 1) l)) s in
      let s2 :=
        on_model (fun m => set_savedList
                             (l_SetItems (savedRequests m) (savedList m)) m) s1 in
      Some (saveRequests s2)
    else None
  else Some s.

(** [UpdateDimensions]; the sizes it gives to the widgets are not part
    of the model. *)
Definition UpdateDimensions (w h : Z) (s : Store) : Store :=
  on_model (fun m => set_height h (set_width w m)) s.

Definition FormatJSON (input : string) : string :=
  if str_eqb input "" then ""
  else match json_Indent input with
       | None => input
       | Some formatted => formatted
       end.

Definition SetResponseData (data : ResponseData) (s : Store) : Store :=
  on_model (fun m =>
    let m := set_loading false m in
    let m := set_response (FormatJSON (rBody data)) m in
    let m := set_status
               (rStatus data ++ " (" ++ itoa (rStatusCode data) ++ ")") m in
    let m := set_responseTime (rTime data) m in
    let m := set_responseVP (viewport_SetContent (response m) (responseVP m)) m in
    let m := set_errorMsg "" m in
    set_activeTab TabResponse m) s.

Definition SetError (err : ErrorData) (s : Store) : Store :=
  on_model (fun m =>
    let m := set_loading false m in
    let m := set_errorMsg (Message err) m in
    let m := set_response "" m in
    let m := set_status "Error" m in
    let m := set_responseTime "" m in
    let m := set_responseVP (viewport_SetContent (Message err) (responseVP m)) m in
    set_activeTab TabResponse m) s.

(** [MethodNames[m.selectedMethod]]: a panic outside the table. *)
Definition GetCurrentMethod (s : Store) : option string :=
  let i := selectedMethod (model s) in
  if Z.ltb i 0 then None else MethodNames !! Z.to_nat i.

Definition AddParam (key value : string) (s : Store) : Store :=
  let '(pm, ps) :=
    go_append zeroParam growslice (paramMem s) (params (model s))
      (mkParam key value) in
  mkStore (set_params ps (model s)) (headerMem s) pm (written s).

Definition RemoveLastParam (s : Store) : Store :=
  let ps := params (model s) in
  if Nat.ltb 0 (s_len ps) then
    on_model (set_params (go_prefix ps (s_len ps - 1))) s
  else s.

Definition AddHeader (key value : string) (s : Store) : Store :=
  let '(hm, hs) :=
    go_append zeroHeader growslice (headerMem s) (headers (model s))
      (mkHeader key value) in
  mkStore (set_headers hs (model s)) hm (paramMem s) (written s).

Definition RemoveLastHeader (s : Store) : Store :=
  let hs := headers (model s) in
  if Nat.ltb 0 (s_len hs) then
    on_model (set_headers (go_prefix hs (s_len hs - 1))) s
  else s.

Definition SetLoading (b : bool) : Store -> Store := on_model (set_loading b).
Definition SetActiveTab (t : Z) : Store -> Store := on_model (set_activeTab t).
Definition SetActiveSection (c : Z) : Store -> Store :=
  on_model (set_activeSection c).
Definition SetSelectedMethod (c : Z) : Store -> Store :=
  on_model (set_selectedMethod c).
Definition SetInputMode (b : bool) : Store -> Store := on_model (set_inputMode b).
Definition SetIsSaving (b : bool) : Store -> Store := on_model (set_isSaving b).
Definition SetIsDeleting (b : bool) : Store -> Store :=
  on_model (set_isDeleting b).

Definition GetActiveTab (s : Store) : Z := activeTab (model s).
Definition GetActiveSection (s : Store) : Z := activeSection (model s).
Definition GetSelectedMethod (s : Store) : Z := selectedMethod (model s).
Definition GetInputMode (s : Store) : bool := inputMode (model s).
Definition IsSaving (s : Store) : bool := isSaving (model s).
Definition IsDeleting (s : Store) : bool := isDeleting (model s).
Definition GetLoading (s : Store) : bool := loading (model s).
Definition URLInputValue (s : Store) : string := ti_value (urlInput (model s)).
Definition BodyInputValue (s : Store) : string := ta_value (bodyInput (model s)).

(** The header and parameter lists as the user sees them. *)
Definition GetHeaders (s : Store) : list Header :=
  elems (headerMem s) (headers (model s)).
Definition GetParams (s : Store) : list Param :=
  elems (paramMem s) (params (model s)).

(** [NewHTTPRequest]. *)
Definition NewHTTPRequest (s : Store) : option HTTPRequest :=
  let bodyBytes :=
    if negb (str_eqb (BodyInputValue s) "") then Some (BodyInputValue s)
    else None in
  match GetCurrentMethod s with
  | Some name =>
      Some (mkHTTPRequest name (URLInputValue s) (headers (model s))
              (params (model s)) bodyBytes)
  | None => None
  end.

Definition on_wire (s : Store) (req : HTTPRequest) : WireRequest :=
  mkWireRequest (qMethod req) (qURL req) (elems (headerMem s) (qHeaders req))
    (elems (paramMem s) (qParams req)) (qBody req).

(** ** [events]: the handlers *)

(** [tea.Cmd], by the two commands the handlers return: [tea.Quit], and
    the closure made by [sendRequest(model)].  The closure keeps the
    pointer [model]; it calls [NewHTTPRequest(model)] when the runtime
    runs it, see [sendRequest_run]. *)
Inductive Cmd :=
| Quit
| sendRequest.

(** The body of the closure of [sendRequest], run on the memory as it is
    at that time: the request handed to [SendRequest], and the message
    returned to the event loop. *)
Definition sendRequest_run (s : Store) : option (WireRequest * Msg) :=
  match NewHTTPRequest s with
  | Some req =>
      let w := on_wire s req in
      Some (w, match SendRequest w with
               | inl response => ResponseDataMsg response
               | inr err => ErrorDataMsg (mkErrorData err)
               end)
  | None => None
  end.

Definition updateFocus (s : Store) : Store :=
  let s := on_model (fun m => set_urlInput (ti_Blur (urlInput m)) m) s in
  let s := on_model (fun m => set_headerInput (ti_Blur (headerInput m)) m) s in
  let s := on_model (fun m => set_bodyInput (ta_Blur (bodyInput m)) m) s in
  let s := on_model (fun m => set_paramInput (ti_Blur (paramInput m)) m) s in
  if GetInputMode s && (GetActiveTab s =? TabRequest)%Z then
    if (GetActiveSection s =? SectionURL)%Z then
      on_model (fun m => set_urlInput (ti_Focus (urlInput m)) m) s
    else if (GetActiveSection s =? SectionHeaders)%Z then
      on_model (fun m => set_headerInput (ti_Focus (headerInput m)) m) s
    else if (GetActiveSection s =? SectionBody)%Z then
      on_model (fun m => set_bodyInput (ta_Focus (bodyInput m)) m) s
    else if (GetActiveSection s =? SectionParams)%Z then
      on_model (fun m => set_paramInput (ti_Focus (paramInput m)) m) s
    else s
  else s.

Definition handleEnterOnRequestTab (s : Store) : Store * option Cmd :=
  if (GetActiveSection s =? SectionHeaders)%Z then
    let v := ti_value (headerInput (model s)) in
    if negb (str_eqb v "") then
      match SplitN_eq_2 v with
      | [key; value] =>
          let s := AddHeader key value s in
          (on_model (fun m => set_headerInput
                                (ti_SetValue "" (headerInput m)) m) s, None)
      | _ => (s, None)
      end
    else (s, None)
  else if (GetActiveSection s =? SectionParams)%Z then
    let v := ti_value (paramInput (model s)) in
    if negb (str_eqb v "") then
      match SplitN_eq_2 v with
      | [key; value] =>
          let s := AddParam key value s in
          (on_model (fun m => set_paramInput
                                (ti_SetValue "" (paramInput m)) m) s, None)
      | _ => (s, None)
      end
    else (s, None)
  else
    if negb (str_eqb (URLInputValue s) "") then
      (SetLoading true s, Some sendRequest)
    else (s, None).

Definition handleEnterKey (s : Store) : Store * option Cmd :=
  if (GetActiveTab s =? TabRequest)%Z then handleEnterOnRequestTab s
  else if (GetActiveTab s =? TabSaved)%Z then (LoadRequestFromSaved s, None)
  else (s, None).

Definition handleBackspaceKey (s : Store) : Store * option Cmd :=
  if negb (GetActiveTab s =? TabRequest)%Z then (s, None)
  else if (GetActiveSection s =? SectionHeaders)%Z then
    if Nat.ltb 0 (s_len (headers (model s)))
       && str_eqb (ti_value (headerInput (model s))) "" then
      (RemoveLastHeader s, None)
    else (s, None)
  else if (GetActiveSection s =? SectionParams)%Z then
    if Nat.ltb 0 (s_len (params (model s)))
       && str_eqb (ti_value (paramInput (model s))) "" then
      (RemoveLastParam s, None)
    else (s, None)
  else (s, None).

Definition nMethods : Z := Z.of_nat (length MethodNames).

(** The inner [switch] of the digit keys. *)
Definition section_of_digit (k : string) : Z :=
  if str_eqb k "1" then 0
  else if str_eqb k "2" then 1
  else if str_eqb k "3" then 2
  else if str_eqb k "4" then 3
  else if str_eqb k "5" then 4
  else 0.

Definition handleNavigationMode (s : Store) (k : string)
  : Store * option Cmd * bool :=
  if key_in k ["ctrl+c"; "q"] then (s, Some Quit, true)
  else if key_in k ["i"; "a"] then
    (updateFocus (SetInputMode true s), None, true)
  else if key_in k ["ctrl+s"] then
    if (GetActiveTab s =? TabRequest)%Z then
      let s := SetIsSaving true s in
      (on_model (fun m => set_saveNameInput (ti_Focus (saveNameInput m)) m) s,
       None, true)
    else (s, None, true)
  else if key_in k ["left"; "h"] then
    if (GetActiveTab s =? TabRequest)%Z && (GetActiveSection s =? SectionMethod)%Z
    then
      (SetSelectedMethod
         (int_rem (int_add (int_sub (GetSelectedMethod s) 1) nMethods) nMethods)
         s, None, true)
    else
      (SetActiveTab (int_rem (int_add (int_sub (GetActiveTab s) 1) 3) 3) s,
       None, true)
  else if key_in k ["right"; "l"] then
    if (GetActiveTab s =? TabRequest)%Z && (GetActiveSection s =? SectionMethod)%Z
    then
      (SetSelectedMethod
         (int_rem (int_add (GetSelectedMethod s) 1) nMethods) s, None, true)
    else
      (SetActiveTab (int_rem (int_add (GetActiveTab s) 1) 3) s, None, true)
  else if key_in k ["k"; "up"] then
    if (GetActiveTab s =? TabRequest)%Z then
      (updateFocus
         (SetActiveSection (int_rem (int_add (GetActiveSection s) 4) 5) s),
       None, true)
    else if (GetActiveTab s =? TabSaved)%Z then
      (on_model (fun m => set_savedList (l_Update (savedList m) (KeyMsg k)) m) s,
       None, true)
    else (s, None, true)
  else if key_in k ["j"; "down"] then
    if (GetActiveTab s =? TabRequest)%Z then
      (updateFocus
         (SetActiveSection (int_rem (int_add (GetActiveSection s) 1) 5) s),
       None, true)
    else if (GetActiveTab s =? TabSaved)%Z then
      (on_model (fun m => set_savedList (l_Update (savedList m) (KeyMsg k)) m) s,
       None, true)
    else (s, None, true)
  else if key_in k ["tab"] then
    if (GetActiveTab s =? TabRequest)%Z then
      (updateFocus
         (SetActiveSection (int_rem (int_add (GetActiveSection s) 1) 5) s),
       None, true)
    else (s, None, true)
  else if key_in k ["shift+tab"] then
    if (GetActiveTab s =? TabRequest)%Z then
      (updateFocus
         (SetActiveSection (int_rem (int_add (GetActiveSection s) 4) 5) s),
       None, true)
    else (s, None, true)
  else if key_in k ["1"; "2"; "3"; "4"; "5"] then
    if (GetActiveTab s =? TabRequest)%Z then
      (updateFocus (SetActiveSection (section_of_digit k) s), None, true)
    else (s, None, true)
  else if key_in k ["d"] then
    if (GetActiveTab s =? TabSaved)%Z then (SetIsDeleting true s, None, true)
    else (s, None, true)
  else if key_in k ["enter"] then
    let '(s, cmd) := handleEnterKey s in (s, cmd, true)
  else if key_in k ["backspace"] then
    let '(s, cmd) := handleBackspaceKey s in (s, cmd, true)
  else (s, None, false).

Definition handleInputMode (s : Store) (k : string)
  : Store * option Cmd * bool :=
  if key_in k ["esc"] then (updateFocus (SetInputMode false s), None, true)
  else if key_in k ["ctrl+c"; "q"] then
    if negb (GetActiveSection s =? SectionBody)%Z then (s, Some Quit, true)
    else (s, None, false)
  else if key_in k ["enter"] then
    if (GetActiveSection s =? SectionHeaders)%Z
       || (GetActiveSection s =? SectionParams)%Z then
      let '(s, cmd) := handleEnterOnRequestTab s in (s, cmd, true)
    else (s, None, false)
  else (s, None, false).

Definition close_save_prompt (s : Store) : Store :=
  let s := on_model (fun m => set_saveNameInput
                                (ti_SetValue "" (saveNameInput m)) m) s in
  let s := on_model (fun m => set_saveNameInput
                                (ti_Blur (saveNameInput m)) m) s in
  SetIsSaving false s.

Definition handleSaveAsPrompt (s : Store) (k : string)
  : Store * option Cmd * bool :=
  let s :=
    if key_in k ["enter"] then
      let name := ti_value (saveNameInput (model s)) in
      let s := if negb (str_eqb name "") then AddNewSavedRequest name s else s in
      close_save_prompt s
    else if key_in k ["esc"] then close_save_prompt s
    else s in
  let s := on_model (fun m => set_saveNameInput
                                (ti_Update (saveNameInput m) (KeyMsg k)) m) s in
  (s, None, true).

Definition handleDeleteConfirmation (s : Store) (k : string)
  : option (Store * option Cmd * bool) :=
  let lk := ToLower k in
  if key_in lk ["y"] then
    match DeleteSelectedRequest s with
    | Some s => Some (SetIsDeleting false s, None, true)
    | None => None
    end
  else if key_in lk ["n"; "esc"] then Some (SetIsDeleting false s, None, true)
  else Some (s, None, true).

Definition HandleKeyEvent (s : Store) (k : string)
  : option (Store * option Cmd * bool) :=
  if IsSaving s then Some (handleSaveAsPrompt s k)
  else if IsDeleting s then handleDeleteConfirmation s k
  else if negb (GetInputMode s) then Some (handleNavigationMode s k)
  else Some (handleInputMode s k).

Definition UpdateComponents (s : Store) (msg : Msg) : Store :=
  if (GetActiveTab s =? TabRequest)%Z then
    if GetInputMode s then
      if (GetActiveSection s =? SectionURL)%Z then
        on_model (fun m => set_urlInput (ti_Update (urlInput m) msg) m) s
      else if (GetActiveSection s =? SectionHeaders)%Z then
        on_model (fun m => set_headerInput (ti_Update (headerInput m) msg) m) s
      else if (GetActiveSection s =? SectionBody)%Z then
        on_model (fun m => set_bodyInput (ta_Update (bodyInput m) msg) m) s
      else if (GetActiveSection s =? SectionParams)%Z then
        on_model (fun m => set_paramInput (ti_Update (paramInput m) msg) m) s
      else s
    else s
  else if (GetActiveTab s =? TabResponse)%Z then
    on_model (fun m => set_responseVP (viewport_Update (responseVP m) msg) m) s
  else if (GetActiveTab s =? TabSaved)%Z then
    on_model (fun m => set_savedList (l_Update (savedList m) msg) m) s
  else s.

(** ** The states the program reaches

    One step is one call that the event loop makes on the model:
    a key through [HandleKeyEvent], a message forwarded to the widgets
    by [UpdateComponents], the folding of a response or of an error,
    a change of the window size. *)
Inductive step : Store -> Store -> Prop :=
| step_key s k s' cmd eaten :
    HandleKeyEvent s k = Some (s', cmd, eaten) -> step s s'
| step_components s msg : step s (UpdateComponents s msg)
| step_response s d : step s (SetResponseData d s)
| step_error s e : step s (SetError e s)
| step_resize s w h : step s (UpdateDimensions w h s).

(** Every slice of a saved request lies within an array of the store. *)
Definition wf_saved (hm : heap Header) (pm : heap Param) (r : SavedRequest)
  : Prop :=
  wf_slice hm (Headers r) /\ wf_slice pm (Params r).

(** What [json.Unmarshal] returns is made of slices into the arrays it
    allocated. *)
Definition wf_loaded (hm : heap Header) (pm : heap Param)
    (loaded : option (list SavedRequest)) : Prop :=
  match loaded with
  | Some items => Forall (wf_saved hm pm) items
  | None => True
  end.

(** Every slice of the model lies within an array of the store. *)
Definition wf_store (s : Store) : Prop :=
  wf_slice (headerMem s) (headers (model s)) /\
  wf_slice (paramMem s) (params (model s)) /\
  Forall (wf_saved (headerMem s) (paramMem s)) (savedRequests (model s)) /\
  Forall (wf_saved (headerMem s) (paramMem s)) (l_items (savedList (model s))).

Inductive reachable : Store -> Prop :=
| reach_init path hm pm loaded :
    wf_loaded hm pm loaded -> reachable (NewAppModel path hm pm loaded)
| reach_step s s' : reachable s -> step s s' -> reachable s'.

(** The mode of the specification, read off the flags in the order in
    which [HandleKeyEvent] tests them. *)
Inductive Mode := Navigation | TextEdit | SaveNamePrompt | DeleteConfirm.

Definition mode_of (s : Store) : Mode :=
  if IsSaving s then SaveNamePrompt
  else if IsDeleting s then DeleteConfirm
  else if negb (GetInputMode s) then Navigation
  else TextEdit.

(** What the dispatch depends on, and the two copies of the saved
    requests. *)
Definition flags (s : Store)
  : bool * bool * bool * list SavedRequest * list SavedRequest :=
  (isSaving (model s), isDeleting (model s), inputMode (model s),
   l_items (savedList (model s)), savedRequests (model s)).

(** The overlays exclude each other and are entered from navigation
    mode only, and the list shows the saved requests. *)
Definition modal_inv (s : Store) : Prop :=
  (IsSaving s = true -> IsDeleting s = false) /\
  (IsSaving s = true \/ IsDeleting s = true -> GetInputMode s = false) /\
  l_items (savedList (model s)) = savedRequests (model s).

(** What [wf_store] depends on. *)
Definition shape (s : Store) :=
  (headerMem s, paramMem s, headers (model s), params (model s),
   savedRequests (model s), l_items (savedList (model s))).

End Program.

(** ** The variant with two panes

    The sources [models/models.go], the second [events/handler.go] and
    the second [main.go]: six sections (the response viewer is one of
    them), no tabs, no saved requests, handlers without the "consumed"
    flag, and the event loop [Update] that forwards every message to the
    widgets after handling it.  Slices, widgets, messages, commands and
    the request are those of the variant above. *)

Module TwoPane.

Definition SectionResponse : Z := 5.

(** The scrolling of the viewport, which is the library's. *)
Class Scroll := {
  viewport_LineUp : nat -> viewport -> viewport;
  viewport_LineDown : nat -> viewport -> viewport;
  viewport_PageUp : viewport -> viewport;
  viewport_PageDown : viewport -> viewport
}.

Record AppModel := mkAppModel {
  urlInput : textinput;
  bodyInput : textarea;
  responseVP : viewport;
  paramInput : textinput;
  headerInput : textinput;
  params : slice;
  headers : slice;
  activeSection : Z;
  selectedMethod : Z;
  loading : bool;
  response : string;
  status : string;
  responseTime : string;
  errorMsg : string;
  inputMode : bool;
  width : Z;
  height : Z
}.

Definition set_urlInput (v : textinput) (m : AppModel) : AppModel :=
  mkAppModel
    v (bodyInput m) (responseVP m) (paramInput m) (headerInput m) (params m)
    (headers m) (activeSection m) (selectedMethod m) (loading m) (response
    m) (status m) (responseTime m) (errorMsg m) (inputMode m) (width m)
    (height m).

Definition set_bodyInput (v : textarea) (m : AppModel) : AppModel :=
  mkAppModel
    (urlInput m) v (responseVP m) (paramInput m) (headerInput m) (params m)
    (headers m) (activeSection m) (selectedMethod m) (loading m) (response
    m) (status m) (responseTime m) (errorMsg m) (inputMode m) (width m)
    (height m).

Definition set_responseVP (v : viewport) (m : AppModel) : AppModel :=
  mkAppModel
    (urlInput m) (bodyInput m) v (paramInput m) (headerInput m) (params m)
    (headers m) (activeSection m) (selectedMethod m) (loading m) (response
    m) (status m) (responseTime m) (errorMsg m) (inputMode m) (width m)
    (height m).

Definition set_paramInput (v : textinput) (m : AppModel) : AppModel :=
  mkAppModel
    (urlInput m) (bodyInput m) (responseVP m) v (headerInput m) (params m)
    (headers m) (activeSection m) (selectedMethod m) (loading m) (response
    m) (status m) (responseTime m) (errorMsg m) (inputMode m) (width m)
    (height m).

Definition set_headerInput (v : textinput) (m : AppModel) : AppModel :=
  mkAppModel
    (urlInput m) (bodyInput m) (responseVP m) (paramInput m) v (params m)
    (headers m) (activeSection m) (selectedMethod m) (loading m) (response
    m) (status m) (responseTime m) (errorMsg m) (inputMode m) (width m)
    (height m).

Definition set_params (v : slice) (m : AppModel) : AppModel :=
  mkAppModel
    (urlInput m) (bodyInput m) (responseVP m) (paramInput m) (headerInput m)
    v (headers m) (activeSection m) (selectedMethod m) (loading m) (response
    m) (status m) (responseTime m) (errorMsg m) (inputMode m) (width m)
    (height m).

Definition set_headers (v : slice) (m : AppModel) : AppModel :=
  mkAppModel
    (urlInput m) (bodyInput m) (responseVP m) (paramInput m) (headerInput m)
    (params m) v (activeSection m) (selectedMethod m) (loading m) (response
    m) (status m) (responseTime m) (errorMsg m) (inputMode m) (width m)
    (height m).

Definition set_activeSection (v : Z) (m : AppModel) : AppModel :=
  mkAppModel
    (urlInput m) (bodyInput m) (responseVP m) (paramInput m) (headerInput m)
    (params m) (headers m) v (selectedMethod m) (loading m) (response m)
    (status m) (responseTime m) (errorMsg m) (inputMode m) (width m) (height
    m).

Definition set_selectedMethod (v : Z) (m : AppModel) : AppModel :=
  mkAppModel
    (urlInput m) (bodyInput m) (responseVP m) (paramInput m) (headerInput m)
    (params m) (headers m) (activeSection m) v (loading m) (response m)
    (status m) (responseTime m) (errorMsg m) (inputMode m) (width m) (height
    m).

Definition set_loading (v : bool) (m : AppModel) : AppModel :=
  mkAppModel
    (urlInput m) (bodyInput m) (responseVP m) (paramInput m) (headerInput m)
    (params m) (headers m) (activeSection m) (selectedMethod m) v (response
    m) (status m) (responseTime m) (errorMsg m) (inputMode m) (width m)
    (height m).

Definition set_response (v : string) (m : AppModel) : AppModel :=
  mkAppModel
    (urlInput m) (bodyInput m) (responseVP m) (paramInput m) (headerInput m)
    (params m) (headers m) (activeSection m) (selectedMethod m) (loading m)
    v (status m) (responseTime m) (errorMsg m) (inputMode m) (width m)
    (height m).

Definition set_status (v : string) (m : AppModel) : AppModel :=
  mkAppModel
    (urlInput m) (bodyInput m) (responseVP m) (paramInput m) (headerInput m)
    (params m) (headers m) (activeSection m) (selectedMethod m) (loading m)
    (response m) v (responseTime m) (errorMsg m) (inputMode m) (width m)
    (height m).

Definition set_responseTime (v : string) (m : AppModel) : AppModel :=
  mkAppModel
    (urlInput m) (bodyInput m) (responseVP m) (paramInput m) (headerInput m)
    (params m) (headers m) (activeSection m) (selectedMethod m) (loading m)
    (response m) (status m) v (errorMsg m) (inputMode m) (width m) (height
    m).

Definition set_errorMsg (v : string) (m : AppModel) : AppModel :=
  mkAppModel
    (urlInput m) (bodyInput m) (responseVP m) (paramInput m) (headerInput m)
    (params m) (headers m) (activeSection m) (selectedMethod m) (loading m)
    (response m) (status m) (responseTime m) v (inputMode m) (width m)
    (height m).

Definition set_inputMode (v : bool) (m : AppModel) : AppModel :=
  mkAppModel
    (urlInput m) (bodyInput m) (responseVP m) (paramInput m) (headerInput m)
    (params m) (headers m) (activeSection m) (selectedMethod m) (loading m)
    (response m) (status m) (responseTime m) (errorMsg m) v (width m)
    (height m).

Definition set_width (v : Z) (m : AppModel) : AppModel :=
  mkAppModel
    (urlInput m) (bodyInput m) (responseVP m) (paramInput m) (headerInput m)
    (params m) (headers m) (activeSection m) (selectedMethod m) (loading m)
    (response m) (status m) (responseTime m) (errorMsg m) (inputMode m) v
    (height m).

Definition set_height (v : Z) (m : AppModel) : AppModel :=
  mkAppModel
    (urlInput m) (bodyInput m) (responseVP m) (paramInput m) (headerInput m)
    (params m) (headers m) (activeSection m) (selectedMethod m) (loading m)
    (response m) (status m) (responseTime m) (errorMsg m) (inputMode m)
    (width m) v.

(** The model and the arrays of its two slices. *)
Record Store := mkStore {
  model : AppModel;
  headerMem : heap Header;
  paramMem : heap Param
}.

Definition on_model (f : AppModel -> AppModel) (s : Store) : Store :=
  mkStore (f (model s)) (headerMem s) (paramMem s).

Section Program.
Context {E : Env} {S : Scroll}.

(** *** [models/models.go] *)

Definition NewAppModel : Store :=
  let '(pm, ps) := go_lit [] ([] : list Param) in
  let '(hm, hs) := go_lit [] ([] : list Header) in
  mkStore
    (mkAppModel
       (mkTextinput "" false) (mkTextarea "" false) (mkViewport "" 0)
       (mkTextinput "" false) (mkTextinput "" false)
       ps hs SectionMethod MethodGET false "" "" "" "" false 0 0)
    hm pm.

Definition GetCurrentMethod (s : Store) : option string :=
  let i := selectedMethod (model s) in
  if (i <? 0)%Z then None else MethodNames !! Z.to_nat i.

Definition AddParam (key value : string) (s : Store) : Store :=
  let '(pm, ps) :=
    go_append zeroParam growslice (paramMem s) (params (model s))
      (mkParam key value) in
  mkStore (set_params ps (model s)) (headerMem s) pm.

Definition RemoveLastParam (s : Store) : Store :=
  let ps := params (model s) in
  if Nat.ltb 0 (s_len ps) then
    on_model (set_params (go_prefix ps (s_len ps - 1))) s
  else s.

Definition AddHeader (key value : string) (s : Store) : Store :=
  let '(hm, hs) :=
    go_append zeroHeader growslice (headerMem s) (headers (model s))
      (mkHeader key value) in
  mkStore (set_headers hs (model s)) hm (paramMem s).

Definition RemoveLastHeader (s : Store) : Store :=
  let hs := headers (model s) in
  if Nat.ltb 0 (s_len hs) then
    on_model (set_headers (go_prefix hs (s_len hs - 1))) s
  else s.

Definition SetResponseData (data : ResponseData) (s : Store) : Store :=
  on_model (fun m =>
    let m := set_loading false m in
    let m := set_response (FormatJSON (rBody data)) m in
    let m := set_status
               (rStatus data ++ " (" ++ itoa (rStatusCode data) ++ ")") m in
    let m := set_responseTime (rTime data) m in
    let m := set_responseVP (viewport_SetContent (response m) (responseVP m)) m in
    set_errorMsg "" m) s.

Definition SetError (err : ErrorData) (s : Store) : Store :=
  on_model (fun m =>
    let m := set_loading false m in
    let m := set_errorMsg (Message err) m in
    let m := set_response "" m in
    let m := set_status "Error" m in
    let m := set_responseTime "" m in
    set_responseVP (viewport_SetContent "" (responseVP m)) m) s.

Definition SetLoading (b : bool) : Store -> Store := on_model (set_loading b).

(** [UpdateDimensions]; the sizes it gives to the widgets are not part
    of the model. *)
Definition UpdateDimensions (w h : Z) (s : Store) : Store :=
  on_model (fun m => set_height h (set_width w m)) s.

Definition SetActiveSection (c : Z) : Store -> Store :=
  on_model (set_activeSection c).
Definition SetSelectedMethod (c : Z) : Store -> Store :=
  on_model (set_selectedMethod c).
Definition SetInputMode (b : bool) : Store -> Store := on_model (set_inputMode b).

Definition GetActiveSection (s : Store) : Z := activeSection (model s).
Definition GetSelectedMethod (s : Store) : Z := selectedMethod (model s).
Definition GetInputMode (s : Store) : bool := inputMode (model s).
Definition URLInputValue (s : Store) : string := ti_value (urlInput (model s)).
Definition BodyInputValue (s : Store) : string := ta_value (bodyInput (model s)).
Definition GetHeaders (s : Store) : list Header :=
  elems (headerMem s) (headers (model s)).
Definition GetParams (s : Store) : list Param :=
  elems (paramMem s) (params (model s)).

(** *** [httpclient/client.go] *)

Definition NewHTTPRequest (s : Store) : option HTTPRequest :=
  let bodyBytes :=
    if negb (str_eqb (BodyInputValue s) "") then Some (BodyInputValue s)
    else None in
  match GetCurrentMethod s with
  | Some name =>
      Some (mkHTTPRequest name (URLInputValue s) (headers (model s))
              (params (model s)) bodyBytes)
  | None => None
  end.

(** *** [events/handler.go] *)

Definition updateFocus (s : Store) : Store :=
  let s := on_model (fun m => set_urlInput (ti_Blur (urlInput m)) m) s in
  let s := on_model (fun m => set_headerInput (ti_Blur (headerInput m)) m) s in
  let s := on_model (fun m => set_bodyInput (ta_Blur (bodyInput m)) m) s in
  let s := on_model (fun m => set_paramInput (ti_Blur (paramInput m)) m) s in
  if GetInputMode s then
    if (GetActiveSection s =? SectionURL)%Z then
      on_model (fun m => set_urlInput (ti_Focus (urlInput m)) m) s
    else if (GetActiveSection s =? SectionHeaders)%Z then
      on_model (fun m => set_headerInput (ti_Focus (headerInput m)) m) s
    else if (GetActiveSection s =? SectionBody)%Z then
      on_model (fun m => set_bodyInput (ta_Focus (bodyInput m)) m) s
    else if (GetActiveSection s =? SectionParams)%Z then
      on_model (fun m => set_paramInput (ti_Focus (paramInput m)) m) s
    else s
  else s.

Definition handleEnterKey (s : Store) : Store * option Cmd :=
  if (GetActiveSection s =? SectionHeaders)%Z then
    let v := ti_value (headerInput (model s)) in
    if negb (str_eqb v "") then
      match SplitN_eq_2 v with
      | [key; value] =>
          let s := AddHeader key value s in
          (on_model (fun m => set_headerInput
                                (ti_SetValue "" (headerInput m)) m) s, None)
      | _ => (s, None)
      end
    else (s, None)
  else if (GetActiveSection s =? SectionParams)%Z then
    let v := ti_value (paramInput (model s)) in
    if negb (str_eqb v "") then
      match SplitN_eq_2 v with
      | [key; value] =>
          let s := AddParam key value s in
          (on_model (fun m => set_paramInput
                                (ti_SetValue "" (paramInput m)) m) s, None)
      | _ => (s, None)
      end
    else (s, None)
  else
    if negb (str_eqb (URLInputValue s) "") then
      (SetLoading true s, Some sendRequest)
    else (s, None).

Definition handleBackspaceKey (s : Store) : Store * option Cmd :=
  if (GetActiveSection s =? SectionHeaders)%Z then
    if Nat.ltb 0 (s_len (headers (model s)))
       && str_eqb (ti_value (headerInput (model s))) "" then
      (RemoveLastHeader s, None)
    else (s, None)
  else if (GetActiveSection s =? SectionParams)%Z then
    if Nat.ltb 0 (s_len (params (model s)))
       && str_eqb (ti_value (paramInput (model s))) "" then
      (RemoveLastParam s, None)
    else (s, None)
  else (s, None).

(** The viewport scrolled when the response section is active. *)
Definition scroll_response (f : viewport -> viewport) (s : Store) : Store :=
  if (GetActiveSection s =? SectionResponse)%Z then
    on_model (fun m => set_responseVP (f (responseVP m)) m) s
  else s.

Definition handleNavigationMode (s : Store) (k : string) : Store * option Cmd :=
  if key_in k ["ctrl+c"; "q"] then (s, Some Quit)
  else if key_in k ["i"; "a"] then (updateFocus (SetInputMode true s), None)
  else if key_in k ["tab"] then
    (updateFocus
       (SetActiveSection (int_rem (int_add (GetActiveSection s) 1) 6) s), None)
  else if key_in k ["shift+tab"] then
    (updateFocus
       (SetActiveSection (int_rem (int_add (GetActiveSection s) 5) 6) s), None)
  else if key_in k ["1"] then
    (updateFocus (SetActiveSection SectionMethod s), None)
  else if key_in k ["2"] then (updateFocus (SetActiveSection SectionURL s), None)
  else if key_in k ["3"] then
    (updateFocus (SetActiveSection SectionHeaders s), None)
  else if key_in k ["4"] then
    (updateFocus (SetActiveSection SectionBody s), None)
  else if key_in k ["5"] then
    (updateFocus (SetActiveSection SectionParams s), None)
  else if key_in k ["6"] then
    (updateFocus (SetActiveSection SectionResponse s), None)
  else if key_in k ["up"; "k"] then
    (scroll_response (viewport_LineUp 1) s, None)
  else if key_in k ["down"; "j"] then
    (scroll_response (viewport_LineDown 1) s, None)
  else if key_in k ["pageup"] then (scroll_response viewport_PageUp s, None)
  else if key_in k ["pagedown"] then (scroll_response viewport_PageDown s, None)
  else if key_in k ["left"; "h"] then
    if (GetActiveSection s =? SectionMethod)%Z then
      (SetSelectedMethod
         (int_rem (int_add (int_sub (GetSelectedMethod s) 1) nMethods) nMethods)
         s, None)
    else (s, None)
  else if key_in k ["right"; "l"] then
    if (GetActiveSection s =? SectionMethod)%Z then
      (SetSelectedMethod
         (int_rem (int_add (GetSelectedMethod s) 1) nMethods) s, None)
    else (s, None)
  else if key_in k ["enter"] then handleEnterKey s
  else if key_in k ["backspace"] then handleBackspaceKey s
  else (s, None).

Definition handleInputMode (s : Store) (k : string) : Store * option Cmd :=
  if key_in k ["esc"] then (updateFocus (SetInputMode false s), None)
  else if key_in k ["ctrl+c"; "q"] then
    if negb (GetActiveSection s =? SectionBody)%Z then (s, Some Quit)
    else (s, None)
  else if key_in k ["up"; "k"] then
    (scroll_response (viewport_LineUp 1) s, None)
  else if key_in k ["down"; "j"] then
    (scroll_response (viewport_LineDown 1) s, None)
  else if key_in k ["pageup"] then (scroll_response viewport_PageUp s, None)
  else if key_in k ["pagedown"] then (scroll_response viewport_PageDown s, None)
  else (s, None).

Definition HandleKeyEvent (s : Store) (k : string) : Store * option Cmd :=
  if negb (GetInputMode s) then handleNavigationMode s k
  else handleInputMode s k.

Definition UpdateComponents (s : Store) (msg : Msg) : Store :=
  if GetInputMode s then
    if (GetActiveSection s =? SectionURL)%Z then
      on_model (fun m => set_urlInput (ti_Update (urlInput m) msg) m) s
    else if (GetActiveSection s =? SectionHeaders)%Z then
      on_model (fun m => set_headerInput (ti_Update (headerInput m) msg) m) s
    else if (GetActiveSection s =? SectionBody)%Z then
      on_model (fun m => set_bodyInput (ta_Update (bodyInput m) msg) m) s
    else if (GetActiveSection s =? SectionParams)%Z then
      on_model (fun m => set_paramInput (ti_Update (paramInput m) msg) m) s
    else if (GetActiveSection s =? SectionResponse)%Z then
      on_model (fun m => set_responseVP (viewport_Update (responseVP m) msg) m) s
    else s
  else
    if (GetActiveSection s =? SectionResponse)%Z then
      on_model (fun m => set_responseVP (viewport_Update (responseVP m) msg) m) s
    else s.

(** *** [main.go]: the event loop

    [App.Update]: the message is handled by its type and then, whatever
    it was, forwarded to the widgets.  The result is the model and the
    command of the key handler (those of the widgets are not part of the
    model). *)
Definition Update (s : Store) (msg : Msg) : Store * option Cmd :=
  let '(s, cmd) :=
    match msg with
    | WindowSizeMsg w h => (UpdateDimensions w h s, None)
    | KeyMsg k => HandleKeyEvent s k
    | ResponseDataMsg d => (SetResponseData d s, None)
    | ErrorDataMsg e => (SetError e s, None)
    | FilterMatchesMsg _ | OtherMsg => (s, None)
    end in
  (UpdateComponents s msg, cmd).

(** The states of a run of the event loop. *)
Inductive reachable : Store -> Prop :=
| reach_init : reachable NewAppModel
| reach_update s msg : reachable s -> reachable (fst (Update s msg)).

End Program.

End TwoPane.

(** ** Running the model *)

(** Keys pressed one after the other. *)
Fixpoint press {E : Env} (s : Store) (keys : list string) : option Store :=
  match keys with
  | [] => Some s
  | k :: keys =>
      match HandleKeyEvent s k with
      | Some (s', _, _) => press s' keys
      | None => None
      end
  end.

(** A key of one character typed at the end of a text. *)
Definition type_char (v : string) (msg : Msg) : string :=
  match msg with
  | KeyMsg k => if Nat.eqb (String.length k) 1 then v ++ k else v
  | _ => v
  end.

(** The list of the examples.  The key / starts a filter, which shows
    every item at first, with the index on the first of them; a
    [FilterMatchesMsg] replaces the items shown while a filter is on.
    Without a filter, j and down move the index to the next item, up to
    the last one, and k and up to the previous one. *)
Definition plain_list_filter (l : listModel) (msg : Msg) : option (list nat) :=
  match msg, l_filter l with
  | KeyMsg k, None =>
      if str_eqb k "/" then Some (seq 0 (length (l_items l))) else None
  | FilterMatchesMsg ranks, Some _ => Some ranks
  | _, f => f
  end.

Definition plain_list_index (l : listModel) (msg : Msg) : nat :=
  match msg, l_filter l with
  | KeyMsg k, None =>
      if str_eqb k "/" then 0%nat
      else if key_in k ["j"; "down"] then
        Nat.min (l_index l + 1) (length (l_items l) - 1)
      else if key_in k ["k"; "up"] then (l_index l - 1)%nat
      else l_index l
  | _, _ => l_index l
  end.

(** An environment to run examples in: capacities double, a focused
    input appends the character typed, the list filters and moves as
    above, no text is JSON and the network is down. *)
Definition plainEnv : Env := {|
  growslice := fun c => (2 * c)%nat;
  textinput_edit := fun t msg => mkTextinput (type_char (ti_value t) msg) true;
  textarea_edit := fun t msg => mkTextarea (type_char (ta_value t) msg) true;
  viewport_SetContent := fun c v => mkViewport c (vp_YOffset v);
  viewport_Update := fun v _ => v;
  list_Update_index := plain_list_index;
  list_Update_filter := plain_list_filter;
  json_Indent := fun _ => None;
  SendRequest := fun _ => inr "offline"
|}.

Definition contentType : Header := mkHeader "Content-Type" "application/json".

(** Text typed into a field: the field holds it afterwards. *)
Definition with_url (v : string) : Store -> Store :=
  on_model (fun m => set_urlInput (ti_SetValue v (urlInput m)) m).
Definition with_headerText (v : string) : Store -> Store :=
  on_model (fun m => set_headerInput (ti_SetValue v (headerInput m)) m).
Definition with_paramText (v : string) : Store -> Store :=
  on_model (fun m => set_paramInput (ti_SetValue v (paramInput m)) m).
Definition with_saveName (v : string) : Store -> Store :=
  on_model (fun m => set_saveNameInput (ti_SetValue v (saveNameInput m)) m).

(** Save the draft as "Demo"; replace its header by (X, 1); load "Demo"
    from the saved list.  The result is the state after the save and the
    state after the load. *)
Definition save_edit_load {E : Env} (path : string) : option (Store * Store) :=
  s ← press (NewAppModel path [] [] None) ["ctrl+s"];
  saved ← press (with_saveName "Demo" s) ["enter"];
  s ← press saved ["3"; "backspace"; "i"];
  loaded ← press (with_headerText "X=1" s) ["enter"; "esc"; "l"; "l"; "enter"];
  Some (saved, loaded).

(** Send with Enter; then, before the command runs, select the next
    method and remove the header.  The result is the state at dispatch
    and the state in which the command runs. *)
Definition send_then_edit {E : Env} (path : string) : option (Store * Store) :=
  match HandleKeyEvent (with_url "http://x/y" (NewAppModel path [] [] None))
          "enter" with
  | Some (dispatched, Some sendRequest, true) =>
      later ← press dispatched ["l"; "3"; "backspace"];
      Some (dispatched, later)
  | _ => None
  end.

(** *** Example states *)

Definition fresh : Store := NewAppModel "requests.json" [] [] None.

(** Two saved requests in the file, as decoded, and the arrays of their
    headers and parameters. *)
Definition fileHeaders : heap Header := [[mkHeader "K" "V"]; []].

Definition fileParams : heap Param := [[]; [mkParam "q" "1"]].

Definition reqA : SavedRequest :=
  mkSavedRequest "A" MethodGET "http://a" "" (Slice 0 1 1) (Slice 0 0 0).

Definition reqB : SavedRequest :=
  mkSavedRequest "B" MethodPOST "http://b" "{}" (Slice 1 0 0) (Slice 1 1 1).

Definition withFile : Store :=
  NewAppModel "requests.json" fileHeaders fileParams (Some [reqA; reqB]).

(** The delete confirmation, opened on the first saved request. *)
Definition confirming : Store :=
  SetIsDeleting true (SetActiveTab TabSaved (SetActiveSection SectionURL withFile)).

(** The save prompt, opened on the fresh model. *)
Definition prompting : Store :=
  on_model (fun m => set_saveNameInput (ti_Focus (saveNameInput m)) m)
    (SetIsSaving true fresh).

Definition headerTyped (v : string) : Store :=
  with_headerText v (SetActiveSection SectionHeaders fresh).

Definition paramTyped (v : string) : Store :=
  with_paramText v (SetActiveSection SectionParams fresh).

(** The fresh model in text-edit mode on the URL section. *)
Definition editingURL : Store :=
  updateFocus (SetInputMode true (SetActiveSection SectionURL fresh)).

(** The headers (A, 1) and (B, 2), Headers section active. *)
Definition headersAB : Store :=
  SetActiveSection SectionHeaders
    (AddHeader (E := plainEnv) "B" "2"
       (AddHeader (E := plainEnv) "A" "1" (RemoveLastHeader fresh))).

(** The parameter (q, 1), Params section active. *)
Definition paramsQ : Store :=
  SetActiveSection SectionParams (AddParam (E := plainEnv) "q" "1" fresh).

(** The delete confirmation, opened with no saved request. *)
Definition confirmingNothing : Store :=
  SetIsDeleting true (SetActiveTab TabSaved (SetActiveSection SectionURL fresh)).

(** The fresh model on the saved tab, URL section. *)
Definition onSavedTab : Store :=
  SetActiveTab TabSaved (SetActiveSection SectionURL fresh).

(** The keys / and B and then the result of the filter, which matches
    the second item only, each forwarded to the widgets. *)
Definition filter_for_B (s : Store) : Store :=
  UpdateComponents (E := plainEnv)
    (UpdateComponents (E := plainEnv)
       (UpdateComponents (E := plainEnv) s (KeyMsg "/")) (KeyMsg "B"))
    (FilterMatchesMsg [1%nat]).

(** The second saved request of [withFile], as it is written to the
    file. *)
Definition reqB_written : SavedRequestJSON :=
  mkSavedRequestJSON "B" MethodPOST "http://b" "{}" [] [mkParam "q" "1"].

(** The save prompt with the name Demo typed. *)
Definition promptingDemo : Store := with_saveName "Demo" prompting.

(** A file whose one saved request has the method 7. *)
Definition reqBad : SavedRequest :=
  mkSavedRequest "bad" 7 "http://a" "" (Slice 0 0 0) (Slice 0 0 0).

Definition withBadFile : Store :=
  NewAppModel "requests.json" [[]] [[]] (Some [reqBad]).

(** A viewport that does not scroll, to run the two-pane variant. *)
Definition plainScroll : TwoPane.Scroll := {|
  TwoPane.viewport_LineUp := fun _ v => v;
  TwoPane.viewport_LineDown := fun _ v => v;
  TwoPane.viewport_PageUp := fun v => v;
  TwoPane.viewport_PageDown := fun v => v
|}.

(** The two-pane model with the URL section active; with the headers
    (A, 1) and (B, 2) and the Headers section active. *)
Definition paneURL : TwoPane.Store :=
  TwoPane.SetActiveSection SectionURL TwoPane.NewAppModel.

Definition paneHeadersAB : TwoPane.Store :=
  TwoPane.SetActiveSection SectionHeaders
    (TwoPane.AddHeader (E := plainEnv) "B" "2"
       (TwoPane.AddHeader (E := plainEnv) "A" "1" TwoPane.NewAppModel)).

(** *** Notions used by the further properties *)

(** The case labels of [handleNavigationMode]. *)
Definition navigation_keys : list string :=
  ["ctrl+c"; "q"; "i"; "a"; "ctrl+s"; "left"; "h"; "right"; "l"; "k"; "up";
   "j"; "down"; "tab"; "shift+tab"; "1"; "2"; "3"; "4"; "5"; "d"; "enter";
   "backspace"].

(** The tab and the section are values of their enumerations. *)
Definition position_ok (s : Store) : Prop :=
  0 <= GetActiveTab s < 3 /\ 0 <= GetActiveSection s < 5.

(** An index of [MethodNames]. *)
Definition method_ok (m : Z) : Prop := 0 <= m < 7.

(** The selected method and the methods of the saved requests are
    indices of [MethodNames]. *)
Definition methods_ok (s : Store) : Prop :=
  method_ok (GetSelectedMethod s) /\
  Forall (fun r => method_ok (Method r)) (savedRequests (model s)) /\
  Forall (fun r => method_ok (Method r)) (l_items (savedList (model s))).

(** The draft, by value: method, URL, body, headers, parameters. *)
Definition draft (s : Store)
  : Z * string * string * list Header * list Param :=
  (GetSelectedMethod s, URLInputValue s, BodyInputValue s,
   GetHeaders s, GetParams s).

(** Which of the four inputs of the request tab are focused. *)
Definition focus_of (s : Store) : bool * bool * bool * bool :=
  (ti_focus (urlInput (model s)), ti_focus (headerInput (model s)),
   ta_focus (bodyInput (model s)), ti_focus (paramInput (model s))).

(** Edits of the draft that remove nothing: a header or a parameter
    added, another method selected, the URL field or the body field
    changed by its widget. *)
Inductive Edit :=
| EditAddHeader (key value : string)
| EditAddParam (key value : string)
| EditMethod (m : Z)
| EditURL (t : textinput)
| EditBody (t : textarea).

Definition apply_edit {E : Env} (s : Store) (e : Edit) : Store :=
  match e with
  | EditAddHeader key value => AddHeader key value s
  | EditAddParam key value => AddParam key value s
  | EditMethod m => SetSelectedMethod m s
  | EditURL t => on_model (set_urlInput t) s
  | EditBody t => on_model (set_bodyInput t) s
  end.

(** Slice [t] ends where slice [s] ends or before, when they share
    their array: [append(s, x)] then writes beyond [t]. *)
Definition behind (t s : slice) : Prop :=
  s_arr t = s_arr s -> (s_len t <= s_len s)%nat.

(** The slices of a saved request lie in the store, behind those of the
    draft. *)
Definition preset_behind_draft (s : Store) (r : SavedRequest) : Prop :=
  wf_slice (headerMem s) (headers (model s)) /\
  wf_slice (paramMem s) (params (model s)) /\
  wf_saved (headerMem s) (paramMem s) r /\
  behind (Headers r) (headers (model s)) /\
  behind (Params r) (params (model s)).

(** The section of the two-pane variant is one of its six sections. *)
Definition pane_section_ok (s : TwoPane.Store) : Prop :=
  0 <= TwoPane.GetActiveSection s < 6.

(** * Properties *)

(** ** Slices *)

Section GoSliceFacts.
Context {A : Type}.
Variable zero : A.
Variable growslice : nat -> nat.

Lemma elems_length (h : heap A) s : wf_slice h s -> length (elems h s) = s_len s.
Proof.
  intros [Hle [a [Ha Hc]]]. unfold elems, backing. rewrite Ha. simpl.
  rewrite length_take. lia.
Qed.

Lemma elems_append (h : heap A) s x :
  wf_slice h s ->
  elems (fst (go_append zero growslice h s x)) (snd (go_append zero growslice h s x)) = elems h s ++ [x].
Proof.
  intros [Hle [a [Ha Hc]]]. unfold go_append.
  destruct (Nat.ltb_spec (s_len s) (s_cap s)) as [Hlt | Hge]; simpl.
  - unfold elems, backing. simpl. rewrite Ha. simpl.
    rewrite list_lookup_insert_eq by (apply lookup_lt_Some in Ha; lia).
    simpl.
    assert (Hn : (s_len s < length a)%nat) by lia.
    destruct (lookup_lt_is_Some_2 a (s_len s) Hn) as [y Hy].
    rewrite (take_S_r (<[s_len s:=x]> a) (s_len s) x)
      by (apply list_lookup_insert_eq; lia).
    f_equal. apply take_insert_ge. lia.
  - unfold elems at 1. unfold backing. simpl.
    rewrite lookup_app_r by lia. rewrite Nat.sub_diag. simpl.
    assert (Hl : length (elems h s) = s_len s).
    { unfold elems, backing. rewrite Ha. simpl. rewrite length_take. lia. }
    set (r := replicate _ zero). set (e := elems h s) in *.
    replace (S (s_len s)) with (length (e ++ [x]))
      by (rewrite length_app; simpl; lia).
    change (e ++ x :: r) with (e ++ [x] ++ r).
    rewrite app_assoc. apply take_app_length.
Qed.

Lemma take_pred_removelast (l : list A) (n : nat) :
  (n <= length l)%nat -> take (n - 1) l = removelast (take n l).
Proof.
  revert n. induction l as [| y l IH]; intros n Hn.
  - now rewrite !take_nil.
  - destruct n as [| n]; [reflexivity |].
    simpl in Hn. simpl. rewrite Nat.sub_0_r.
    destruct n as [| n]; [now rewrite take_0 |].
    destruct l as [| z l]; [simpl in Hn; lia |].
    specialize (IH (S n) ltac:(lia)). simpl in IH.
    rewrite Nat.sub_0_r in IH. simpl. f_equal. exact IH.
Qed.

Lemma elems_prefix_pred (h : heap A) s :
  wf_slice h s ->
  elems h (go_prefix s (s_len s - 1)) = removelast (elems h s).
Proof.
  intros [Hle [a [Ha Hc]]]. unfold elems, go_prefix, backing. simpl.
  rewrite Ha. simpl. apply take_pred_removelast. lia.
Qed.

Lemma wf_prefix (h : heap A) s n :
  wf_slice h s -> (n <= s_len s)%nat -> wf_slice h (go_prefix s n).
Proof.
  intros [Hle [a [Ha Hc]]] Hn. split; simpl; [lia |]. now exists a.
Qed.

Lemma wf_append (h : heap A) s x :
  wf_slice h s -> wf_slice (fst (go_append zero growslice h s x)) (snd (go_append zero growslice h s x)).
Proof.
  intros [Hle [a [Ha Hc]]]. unfold go_append.
  destruct (Nat.ltb_spec (s_len s) (s_cap s)) as [Hlt | Hge]; simpl.
  - split; simpl; [lia |].
    exists (<[s_len s := x]> a). unfold backing. rewrite Ha. simpl.
    split.
    + apply list_lookup_insert_eq. apply lookup_lt_Some in Ha. exact Ha.
    + rewrite length_insert. exact Hc.
  - split; simpl; [lia |].
    eexists. split.
    + rewrite lookup_app_r by lia. rewrite Nat.sub_diag. reflexivity.
    + rewrite length_app. simpl. rewrite length_replicate.
      assert (Hl : length (elems h s) = s_len s).
      { unfold elems, backing. rewrite Ha. simpl. rewrite length_take. lia. }
      lia.
Qed.
Lemma wf_append_other (h : heap A) s x t :
  wf_slice h t -> wf_slice (fst (go_append zero growslice h s x)) t.
Proof.
  intros [Hle [a [Ha Hc]]]. unfold go_append.
  destruct (Nat.ltb (s_len s) (s_cap s)); simpl; (split; [exact Hle |]).
  - destruct (decide (s_arr s = s_arr t)) as [Heq | Hne].
    + exists (<[s_len s := x]> a). unfold backing. rewrite Heq, Ha. simpl.
      split; [| now rewrite length_insert].
      apply list_lookup_insert_eq. now apply lookup_lt_Some in Ha.
    + exists a. split; [| exact Hc]. now rewrite list_lookup_insert_ne.
  - exists a. split; [| exact Hc]. now apply lookup_app_l_Some.
Qed.

Lemma wf_grow (h : heap A) a t : wf_slice h t -> wf_slice (h ++ [a]) t.
Proof.
  intros [Hle [b [Hb Hc]]]. split; [exact Hle |].
  exists b. split; [| exact Hc]. now apply lookup_app_l_Some.
Qed.

Lemma wf_lit (h : heap A) l : wf_slice (fst (go_lit h l)) (snd (go_lit h l)).
Proof.
  split; simpl; [lia |]. exists l. split; [| lia].
  rewrite lookup_app_r by lia. now rewrite Nat.sub_diag.
Qed.
End GoSliceFacts.

(** ** Strings *)

Example SplitN_first_only : SplitN_eq_2 "X=1=2" = ["X"; "1=2"].
Proof. reflexivity. Qed.

Example SplitN_no_separator : SplitN_eq_2 "noequalsign" = ["noequalsign"].
Proof. reflexivity. Qed.

Example SplitN_empty_value : SplitN_eq_2 "X=" = ["X"; ""].
Proof. reflexivity. Qed.

Example ToLower_keys : map ToLower ["Y"; "N"; "ESC"; "Esc"; "y"] = ["y"; "n"; "esc"; "esc"; "y"].
Proof. reflexivity. Qed.

Example previous_tab_wraps :
  int_rem (int_add (int_sub TabRequest 1) 3) 3 = TabSaved.
Proof. reflexivity. Qed.

Lemma str_eqb_eq a b : str_eqb a b = true <-> a = b.
Proof. apply String.eqb_eq. Qed.

Lemma str_eqb_neq a b : str_eqb a b = false <-> a <> b.
Proof. apply String.eqb_neq. Qed.

Lemma cut_eq_first key value :
  no_eq key = true -> cut_eq (key ++ "=" ++ value) = Some (key, value).
Proof.
  change ("=" ++ value)%string with (String "="%char value).
  induction key as [| c key IH]; simpl; intros H; [reflexivity |].
  apply andb_prop in H as [Hc Hk].
  apply negb_true_iff in Hc. rewrite Hc, (IH Hk). reflexivity.
Qed.

Lemma cut_eq_none v : no_eq v = true -> cut_eq v = None.
Proof.
  induction v as [| c v IH]; simpl; intros H; [reflexivity |].
  apply andb_prop in H as [Hc Hv].
  apply negb_true_iff in Hc. rewrite Hc, (IH Hv). reflexivity.
Qed.

Lemma append_eq_nonempty key value : str_eqb (key ++ "=" ++ value) "" = false.
Proof. apply str_eqb_neq. destruct key; discriminate. Qed.

(** ** The list of saved requests *)

(** The selected item is one of the items, with or without a filter. *)
Lemma l_SelectedItem_item (l : listModel) (r : SavedRequest) :
  l_SelectedItem l = Some r -> r ∈ l_items l.
Proof.
  unfold l_SelectedItem, l_VisibleItems. intros Hsel.
  apply list_elem_of_lookup_2 in Hsel.
  destruct (l_filter l) as [ranks |]; [| exact Hsel].
  apply list_elem_of_omap in Hsel as [i [_ Hi]].
  exact (list_elem_of_lookup_2 _ _ _ Hi).
Qed.

(** Without a filter the selected item is the item under the index. *)
Lemma l_SelectedItem_unfiltered (l : listModel) :
  l_filter l = None -> l_SelectedItem l = l_items l !! l_index l.
Proof. unfold l_SelectedItem, l_VisibleItems. now intros ->. Qed.

(** ** Well-formed memory *)

Section WellFormed.
Context {E : Env}.

Lemma wf_store_shape s s' : shape s' = shape s -> wf_store s -> wf_store s'.
Proof.
  unfold shape, wf_store. intros Hs.
  injection Hs as -> -> -> -> -> ->. auto.
Qed.

Lemma wf_saved_mono (hm hm' : heap Header) (pm pm' : heap Param) l :
  (forall t, wf_slice hm t -> wf_slice hm' t) ->
  (forall t, wf_slice pm t -> wf_slice pm' t) ->
  Forall (wf_saved hm pm) l -> Forall (wf_saved hm' pm') l.
Proof.
  intros Hh Hp Hl. eapply Forall_impl; [exact Hl |].
  intros r [H1 H2]. split; auto.
Qed.

Lemma wf_store_init path hm pm loaded :
  wf_loaded hm pm loaded -> wf_store (NewAppModel path hm pm loaded).
Proof.
  intros Hl.
  assert (Hmono : forall l, Forall (wf_saved hm pm) l ->
            Forall (wf_saved (hm ++ [[contentType]]) (pm ++ [[]])) l).
  { intros l. apply wf_saved_mono; intros t; apply wf_grow. }
  pose proof (wf_lit hm [contentType]) as Hh.
  pose proof (wf_lit pm ([] : list Param)) as Hp.
  destruct loaded as [items |]; unfold wf_store; simpl in *;
    repeat split; auto; try (apply Hh); try (apply Hp); constructor.
Qed.

Lemma wf_store_AddHeader key value s :
  wf_store s -> wf_store (AddHeader key value s).
Proof.
  intros [Hh [Hp [Hs Hi]]]. unfold AddHeader.
  pose proof (wf_append zeroHeader growslice _ _ (mkHeader key value) Hh) as Hnew.
  pose proof (fun t => wf_append_other zeroHeader growslice (headerMem s)
                         (headers (model s)) (mkHeader key value) t) as Hold.
  destruct (go_append zeroHeader growslice (headerMem s) (headers (model s))
              (mkHeader key value)) as [hm hs].
  simpl in *. unfold wf_store. simpl.
  split; [exact Hnew |]. split; [exact Hp |].
  split; (eapply wf_saved_mono; [exact Hold | | eassumption]; auto).
Qed.

Lemma wf_store_AddParam key value s :
  wf_store s -> wf_store (AddParam key value s).
Proof.
  intros [Hh [Hp [Hs Hi]]]. unfold AddParam.
  pose proof (wf_append zeroParam growslice _ _ (mkParam key value) Hp) as Hnew.
  pose proof (fun t => wf_append_other zeroParam growslice (paramMem s)
                         (params (model s)) (mkParam key value) t) as Hold.
  destruct (go_append zeroParam growslice (paramMem s) (params (model s))
              (mkParam key value)) as [pm ps].
  simpl in *. unfold wf_store. simpl.
  split; [exact Hh |]. split; [exact Hnew |].
  split; (eapply wf_saved_mono; [| exact Hold | eassumption]; auto).
Qed.

Lemma wf_store_RemoveLastHeader s : wf_store s -> wf_store (RemoveLastHeader s).
Proof.
  intros [Hh [Hp [Hs Hi]]]. unfold RemoveLastHeader.
  case_match; [| unfold wf_store; auto].
  unfold wf_store. simpl.
  split; [apply (wf_prefix _ _ _ Hh); lia | auto].
Qed.

Lemma wf_store_RemoveLastParam s : wf_store s -> wf_store (RemoveLastParam s).
Proof.
  intros [Hh [Hp [Hs Hi]]]. unfold RemoveLastParam.
  case_match; [| unfold wf_store; auto].
  unfold wf_store. simpl.
  split; [exact Hh |]. split; [apply (wf_prefix _ _ _ Hp); lia | auto].
Qed.

Lemma wf_store_AddNewSavedRequest name s :
  wf_store s -> wf_store (AddNewSavedRequest name s).
Proof.
  intros [Hh [Hp [Hs Hi]]]. unfold wf_store, AddNewSavedRequest. simpl.
  assert (Hall : Forall (wf_saved (headerMem s) (paramMem s))
            (savedRequests (model s) ++
             [mkSavedRequest name (selectedMethod (model s))
                (ti_value (urlInput (model s))) (ta_value (bodyInput (model s)))
                (headers (model s)) (params (model s))])).
  { apply Forall_app. split; [exact Hs |].
    constructor; [split; assumption | constructor]. }
  auto.
Qed.

Lemma wf_store_LoadRequestFromSaved s :
  wf_store s -> wf_store (LoadRequestFromSaved s).
Proof.
  intros [Hh [Hp [Hs Hi]]]. unfold LoadRequestFromSaved.
  destruct (l_SelectedItem (savedList (model s)))
    as [item |] eqn:Hsel; [| unfold wf_store; auto].
  destruct (proj1 (Forall_forall _ _) Hi _ (l_SelectedItem_item _ _ Hsel))
    as [H1 H2].
  unfold wf_store. simpl. auto.
Qed.

Lemma wf_store_DeleteSelectedRequest s s' :
  wf_store s -> DeleteSelectedRequest s = Some s' -> wf_store s'.
Proof.
  intros [Hh [Hp [Hs Hi]]]. unfold DeleteSelectedRequest.
  repeat case_match; intros; simplify_eq; [| unfold wf_store; auto].
  assert (Hall : Forall (wf_saved (headerMem s) (paramMem s))
            (take (l_index (savedList (model s))) (savedRequests (model s)) ++
             drop (l_index (savedList (model s)) + 1) (savedRequests (model s)))).
  { apply Forall_app. split; [now apply Forall_take | now apply Forall_drop]. }
  unfold wf_store. simpl. auto.
Qed.

Lemma wf_store_handleEnterOnRequestTab s :
  wf_store s -> wf_store (fst (handleEnterOnRequestTab s)).
Proof.
  intros Hwf. unfold handleEnterOnRequestTab.
  repeat case_match; simpl; auto.
  - match goal with
    | |- wf_store (on_model _ (AddHeader ?k ?v s)) =>
        apply (wf_store_shape (AddHeader k v s));
        [reflexivity | now apply wf_store_AddHeader]
    end.
  - match goal with
    | |- wf_store (on_model _ (AddParam ?k ?v s)) =>
        apply (wf_store_shape (AddParam k v s));
        [reflexivity | now apply wf_store_AddParam]
    end.
Qed.

Lemma wf_store_handleEnterKey s :
  wf_store s -> wf_store (fst (handleEnterKey s)).
Proof.
  intros Hwf. unfold handleEnterKey. repeat case_match; simpl; auto.
  - now apply wf_store_handleEnterOnRequestTab.
  - now apply wf_store_LoadRequestFromSaved.
Qed.

Lemma wf_store_handleBackspaceKey s :
  wf_store s -> wf_store (fst (handleBackspaceKey s)).
Proof.
  intros Hwf. unfold handleBackspaceKey. repeat case_match; simpl; auto.
  - now apply wf_store_RemoveLastHeader.
  - now apply wf_store_RemoveLastParam.
Qed.

Lemma shape_updateFocus s : shape (updateFocus s) = shape s.
Proof. unfold updateFocus. repeat case_match; reflexivity. Qed.

Ltac by_shape Hwf :=
  repeat (eapply wf_store_shape; [apply shape_updateFocus |]);
  first [ exact Hwf | eapply wf_store_shape; [| exact Hwf]; reflexivity ].

Lemma wf_store_handleNavigationMode s k :
  wf_store s -> wf_store (fst (fst (handleNavigationMode s k))).
Proof.
  intros Hwf.
  pose proof (wf_store_handleEnterKey s Hwf) as Henter.
  pose proof (wf_store_handleBackspaceKey s Hwf) as Hback.
  unfold handleNavigationMode.
  destruct (handleEnterKey s) as [se ce].
  destruct (handleBackspaceKey s) as [sb cb].
  simpl in Henter, Hback.
  repeat case_match; simpl; auto; by_shape Hwf.
Qed.

Lemma wf_store_handleInputMode s k :
  wf_store s -> wf_store (fst (fst (handleInputMode s k))).
Proof.
  intros Hwf.
  pose proof (wf_store_handleEnterOnRequestTab s Hwf) as Henter.
  unfold handleInputMode.
  destruct (handleEnterOnRequestTab s) as [se ce]. simpl in Henter.
  repeat case_match; simpl; auto; by_shape Hwf.
Qed.

Lemma wf_store_handleSaveAsPrompt s k :
  wf_store s -> wf_store (fst (fst (handleSaveAsPrompt s k))).
Proof.
  intros Hwf. unfold handleSaveAsPrompt, close_save_prompt.
  pose proof (wf_store_AddNewSavedRequest
                (ti_value (saveNameInput (model s))) s Hwf) as Hadd.
  repeat case_match; simpl;
    first [ by_shape Hwf | eapply wf_store_shape; [| exact Hadd]; reflexivity ].
Qed.

Lemma wf_store_HandleKeyEvent s k r :
  wf_store s -> HandleKeyEvent s k = Some r -> wf_store (fst (fst r)).
Proof.
  intros Hwf. unfold HandleKeyEvent, handleDeleteConfirmation.
  repeat case_match; intros; simplify_eq; simpl.
  - now apply wf_store_handleSaveAsPrompt.
  - eapply wf_store_shape; [| eapply wf_store_DeleteSelectedRequest; eauto].
    reflexivity.
  - by_shape Hwf.
  - exact Hwf.
  - now apply wf_store_handleNavigationMode.
  - now apply wf_store_handleInputMode.
Qed.

Lemma wf_store_step s s' : wf_store s -> step s s' -> wf_store s'.
Proof.
  intros Hwf Hstep. destruct Hstep as [s k s' cmd eaten Hk | s msg | | |].
  - exact (wf_store_HandleKeyEvent s k _ Hwf Hk).
  - apply (wf_store_shape s); [| exact Hwf].
    unfold UpdateComponents. repeat case_match; reflexivity.
  - apply (wf_store_shape s); [reflexivity | exact Hwf].
  - apply (wf_store_shape s); [reflexivity | exact Hwf].
  - apply (wf_store_shape s); [reflexivity | exact Hwf].
Qed.

(** Every reachable state is well formed: the hypotheses on slices in
    the theorems above hold in every state of a run. *)
Lemma reachable_wf_store s : reachable s -> wf_store s.
Proof.
  induction 1 as [path hm pm loaded Hl | s s' _ IH Hstep].
  - now apply wf_store_init.
  - exact (wf_store_step s s' IH Hstep).
Qed.

End WellFormed.

(** ** The overlays: the invariant *)

Section ModalInvariant.
Context {E : Env}.

Lemma modal_inv_flags s s' : flags s' = flags s -> modal_inv s -> modal_inv s'.
Proof.
  unfold flags, modal_inv, IsSaving, IsDeleting, GetInputMode.
  intros Hf. injection Hf as -> -> -> -> ->. auto.
Qed.

Lemma flags_updateFocus s : flags (updateFocus s) = flags s.
Proof. unfold updateFocus. repeat case_match; reflexivity. Qed.

Lemma flags_AddHeader key value s : flags (AddHeader key value s) = flags s.
Proof. unfold AddHeader. case_match. reflexivity. Qed.

Lemma flags_AddParam key value s : flags (AddParam key value s) = flags s.
Proof. unfold AddParam. case_match. reflexivity. Qed.

Lemma flags_handleEnterOnRequestTab s :
  flags (fst (handleEnterOnRequestTab s)) = flags s.
Proof.
  unfold handleEnterOnRequestTab.
  repeat case_match; simpl; try reflexivity.
  - apply (flags_AddHeader _ _ s).
  - apply (flags_AddParam _ _ s).
Qed.

Lemma modal_inv_LoadRequestFromSaved s :
  modal_inv s -> modal_inv (LoadRequestFromSaved s).
Proof.
  apply modal_inv_flags. unfold LoadRequestFromSaved.
  case_match; reflexivity.
Qed.

Lemma flags_handleBackspaceKey s :
  flags (fst (handleBackspaceKey s)) = flags s.
Proof.
  unfold handleBackspaceKey, RemoveLastHeader, RemoveLastParam.
  repeat case_match; reflexivity.
Qed.

Lemma modal_inv_handleEnterKey s :
  modal_inv s -> modal_inv (fst (handleEnterKey s)).
Proof.
  intros Hinv. unfold handleEnterKey. repeat case_match; simpl; auto.
  - apply (modal_inv_flags s); [apply flags_handleEnterOnRequestTab | exact Hinv].
  - now apply modal_inv_LoadRequestFromSaved.
Qed.

Ltac through_updateFocus :=
  repeat (eapply modal_inv_flags; [apply flags_updateFocus |]).

Ltac by_flags :=
  unfold modal_inv, IsSaving, IsDeleting, GetInputMode in *; cbn in *;
  intuition congruence.

Lemma modal_inv_handleNavigationMode s k :
  IsSaving s = false -> IsDeleting s = false -> GetInputMode s = false ->
  modal_inv s -> modal_inv (fst (fst (handleNavigationMode s k))).
Proof.
  intros Hs Hd Hi Hinv.
  pose proof (modal_inv_handleEnterKey s Hinv) as Henter.
  pose proof (modal_inv_flags s _ (flags_handleBackspaceKey s) Hinv) as Hback.
  unfold handleNavigationMode.
  destruct (handleEnterKey s) as [se ce].
  destruct (handleBackspaceKey s) as [sb cb].
  simpl in Henter, Hback.
  repeat case_match; simpl; auto; through_updateFocus; by_flags.
Qed.

Lemma modal_inv_handleInputMode s k :
  IsSaving s = false -> IsDeleting s = false ->
  modal_inv s -> modal_inv (fst (fst (handleInputMode s k))).
Proof.
  intros Hs Hd Hinv.
  pose proof (modal_inv_flags s _ (flags_handleEnterOnRequestTab s) Hinv)
    as Henter.
  unfold handleInputMode.
  destruct (handleEnterOnRequestTab s) as [se ce]. simpl in Henter.
  repeat case_match; simpl; auto; through_updateFocus; by_flags.
Qed.

Lemma modal_inv_handleSaveAsPrompt s k :
  modal_inv s -> modal_inv (fst (fst (handleSaveAsPrompt s k))).
Proof.
  intros Hinv. unfold handleSaveAsPrompt, close_save_prompt, AddNewSavedRequest.
  repeat case_match; by_flags.
Qed.

Lemma modal_inv_handleDeleteConfirmation s k r :
  modal_inv s -> handleDeleteConfirmation s k = Some r ->
  modal_inv (fst (fst r)).
Proof.
  intros Hinv. unfold handleDeleteConfirmation, DeleteSelectedRequest.
  repeat case_match; intros; simplify_eq; by_flags.
Qed.

Lemma modal_inv_init path hm pm loaded :
  modal_inv (NewAppModel path hm pm loaded).
Proof. destruct loaded; by_flags. Qed.

Lemma modal_inv_HandleKeyEvent s k r :
  modal_inv s -> HandleKeyEvent s k = Some r -> modal_inv (fst (fst r)).
Proof.
  intros Hinv. unfold HandleKeyEvent.
  destruct (IsSaving s) eqn:Hs.
  { injection 1 as <-. now apply modal_inv_handleSaveAsPrompt. }
  destruct (IsDeleting s) eqn:Hd.
  { now apply modal_inv_handleDeleteConfirmation. }
  destruct (GetInputMode s) eqn:Hi; simpl; injection 1 as <-.
  - now apply modal_inv_handleInputMode.
  - now apply modal_inv_handleNavigationMode.
Qed.

Lemma modal_inv_step s s' : modal_inv s -> step s s' -> modal_inv s'.
Proof.
  intros Hinv Hstep. destruct Hstep as [s k s' cmd eaten Hk | s msg | | |].
  - exact (modal_inv_HandleKeyEvent s k _ Hinv Hk).
  - apply (modal_inv_flags s); [| exact Hinv].
    unfold UpdateComponents. repeat case_match; reflexivity.
  - by_flags.
  - by_flags.
  - by_flags.
Qed.

Lemma reachable_modal_inv s : reachable s -> modal_inv s.
Proof.
  induction 1 as [path hm pm loaded _ | s s' _ IH Hstep].
  - apply modal_inv_init.
  - exact (modal_inv_step s s' IH Hstep).
Qed.

End ModalInvariant.

Section Facts.
Context {E : Env}.

(** ** The fresh model *)

Lemma NewAppModel_headers path hm pm loaded :
  GetHeaders (NewAppModel path hm pm loaded) = [contentType].
Proof.
  unfold GetHeaders, NewAppModel, elems, backing. simpl.
  assert (Hh : headers (loadRequests loaded
    (mkAppModel (mkTextinput "" false) (mkTextarea "" false) (mkViewport "" 0)
      (mkTextinput "" false) (mkTextinput "" false) (mkListModel [] None 0)
      (mkTextinput "" false) (Slice (length pm) 0 0) (Slice (length hm) 1 1)
      [] path TabRequest SectionMethod MethodGET false "" "" "" "" false
      false false 0 0)) = Slice (length hm) 1 1)
    by (destruct loaded; reflexivity).
  rewrite Hh. simpl.
  rewrite lookup_app_r by lia. rewrite Nat.sub_diag. reflexivity.
Qed.

(** C10.  The model that [NewAppModel] returns has the one header
    (Content-Type, application/json), whatever the file of saved
    requests holds; and once a URL has been entered, Enter dispatches
    the send command, and the request that this command builds carries
    exactly that header. *)
Theorem fresh_model_default_header path hm pm loaded :
  GetHeaders (NewAppModel path hm pm loaded) = [contentType] /\
  forall url,
    url <> "" ->
    let s := on_model (fun m => set_urlInput (ti_SetValue url (urlInput m)) m)
               (NewAppModel path hm pm loaded) in
    exists s' w msg,
      HandleKeyEvent s "enter" = Some (s', Some sendRequest, true) /\
      sendRequest_run s' = Some (w, msg) /\
      wMethod w = "GET" /\ wURL w = url /\ wHeaders w = [contentType].
Proof.
  split; [apply NewAppModel_headers |].
  intros url Hurl s.
  pose proof (NewAppModel_headers path hm pm loaded) as Hh.
  apply str_eqb_neq in Hurl.
  destruct loaded as [items |];
    unfold HandleKeyEvent, handleNavigationMode, handleEnterKey,
      handleEnterOnRequestTab, sendRequest_run, NewHTTPRequest; simpl;
    unfold URLInputValue; simpl; rewrite Hurl; simpl;
    do 3 eexists; (split; [reflexivity |]); simpl;
    (split; [reflexivity |]); simpl; repeat split; exact Hh.
Qed.

(** ** Folding a response or an error *)

(** C7.  [SetResponseData] stores the formatted body, the status line
    and the elapsed time and clears the error message and [loading];
    [SetError] stores the message and clears the body and [loading].
    After either of them the body and the error message are not both
    non-empty, and [loading] is false. *)
Theorem fold_response_or_error (s : Store) :
  (forall d,
     let m' := model (SetResponseData d s) in
     response m' = FormatJSON (rBody d) /\
     status m' = (rStatus d ++ " (" ++ itoa (rStatusCode d) ++ ")")%string /\
     responseTime m' = rTime d /\
     errorMsg m' = "" /\ loading m' = false /\
     ~ (response m' <> "" /\ errorMsg m' <> "")) /\
  (forall e,
     let m' := model (SetError e s) in
     errorMsg m' = Message e /\
     response m' = "" /\ status m' = "Error" /\ responseTime m' = "" /\
     loading m' = false /\
     ~ (response m' <> "" /\ errorMsg m' <> "")).
Proof.
  split; intros x; simpl; repeat split; try reflexivity;
    intros [Hr He]; congruence.
Qed.

(** C9.  Both folds switch the active tab to the response tab, whatever
    the tab was. *)
Theorem fold_switches_to_response_tab (s : Store) :
  (forall d, GetActiveTab (SetResponseData d s) = TabResponse) /\
  (forall e, GetActiveTab (SetError e s) = TabResponse).
Proof. split; intros; reflexivity. Qed.

End Facts.

Section EnterAndBackspace.
Context {E : Env}.

(** Enter runs [handleEnterOnRequestTab] in navigation mode on the
    request tab and, with the Headers or Params section active, in
    text-edit mode; Backspace runs [handleBackspaceKey] in navigation
    mode and is left to the widget in text-edit mode. *)
Lemma keys_run_the_actions s :
  (mode_of s = Navigation -> GetActiveTab s = TabRequest ->
   HandleKeyEvent s "enter"
   = Some (fst (handleEnterOnRequestTab s), snd (handleEnterOnRequestTab s),
           true)) /\
  (mode_of s = TextEdit ->
   GetActiveSection s = SectionHeaders \/ GetActiveSection s = SectionParams ->
   HandleKeyEvent s "enter"
   = Some (fst (handleEnterOnRequestTab s), snd (handleEnterOnRequestTab s),
           true)) /\
  (mode_of s = Navigation ->
   HandleKeyEvent s "backspace"
   = Some (fst (handleBackspaceKey s), snd (handleBackspaceKey s), true)) /\
  (mode_of s = TextEdit -> HandleKeyEvent s "backspace" = Some (s, None, false)).
Proof.
  unfold mode_of, HandleKeyEvent.
  destruct (IsSaving s); [repeat split; discriminate |].
  destruct (IsDeleting s); [repeat split; discriminate |].
  destruct (negb (GetInputMode s));
    (split; [| split; [| split]]); try discriminate; intros _.
  - intros Htab. unfold handleNavigationMode, handleEnterKey. simpl.
    rewrite Htab. simpl. now destruct (handleEnterOnRequestTab s).
  - unfold handleNavigationMode. simpl. now destruct (handleBackspaceKey s).
  - intros Hsec. unfold handleInputMode. simpl.
    replace ((GetActiveSection s =? SectionHeaders)%Z
             || (GetActiveSection s =? SectionParams)%Z) with true
      by (destruct Hsec as [-> | ->]; reflexivity).
    now destruct (handleEnterOnRequestTab s).
  - reflexivity.
Qed.

Lemma AddHeader_lists key value s :
  wf_slice (headerMem s) (headers (model s)) ->
  GetHeaders (AddHeader key value s) = GetHeaders s ++ [mkHeader key value] /\
  GetParams (AddHeader key value s) = GetParams s.
Proof.
  intros Hwf. unfold AddHeader, GetHeaders, GetParams.
  pose proof (elems_append zeroHeader growslice _ _ (mkHeader key value) Hwf)
    as Happ.
  destruct (go_append zeroHeader growslice (headerMem s) (headers (model s))
              (mkHeader key value)) as [hm hs].
  simpl in *. split; [exact Happ | reflexivity].
Qed.

Lemma AddParam_lists key value s :
  wf_slice (paramMem s) (params (model s)) ->
  GetParams (AddParam key value s) = GetParams s ++ [mkParam key value] /\
  GetHeaders (AddParam key value s) = GetHeaders s.
Proof.
  intros Hwf. unfold AddParam, GetHeaders, GetParams.
  pose proof (elems_append zeroParam growslice _ _ (mkParam key value) Hwf)
    as Happ.
  destruct (go_append zeroParam growslice (paramMem s) (params (model s))
              (mkParam key value)) as [pm ps].
  simpl in *. split; [exact Happ | reflexivity].
Qed.

Lemma enter_adds_header key value s :
  GetActiveSection s = SectionHeaders ->
  ti_value (headerInput (model s)) = (key ++ "=" ++ value)%string ->
  no_eq key = true ->
  handleEnterOnRequestTab s =
    (on_model (fun m => set_headerInput (ti_SetValue "" (headerInput m)) m)
       (AddHeader key value s), None).
Proof.
  intros Hsec Hbuf Hkey. unfold handleEnterOnRequestTab.
  rewrite Hsec, Hbuf. simpl Z.eqb. cbv iota.
  rewrite append_eq_nonempty. unfold SplitN_eq_2.
  rewrite (cut_eq_first key value Hkey). reflexivity.
Qed.

Lemma enter_adds_param key value s :
  GetActiveSection s = SectionParams ->
  ti_value (paramInput (model s)) = (key ++ "=" ++ value)%string ->
  no_eq key = true ->
  handleEnterOnRequestTab s =
    (on_model (fun m => set_paramInput (ti_SetValue "" (paramInput m)) m)
       (AddParam key value s), None).
Proof.
  intros Hsec Hbuf Hkey. unfold handleEnterOnRequestTab.
  rewrite Hsec, Hbuf. simpl Z.eqb. cbv iota.
  rewrite append_eq_nonempty. unfold SplitN_eq_2.
  rewrite (cut_eq_first key value Hkey). reflexivity.
Qed.

Lemma enter_without_equals_header s :
  GetActiveSection s = SectionHeaders ->
  no_eq (ti_value (headerInput (model s))) = true ->
  handleEnterOnRequestTab s = (s, None).
Proof.
  intros Hsec Hbuf. unfold handleEnterOnRequestTab.
  rewrite Hsec. simpl Z.eqb. cbv iota. unfold SplitN_eq_2.
  rewrite (cut_eq_none _ Hbuf). now destruct (negb _).
Qed.

Lemma enter_without_equals_param s :
  GetActiveSection s = SectionParams ->
  no_eq (ti_value (paramInput (model s))) = true ->
  handleEnterOnRequestTab s = (s, None).
Proof.
  intros Hsec Hbuf. unfold handleEnterOnRequestTab.
  rewrite Hsec. simpl Z.eqb. cbv iota. unfold SplitN_eq_2.
  rewrite (cut_eq_none _ Hbuf). now destruct (negb _).
Qed.

(** C5.  The Enter action with the Headers section active: a buffer
    [key=value], where [key] is the text before the first ["="], adds
    the entry (key, value) at the end of the headers, clears the buffer
    and leaves the parameters alone; a buffer without ["="] leaves the
    whole state as it is.  The same holds for the Params section and
    the parameters.  The slice of the list is to lie within its array,
    as it does in every reachable state ([reachable_wf_store]). *)
Theorem enter_splits_on_first_equals (s : Store) :
  (forall key value,
     GetActiveSection s = SectionHeaders ->
     wf_slice (headerMem s) (headers (model s)) ->
     no_eq key = true ->
     ti_value (headerInput (model s)) = (key ++ "=" ++ value)%string ->
     let r := handleEnterOnRequestTab s in
     snd r = None /\
     GetHeaders (fst r) = GetHeaders s ++ [mkHeader key value] /\
     ti_value (headerInput (model (fst r))) = "" /\
     GetParams (fst r) = GetParams s) /\
  (GetActiveSection s = SectionHeaders ->
   no_eq (ti_value (headerInput (model s))) = true ->
   handleEnterOnRequestTab s = (s, None)) /\
  (forall key value,
     GetActiveSection s = SectionParams ->
     wf_slice (paramMem s) (params (model s)) ->
     no_eq key = true ->
     ti_value (paramInput (model s)) = (key ++ "=" ++ value)%string ->
     let r := handleEnterOnRequestTab s in
     snd r = None /\
     GetParams (fst r) = GetParams s ++ [mkParam key value] /\
     ti_value (paramInput (model (fst r))) = "" /\
     GetHeaders (fst r) = GetHeaders s) /\
  (GetActiveSection s = SectionParams ->
   no_eq (ti_value (paramInput (model s))) = true ->
   handleEnterOnRequestTab s = (s, None)).
Proof.
  repeat split.
  - rewrite (enter_adds_header key value s) by assumption. reflexivity.
  - rewrite (enter_adds_header key value s) by assumption.
    apply (AddHeader_lists key value s). assumption.
  - rewrite (enter_adds_header key value s) by assumption. reflexivity.
  - rewrite (enter_adds_header key value s) by assumption.
    apply (AddHeader_lists key value s). assumption.
  - apply enter_without_equals_header; assumption.
  - rewrite (enter_adds_param key value s) by assumption. reflexivity.
  - rewrite (enter_adds_param key value s) by assumption.
    apply (AddParam_lists key value s). assumption.
  - rewrite (enter_adds_param key value s) by assumption. reflexivity.
  - rewrite (enter_adds_param key value s) by assumption.
    apply (AddParam_lists key value s). assumption.
  - apply enter_without_equals_param; assumption.
Qed.

(** C8.  The Enter action with an empty URL field and a section other
    than Headers and Params returns the state it was given and no
    command, so [loading] stays false.  That is what Enter does in
    navigation mode on the request tab, and in text-edit mode, where the
    key is moreover left to the widget. *)
Theorem enter_with_empty_url_is_noop (s : Store) :
  URLInputValue s = "" ->
  GetActiveSection s <> SectionHeaders ->
  GetActiveSection s <> SectionParams ->
  handleEnterOnRequestTab s = (s, None) /\
  (GetLoading s = false ->
   GetLoading (fst (handleEnterOnRequestTab s)) = false) /\
  (mode_of s = Navigation -> GetActiveTab s = TabRequest ->
   HandleKeyEvent s "enter" = Some (s, None, true)) /\
  (mode_of s = TextEdit -> HandleKeyEvent s "enter" = Some (s, None, false)).
Proof.
  intros Hurl Hh Hp.
  apply Z.eqb_neq in Hh. apply Z.eqb_neq in Hp.
  assert (Hnoop : handleEnterOnRequestTab s = (s, None)).
  { unfold handleEnterOnRequestTab. rewrite Hh, Hp, Hurl. reflexivity. }
  split; [exact Hnoop |]. split; [now rewrite Hnoop |]. split.
  - unfold mode_of, HandleKeyEvent. intros Hmode Htab.
    destruct (IsSaving s); [discriminate |].
    destruct (IsDeleting s); [discriminate |].
    destruct (negb (GetInputMode s)); [| discriminate].
    unfold handleNavigationMode, handleEnterKey. simpl.
    rewrite Htab, Hnoop. reflexivity.
  - unfold mode_of, HandleKeyEvent. intros Hmode.
    destruct (IsSaving s); [discriminate |].
    destruct (IsDeleting s); [discriminate |].
    destruct (negb (GetInputMode s)); [discriminate |].
    unfold handleInputMode. simpl. rewrite Hh, Hp. reflexivity.
Qed.

End EnterAndBackspace.

Section Backspace.
Context {E : Env}.

Lemma elems_nonempty_len {A} (h : heap A) sl : elems h sl <> [] -> (0 < s_len sl)%nat.
Proof.
  unfold elems. destruct (s_len sl); [| lia].
  rewrite take_0. congruence.
Qed.

Lemma RemoveLastHeader_lists s :
  wf_slice (headerMem s) (headers (model s)) ->
  GetHeaders s <> [] ->
  GetHeaders (RemoveLastHeader s) = removelast (GetHeaders s) /\
  GetParams (RemoveLastHeader s) = GetParams s.
Proof.
  intros Hwf Hne. unfold RemoveLastHeader.
  apply elems_nonempty_len in Hne. apply Nat.ltb_lt in Hne. rewrite Hne.
  split; [apply (elems_prefix_pred _ _ Hwf) | reflexivity].
Qed.

Lemma RemoveLastParam_lists s :
  wf_slice (paramMem s) (params (model s)) ->
  GetParams s <> [] ->
  GetParams (RemoveLastParam s) = removelast (GetParams s) /\
  GetHeaders (RemoveLastParam s) = GetHeaders s.
Proof.
  intros Hwf Hne. unfold RemoveLastParam.
  apply elems_nonempty_len in Hne. apply Nat.ltb_lt in Hne. rewrite Hne.
  split; [apply (elems_prefix_pred _ _ Hwf) | reflexivity].
Qed.

Lemma removelast_snoc {A} (l : list A) :
  l <> [] -> exists x, l = removelast l ++ [x].
Proof.
  destruct l as [| d l']; [congruence |]. intros Hne.
  exists (List.last (d :: l') d). now apply app_removelast_last.
Qed.

(** C6, as the code has it.  On the request tab, Backspace with the
    Headers section active, an empty header buffer and at least one
    header removes the last header and nothing else; with a non-empty
    buffer it leaves the state as it is, on every tab.  The same holds
    for the Params section and the parameters.  On the other tabs
    Backspace leaves the state as it is.  The slice of the list is to
    lie within its array, as it does in every reachable state
    ([reachable_wf_store]). *)
Theorem backspace_pops_last_on_request_tab (s : Store) :
  (GetActiveTab s = TabRequest ->
   GetActiveSection s = SectionHeaders ->
   wf_slice (headerMem s) (headers (model s)) ->
   ti_value (headerInput (model s)) = "" ->
   GetHeaders s <> [] ->
   let r := handleBackspaceKey s in
   snd r = None /\
   GetHeaders (fst r) = removelast (GetHeaders s) /\
   (exists x, GetHeaders s = GetHeaders (fst r) ++ [x]) /\
   GetParams (fst r) = GetParams s) /\
  (GetActiveSection s = SectionHeaders ->
   ti_value (headerInput (model s)) <> "" ->
   handleBackspaceKey s = (s, None)) /\
  (GetActiveTab s = TabRequest ->
   GetActiveSection s = SectionParams ->
   wf_slice (paramMem s) (params (model s)) ->
   ti_value (paramInput (model s)) = "" ->
   GetParams s <> [] ->
   let r := handleBackspaceKey s in
   snd r = None /\
   GetParams (fst r) = removelast (GetParams s) /\
   (exists x, GetParams s = GetParams (fst r) ++ [x]) /\
   GetHeaders (fst r) = GetHeaders s) /\
  (GetActiveSection s = SectionParams ->
   ti_value (paramInput (model s)) <> "" ->
   handleBackspaceKey s = (s, None)) /\
  (GetActiveTab s <> TabRequest -> handleBackspaceKey s = (s, None)).
Proof.
  split; [| split; [| split; [| split]]].
  - intros Htab Hsec Hwf Hbuf Hne r.
    assert (Hr : r = (RemoveLastHeader s, None)).
    { unfold r, handleBackspaceKey. rewrite Htab, Hsec, Hbuf. simpl.
      pose proof (elems_nonempty_len _ _ Hne) as Hlen.
      apply Nat.ltb_lt in Hlen. now rewrite Hlen. }
    destruct (RemoveLastHeader_lists s Hwf Hne) as [Hh Hp].
    rewrite Hr. simpl. repeat split; auto.
    rewrite Hh. now apply removelast_snoc.
  - intros Hsec Hbuf. apply str_eqb_neq in Hbuf.
    unfold handleBackspaceKey. rewrite Hsec, Hbuf. simpl.
    rewrite andb_false_r. now destruct (negb _).
  - intros Htab Hsec Hwf Hbuf Hne r.
    assert (Hr : r = (RemoveLastParam s, None)).
    { unfold r, handleBackspaceKey. rewrite Htab, Hsec, Hbuf. simpl.
      pose proof (elems_nonempty_len _ _ Hne) as Hlen.
      apply Nat.ltb_lt in Hlen. now rewrite Hlen. }
    destruct (RemoveLastParam_lists s Hwf Hne) as [Hp Hh].
    rewrite Hr. simpl. repeat split; auto.
    rewrite Hp. now apply removelast_snoc.
  - intros Hsec Hbuf. apply str_eqb_neq in Hbuf.
    unfold handleBackspaceKey. rewrite Hsec, Hbuf. simpl.
    rewrite andb_false_r. now destruct (negb _).
  - intros Htab. apply Z.eqb_neq in Htab.
    unfold handleBackspaceKey. now rewrite Htab.
Qed.

End Backspace.

Section BackspaceExample.
#[local] Existing Instance plainEnv.

(** C6, as stated, fails: after the keys 3 (Headers section) and l
    (next tab) the Headers section is active on the response tab, the
    header buffer is empty and there is one header; Backspace does not
    remove it. *)
Lemma backspace_off_request_tab_keeps_headers :
  match press (NewAppModel "requests.json" [] [] None) ["3"; "l"] with
  | Some s =>
      mode_of s = Navigation /\
      GetActiveSection s = SectionHeaders /\
      ti_value (headerInput (model s)) = "" /\
      GetHeaders s = [contentType] /\
      HandleKeyEvent s "backspace" = Some (s, None, true) /\
      GetHeaders (fst (handleBackspaceKey s)) <> removelast (GetHeaders s)
  | None => False
  end.
Proof. vm_compute. repeat split; discriminate. Qed.

End BackspaceExample.

Section DeleteConfirmation.
Context {E : Env}.

Lemma cut_middle {A} (before after : list A) (r : A) (i : nat) :
  length before = i ->
  take i (before ++ r :: after) ++ drop (i + 1) (before ++ r :: after)
  = before ++ after.
Proof.
  intros <-. rewrite take_app_length.
  replace (before ++ r :: after) with ((before ++ [r]) ++ after)
    by now rewrite <- app_assoc.
  rewrite (drop_app_length' (before ++ [r]) after); [reflexivity |].
  rewrite length_app. simpl. lia.
Qed.

Lemma DeleteSelectedRequest_selected s before r after :
  savedRequests (model s) = before ++ r :: after ->
  length before = l_index (savedList (model s)) ->
  exists s',
    DeleteSelectedRequest s = Some s' /\
    savedRequests (model s') = before ++ after /\
    l_items (savedList (model s')) = before ++ after /\
    written s' = map (marshal s') (before ++ after) :: written s /\
    (IsSaving s', IsDeleting s', GetInputMode s')
    = (IsSaving s, IsDeleting s, GetInputMode s).
Proof.
  intros Hl Hi. unfold DeleteSelectedRequest. rewrite Hl, <- Hi.
  assert (Hlen : length (before ++ r :: after)
                 = (length before + 1 + length after)%nat)
    by (rewrite length_app; simpl; lia).
  rewrite Hlen.
  replace (Nat.ltb 0 (length before + 1 + length after)) with true
    by (symmetry; apply Nat.ltb_lt; lia).
  replace (Nat.leb (length before + 1) (length before + 1 + length after))
    with true by (symmetry; apply Nat.leb_le; lia).
  eexists. split; [reflexivity |].
  simpl. rewrite (cut_middle before after r _ eq_refl). repeat split.
Qed.

(** X22.  The delete confirmation while the list has no filter on.  In
    a reachable state in delete-confirmation mode the key goes to
    [handleDeleteConfirmation] and, with the key string compared in
    lower case: ["y"], when the list is unfiltered and its index stands
    on a saved request [r], removes [r], which is the selected item, and
    no other request, shows the remaining requests in the list, writes
    exactly them to the file and returns to navigation mode (with no
    saved request at all it just returns to navigation mode); ["n"] and
    ["esc"] return to navigation mode with the requests and the file
    untouched; any other key returns the state it was given.  In each of
    these the key is consumed and there is no command. *)
Theorem delete_confirmation_without_filter (s : Store) (k : string) :
  reachable s ->
  mode_of s = DeleteConfirm ->
  HandleKeyEvent s k = handleDeleteConfirmation s k /\
  (ToLower k = "y" ->
   forall before r after,
     l_filter (savedList (model s)) = None ->
     savedRequests (model s) = before ++ r :: after ->
     length before = l_index (savedList (model s)) ->
     l_SelectedItem (savedList (model s)) = Some r /\
     exists s',
       handleDeleteConfirmation s k = Some (s', None, true) /\
       savedRequests (model s') = before ++ after /\
       l_items (savedList (model s')) = before ++ after /\
       written s' = map (marshal s') (before ++ after) :: written s /\
       mode_of s' = Navigation) /\
  (ToLower k = "y" ->
   savedRequests (model s) = [] ->
   handleDeleteConfirmation s k = Some (SetIsDeleting false s, None, true) /\
   mode_of (SetIsDeleting false s) = Navigation) /\
  (ToLower k = "n" \/ ToLower k = "esc" ->
   handleDeleteConfirmation s k = Some (SetIsDeleting false s, None, true) /\
   mode_of (SetIsDeleting false s) = Navigation /\
   savedRequests (model (SetIsDeleting false s)) = savedRequests (model s) /\
   written (SetIsDeleting false s) = written s) /\
  (ToLower k <> "y" -> ToLower k <> "n" -> ToLower k <> "esc" ->
   handleDeleteConfirmation s k = Some (s, None, true)).
Proof.
  intros Hreach Hmode.
  destruct (reachable_modal_inv s Hreach) as [_ [Hnav Hsync]].
  unfold mode_of in Hmode.
  destruct (IsSaving s) eqn:Hs; [discriminate |].
  destruct (IsDeleting s) eqn:Hd; [| destruct (negb _); discriminate].
  assert (Hi : GetInputMode s = false) by auto.
  assert (Hexit : mode_of (SetIsDeleting false s) = Navigation).
  { unfold mode_of, IsSaving, IsDeleting, GetInputMode in *. simpl.
    now rewrite Hs, Hi. }
  split; [unfold HandleKeyEvent; now rewrite Hs, Hd |].
  unfold handleDeleteConfirmation. split; [| split; [| split]].
  - intros Hy before r after Hnofilter Hl Hidx. rewrite Hy. simpl.
    split.
    { rewrite (l_SelectedItem_unfiltered _ Hnofilter), Hsync, Hl, <- Hidx.
      apply list_lookup_middle. reflexivity. }
    destruct (DeleteSelectedRequest_selected s before r after Hl Hidx)
      as [s' [Hdel [Hreq [Hitems [Hw Hflags]]]]].
    rewrite Hdel. eexists. split; [reflexivity |].
    split; [exact Hreq |]. split; [exact Hitems |]. split; [exact Hw |].
    injection Hflags as Hs' Hd' Hi'.
    unfold mode_of, IsSaving, IsDeleting, GetInputMode in *. simpl.
    now rewrite Hs', Hs, Hi', Hi.
  - intros Hy Hnil. rewrite Hy. simpl.
    unfold DeleteSelectedRequest. rewrite Hnil. simpl. auto.
  - intros [Hn | Hn]; rewrite Hn; simpl; auto.
  - intros Hy Hn He.
    apply str_eqb_neq in Hy, Hn, He.
    unfold key_in. simpl. now rewrite Hy, Hn, He.
Qed.


End DeleteConfirmation.

(** ** Requests and presets share the draft *)

(** C2, on the code.  A fresh model is saved as "Demo" through the save
    prompt; at that time the draft and the preset have the header
    (Content-Type, application/json), and this is what is written to the
    file.  Backspace in the Headers section and then, in text-edit
    mode, Enter on the text X=1 replace the header of the draft.  Enter on "Demo" in the saved
    list then loads the header (X, 1): the preset kept the array of
    the draft, and the new header was written into it. *)
Theorem preset_shares_the_header_array {E : Env} (path : string) :
  exists saved loaded,
    save_edit_load path = Some (saved, loaded) /\
    GetHeaders saved = [contentType] /\
    written saved =
      [[mkSavedRequestJSON "Demo" MethodGET "" "" [contentType] []]] /\
    mode_of loaded = Navigation /\
    GetActiveTab loaded = TabRequest /\
    GetHeaders loaded = [mkHeader "X" "1"] /\
    map (marshal loaded) (savedRequests (model loaded)) =
      [mkSavedRequestJSON "Demo" MethodGET "" "" [mkHeader "X" "1"] []].
Proof.
  do 2 eexists. split; [vm_compute; reflexivity |].
  repeat split.
Qed.

(** C1, on the code.  Enter with the URL http://x/y sets [loading] and
    returns the send command.  Run at once, the command hands the
    transport a GET with the default header.  Run after the keys l, 3
    and Backspace it hands the transport a POST without headers: the
    command reads the model when it runs. *)
Theorem send_command_reads_the_model_when_run {E : Env} (path : string) :
  exists dispatched later m1 m2,
    send_then_edit path = Some (dispatched, later) /\
    GetLoading dispatched = true /\
    sendRequest_run dispatched =
      Some (mkWireRequest "GET" "http://x/y" [contentType] [] None, m1) /\
    sendRequest_run later =
      Some (mkWireRequest "POST" "http://x/y" [] [] None, m2).
Proof.
  do 4 eexists. split; [vm_compute; reflexivity |].
  repeat split.
Qed.

(** ** The theorems at concrete states *)

Lemma press_reachable {E : Env} keys : forall s s',
  reachable s -> press s keys = Some s' -> reachable s'.
Proof.
  induction keys as [| k keys IH]; simpl; intros s s' Hr Hp.
  - now injection Hp as <-.
  - destruct (HandleKeyEvent s k) as [[[s1 cmd] eaten] |] eqn:Hk;
      [| discriminate].
    apply (IH s1 s'); [| exact Hp].
    apply (reach_step s s1 Hr). exact (step_key s k s1 cmd eaten Hk).
Qed.

Section Witnesses.
#[local] Existing Instance plainEnv.

Lemma confirming_reachable : reachable confirming.
Proof.
  apply (press_reachable ["2"; "l"; "l"; "d"] withFile confirming).
  - apply reach_init. repeat constructor; simpl; eauto.
  - reflexivity.
Qed.

Lemma prompting_reachable : reachable prompting.
Proof.
  apply (press_reachable ["ctrl+s"] fresh prompting).
  - now apply reach_init.
  - reflexivity.
Qed.

Lemma wf_fresh_headers s :
  headerMem s = [[contentType]] -> headers (model s) = Slice 0 1 1 ->
  wf_slice (headerMem s) (headers (model s)).
Proof.
  intros -> ->. split; simpl; [lia |].
  exists [contentType]. split; [reflexivity | simpl; lia].
Qed.

Lemma wf_fresh_params s :
  paramMem s = [[]] -> params (model s) = Slice 0 0 0 ->
  wf_slice (paramMem s) (params (model s)).
Proof.
  intros -> ->. split; simpl; [lia |].
  exists []. split; [reflexivity | simpl; lia].
Qed.

Lemma fresh_model_default_header_witness :
  "http://x/y" <> "" /\
  exists s' w msg,
    HandleKeyEvent (with_url "http://x/y" fresh) "enter"
    = Some (s', Some sendRequest, true) /\
    sendRequest_run s' = Some (w, msg) /\
    wMethod w = "GET" /\ wURL w = "http://x/y" /\ wHeaders w = [contentType].
Proof.
  split; [discriminate |].
  apply (proj2 (fresh_model_default_header "requests.json" [] [] None)
           "http://x/y").
  discriminate.
Defined.

Lemma enter_splits_on_first_equals_witness :
  (let r := handleEnterOnRequestTab (headerTyped "X=1=2") in
   snd r = None /\
   GetHeaders (fst r) = [contentType; mkHeader "X" "1=2"] /\
   ti_value (headerInput (model (fst r))) = "" /\
   GetParams (fst r) = []) /\
  (let r := handleEnterOnRequestTab (headerTyped "X=1") in
   snd r = None /\
   GetHeaders (fst r) = [contentType; mkHeader "X" "1"] /\
   ti_value (headerInput (model (fst r))) = "" /\
   GetParams (fst r) = []) /\
  handleEnterOnRequestTab (headerTyped "noequalsign")
  = (headerTyped "noequalsign", None) /\
  (let r := handleEnterOnRequestTab (paramTyped "q=1") in
   snd r = None /\
   GetParams (fst r) = [mkParam "q" "1"] /\
   ti_value (paramInput (model (fst r))) = "" /\
   GetHeaders (fst r) = [contentType]) /\
  handleEnterOnRequestTab (paramTyped "q") = (paramTyped "q", None).
Proof.
  split; [| split; [| split; [| split]]].
  - exact (proj1 (enter_splits_on_first_equals (headerTyped "X=1=2"))
             "X" "1=2" eq_refl
             (wf_fresh_headers (headerTyped "X=1=2") eq_refl eq_refl)
             eq_refl eq_refl).
  - exact (proj1 (enter_splits_on_first_equals (headerTyped "X=1"))
             "X" "1" eq_refl
             (wf_fresh_headers (headerTyped "X=1") eq_refl eq_refl)
             eq_refl eq_refl).
  - exact (proj1 (proj2 (enter_splits_on_first_equals
                           (headerTyped "noequalsign"))) eq_refl eq_refl).
  - exact (proj1 (proj2 (proj2 (enter_splits_on_first_equals
                                  (paramTyped "q=1"))))
             "q" "1" eq_refl
             (wf_fresh_params (paramTyped "q=1") eq_refl eq_refl)
             eq_refl eq_refl).
  - exact (proj2 (proj2 (proj2 (enter_splits_on_first_equals
                                  (paramTyped "q")))) eq_refl eq_refl).
Defined.

Lemma enter_with_empty_url_is_noop_witness :
  (handleEnterOnRequestTab fresh = (fresh, None) /\
   GetLoading (fst (handleEnterOnRequestTab fresh)) = false /\
   HandleKeyEvent fresh "enter" = Some (fresh, None, true)) /\
  HandleKeyEvent editingURL "enter" = Some (editingURL, None, false).
Proof.
  assert (Hm : GetActiveSection fresh <> SectionHeaders) by discriminate.
  assert (Hp : GetActiveSection fresh <> SectionParams) by discriminate.
  assert (Hm' : GetActiveSection editingURL <> SectionHeaders) by discriminate.
  assert (Hp' : GetActiveSection editingURL <> SectionParams) by discriminate.
  destruct (enter_with_empty_url_is_noop fresh eq_refl Hm Hp)
    as [H1 [H2 [H3 _]]].
  destruct (enter_with_empty_url_is_noop editingURL eq_refl Hm' Hp')
    as [_ [_ [_ H4]]].
  split; [split; [exact H1 | split; [exact (H2 eq_refl) |
                                     exact (H3 eq_refl eq_refl)]] |].
  exact (H4 eq_refl).
Defined.

Lemma backspace_pops_last_on_request_tab_witness :
  (let r := handleBackspaceKey headersAB in
   snd r = None /\
   GetHeaders (fst r) = [mkHeader "A" "1"] /\
   (exists x, [mkHeader "A" "1"; mkHeader "B" "2"] = GetHeaders (fst r) ++ [x]) /\
   GetParams (fst r) = []) /\
  handleBackspaceKey (with_headerText "B=" headersAB)
  = (with_headerText "B=" headersAB, None) /\
  (let r := handleBackspaceKey paramsQ in
   snd r = None /\
   GetParams (fst r) = [] /\
   (exists x, [mkParam "q" "1"] = GetParams (fst r) ++ [x]) /\
   GetHeaders (fst r) = [contentType]) /\
  handleBackspaceKey (with_paramText "q" paramsQ)
  = (with_paramText "q" paramsQ, None) /\
  handleBackspaceKey (SetActiveTab TabResponse headersAB)
  = (SetActiveTab TabResponse headersAB, None).
Proof.
  assert (HwfH : wf_slice (headerMem headersAB) (headers (model headersAB))).
  { split; simpl; [lia |]. eexists. split; [reflexivity | simpl; lia]. }
  assert (HwfP : wf_slice (paramMem paramsQ) (params (model paramsQ))).
  { split; simpl; [lia |]. eexists. split; [reflexivity | simpl; lia]. }
  assert (HneH : GetHeaders headersAB <> []) by discriminate.
  assert (HneP : GetParams paramsQ <> []) by discriminate.
  assert (HbH : ti_value (headerInput (model (with_headerText "B=" headersAB)))
                <> "") by discriminate.
  assert (HbP : ti_value (paramInput (model (with_paramText "q" paramsQ)))
                <> "") by discriminate.
  assert (Htab : GetActiveTab (SetActiveTab TabResponse headersAB) <> TabRequest)
    by discriminate.
  split; [| split; [| split; [| split]]].
  - exact (proj1 (backspace_pops_last_on_request_tab headersAB)
             eq_refl eq_refl HwfH eq_refl HneH).
  - exact (proj1 (proj2 (backspace_pops_last_on_request_tab
                           (with_headerText "B=" headersAB))) eq_refl HbH).
  - exact (proj1 (proj2 (proj2 (backspace_pops_last_on_request_tab paramsQ)))
             eq_refl eq_refl HwfP eq_refl HneP).
  - exact (proj1 (proj2 (proj2 (proj2 (backspace_pops_last_on_request_tab
                                         (with_paramText "q" paramsQ)))))
             eq_refl HbP).
  - exact (proj2 (proj2 (proj2 (proj2 (backspace_pops_last_on_request_tab
                                         (SetActiveTab TabResponse headersAB)))))
             Htab).
Defined.

Lemma confirmingNothing_reachable : reachable confirmingNothing.
Proof.
  apply (press_reachable ["2"; "l"; "l"; "d"] fresh confirmingNothing).
  - now apply reach_init.
  - reflexivity.
Qed.

Lemma delete_confirmation_without_filter_witness :
  (HandleKeyEvent confirming "Y" = handleDeleteConfirmation confirming "Y" /\
   l_SelectedItem (savedList (model confirming)) = Some reqA /\
   exists s',
     handleDeleteConfirmation confirming "Y" = Some (s', None, true) /\
     savedRequests (model s') = [reqB] /\
     l_items (savedList (model s')) = [reqB] /\
     written s' = [map (marshal s') [reqB]] /\
     mode_of s' = Navigation) /\
  (handleDeleteConfirmation confirmingNothing "y"
   = Some (SetIsDeleting false confirmingNothing, None, true) /\
   mode_of (SetIsDeleting false confirmingNothing) = Navigation) /\
  (handleDeleteConfirmation confirming "N"
   = Some (SetIsDeleting false confirming, None, true) /\
   mode_of (SetIsDeleting false confirming) = Navigation /\
   savedRequests (model (SetIsDeleting false confirming)) = [reqA; reqB] /\
   written (SetIsDeleting false confirming) = []) /\
  (handleDeleteConfirmation confirming "esc"
   = Some (SetIsDeleting false confirming, None, true) /\
   mode_of (SetIsDeleting false confirming) = Navigation /\
   savedRequests (model (SetIsDeleting false confirming)) = [reqA; reqB] /\
   written (SetIsDeleting false confirming) = []) /\
  handleDeleteConfirmation confirming "d" = Some (confirming, None, true).
Proof.
  destruct (delete_confirmation_without_filter confirming "Y" confirming_reachable eq_refl)
    as [Hroute [Hyes _]].
  destruct (delete_confirmation_without_filter confirmingNothing "y"
              confirmingNothing_reachable eq_refl) as [_ [_ [Hnone _]]].
  destruct (delete_confirmation_without_filter confirming "N" confirming_reachable eq_refl)
    as [_ [_ [_ [Hno _]]]].
  destruct (delete_confirmation_without_filter confirming "esc" confirming_reachable
              eq_refl) as [_ [_ [_ [Hesc _]]]].
  destruct (delete_confirmation_without_filter confirming "d" confirming_reachable eq_refl)
    as [_ [_ [_ [_ Hother]]]].
  split; [| split; [| split; [| split]]].
  - split; [exact Hroute |].
    exact (Hyes eq_refl [] reqA [reqB] eq_refl eq_refl eq_refl).
  - exact (Hnone eq_refl eq_refl).
  - exact (Hno (or_introl eq_refl)).
  - exact (Hesc (or_intror eq_refl)).
  - apply Hother; discriminate.
Defined.


End Witnesses.

(** ** The delete confirmation and the selection of the list *)

Section DeleteExample.
#[local] Existing Instance plainEnv.

(** C4, on the code.  The file holds the requests A and B.  The keys 2,
    l, l lead to the saved tab.  There the keys / and B are not consumed
    by the navigation handler and reach the list, which filters: it
    shows B only, and B is its selected item, at index 0.  The key d
    opens the delete confirmation and y is consumed, returns to
    navigation mode and writes the file, but the request removed is A,
    the one at index 0 of the saved requests: B, the selected request,
    is what is left and what is written.
    Without any filter, the keys 2, l, l, j, d, y remove B, the second
    and last request, and leave the index of the list on 1, beyond the
    only request left.  The key d opens the confirmation again, nothing
    is selected, and y is not consumed: [DeleteSelectedRequest] slices
    out of range and the program panics. *)
Theorem delete_confirmation_misses_the_selection :
  (exists onTab asking after,
     press withFile ["2"; "l"; "l"] = Some onTab /\
     HandleKeyEvent onTab "/" = Some (onTab, None, false) /\
     HandleKeyEvent (UpdateComponents onTab (KeyMsg "/")) "B"
     = Some (UpdateComponents onTab (KeyMsg "/"), None, false) /\
     l_VisibleItems (savedList (model (filter_for_B onTab))) = [reqB] /\
     press (filter_for_B onTab) ["d"] = Some asking /\
     reachable asking /\
     mode_of asking = DeleteConfirm /\
     savedRequests (model asking) = [reqA; reqB] /\
     l_index (savedList (model asking)) = 0%nat /\
     l_SelectedItem (savedList (model asking)) = Some reqB /\
     HandleKeyEvent asking "y" = Some (after, None, true) /\
     mode_of after = Navigation /\
     savedRequests (model after) = [reqB] /\
     written after = [[reqB_written]]) /\
  (exists asking,
     press withFile ["2"; "l"; "l"; "j"; "d"; "y"; "d"] = Some asking /\
     reachable asking /\
     mode_of asking = DeleteConfirm /\
     savedRequests (model asking) = [reqA] /\
     l_index (savedList (model asking)) = 1%nat /\
     l_SelectedItem (savedList (model asking)) = None /\
     HandleKeyEvent asking "y" = None).
Proof.
  assert (Hfile : reachable withFile).
  { apply reach_init. repeat constructor; simpl; eauto. }
  set (onTab := SetActiveTab TabSaved (SetActiveSection SectionURL withFile)).
  assert (HonTab : press withFile ["2"; "l"; "l"] = Some onTab)
    by (vm_compute; reflexivity).
  split.
  - set (asking := SetIsDeleting true (filter_for_B onTab)).
    assert (Hasking : press (filter_for_B onTab) ["d"] = Some asking)
      by (vm_compute; reflexivity).
    exists onTab, asking. eexists.
    split; [exact HonTab |].
    split; [vm_compute; reflexivity |].
    split; [vm_compute; reflexivity |].
    split; [vm_compute; reflexivity |].
    split; [exact Hasking |].
    split.
    { apply (press_reachable ["d"] (filter_for_B onTab)); [| exact Hasking].
      unfold filter_for_B.
      do 3 (eapply reach_step; [| exact (step_components _ _)]).
      exact (press_reachable ["2"; "l"; "l"] withFile onTab Hfile HonTab). }
    repeat (split; [vm_compute; reflexivity |]).
    vm_compute; reflexivity.
  - eexists. split; [vm_compute; reflexivity |].
    split.
    { eapply (press_reachable ["2"; "l"; "l"; "j"; "d"; "y"; "d"] withFile);
        [exact Hfile | vm_compute; reflexivity]. }
    repeat split; vm_compute; reflexivity.
Qed.

End DeleteExample.

(** * Further properties *)

(** ** Integers of the handlers *)

Lemma int64_small z : - 2 ^ 63 <= z < 2 ^ 63 -> int64 z = z.
Proof.
  intros Hz. unfold int64. rewrite Z.mod_small; lia.
Qed.

Lemma cycle_forward x d n :
  0 <= x < n -> 0 <= d <= n -> n < 2 ^ 62 ->
  int_rem (int_add x d) n = (x + d) mod n /\
  0 <= int_rem (int_add x d) n < n.
Proof.
  intros Hx Hd Hn. unfold int_rem, int_add.
  rewrite int64_small by lia.
  rewrite Z.rem_mod_nonneg by lia.
  split; [reflexivity | apply Z.mod_pos_bound; lia].
Qed.

Lemma cycle_backward x n :
  0 <= x < n -> 1 <= n < 2 ^ 62 ->
  int_rem (int_add (int_sub x 1) n) n = (x - 1) mod n /\
  0 <= int_rem (int_add (int_sub x 1) n) n < n.
Proof.
  intros Hx Hn. unfold int_rem, int_add, int_sub.
  rewrite (int64_small (x - 1)) by lia. rewrite int64_small by lia.
  rewrite Z.rem_mod_nonneg by lia.
  replace (x - 1 + n) with (x - 1 + 1 * n) by lia.
  rewrite Z.mod_add by lia.
  split; [reflexivity | apply Z.mod_pos_bound; lia].
Qed.

Lemma section_of_digit_bounds k : 0 <= section_of_digit k < 5.
Proof. unfold section_of_digit. repeat case_match; lia. Qed.

(** ** The tab and the section stay within their enumerations *)

Section Position.
Context {E : Env}.
#[local] Arguments int_rem : simpl never.
#[local] Arguments int_add : simpl never.
#[local] Arguments int_sub : simpl never.

Lemma position_ok_same s s' :
  GetActiveTab s' = GetActiveTab s ->
  GetActiveSection s' = GetActiveSection s ->
  position_ok s -> position_ok s'.
Proof. unfold position_ok. now intros -> ->. Qed.

Lemma position_updateFocus s :
  GetActiveTab (updateFocus s) = GetActiveTab s /\
  GetActiveSection (updateFocus s) = GetActiveSection s.
Proof. unfold updateFocus. repeat case_match; split; reflexivity. Qed.

Lemma position_handleEnterOnRequestTab s :
  GetActiveTab (fst (handleEnterOnRequestTab s)) = GetActiveTab s /\
  GetActiveSection (fst (handleEnterOnRequestTab s)) = GetActiveSection s.
Proof.
  unfold handleEnterOnRequestTab, AddHeader, AddParam.
  repeat case_match; split; reflexivity.
Qed.

Lemma position_handleBackspaceKey s :
  GetActiveTab (fst (handleBackspaceKey s)) = GetActiveTab s /\
  GetActiveSection (fst (handleBackspaceKey s)) = GetActiveSection s.
Proof.
  unfold handleBackspaceKey, RemoveLastHeader, RemoveLastParam.
  repeat case_match; split; reflexivity.
Qed.

Ltac position_arith :=
  unfold position_ok, GetActiveTab, GetActiveSection in *; cbn in *;
  unfold TabRequest, TabResponse, TabSaved in *;
  split;
  first [ lia
        | apply section_of_digit_bounds
        | apply cycle_forward; lia
        | apply cycle_backward; lia ].

Lemma position_ok_handleEnterKey s :
  position_ok s -> position_ok (fst (handleEnterKey s)).
Proof.
  intros Hok. unfold handleEnterKey, LoadRequestFromSaved.
  destruct (position_handleEnterOnRequestTab s) as [Ht Hs].
  repeat case_match; simpl; auto.
  - exact (position_ok_same _ _ Ht Hs Hok).
  - position_arith.
Qed.

Lemma position_ok_handleNavigationMode s k :
  position_ok s -> position_ok (fst (fst (handleNavigationMode s k))).
Proof.
  intros Hok.
  pose proof (position_ok_handleEnterKey s Hok) as Henter.
  destruct (position_handleBackspaceKey s) as [Ht Hs].
  pose proof (position_ok_same _ _ Ht Hs Hok) as Hback. clear Ht Hs.
  unfold handleNavigationMode.
  destruct (handleEnterKey s) as [se ce].
  destruct (handleBackspaceKey s) as [sb cb].
  simpl in Henter, Hback.
  repeat case_match; simpl; auto;
    repeat (eapply position_ok_same; [apply position_updateFocus ..|]);
    position_arith.
Qed.

Lemma position_ok_HandleKeyEvent s k r :
  position_ok s -> HandleKeyEvent s k = Some r -> position_ok (fst (fst r)).
Proof.
  intros Hok. unfold HandleKeyEvent.
  destruct (IsSaving s).
  { injection 1 as <-.
    unfold handleSaveAsPrompt, close_save_prompt, AddNewSavedRequest.
    repeat case_match; exact Hok. }
  destruct (IsDeleting s).
  { unfold handleDeleteConfirmation, DeleteSelectedRequest.
    repeat case_match; intros; simplify_eq; exact Hok. }
  destruct (negb (GetInputMode s)); injection 1 as <-.
  - now apply position_ok_handleNavigationMode.
  - destruct (position_handleEnterOnRequestTab s) as [Ht Hs].
    pose proof (position_ok_same _ _ Ht Hs Hok) as Henter. clear Ht Hs.
    unfold handleInputMode.
    destruct (handleEnterOnRequestTab s) as [se ce]. simpl in Henter.
    repeat case_match; simpl; auto;
      repeat (eapply position_ok_same; [apply position_updateFocus ..|]);
      exact Hok.
Qed.

Lemma position_ok_step s s' : position_ok s -> step s s' -> position_ok s'.
Proof.
  intros Hok Hstep. destruct Hstep as [s k s' cmd eaten Hk | s msg | | |].
  - exact (position_ok_HandleKeyEvent s k _ Hok Hk).
  - unfold UpdateComponents. repeat case_match; exact Hok.
  - position_arith.
  - position_arith.
  - exact Hok.
Qed.

(** X1.  In every reachable state the active tab is one of the three
    tabs and the active section one of the five sections: the cyclic
    steps of the navigation keys never leave the enumerations. *)
Theorem reachable_position_ok s : reachable s -> position_ok s.
Proof.
  induction 1 as [path hm pm loaded _ | s s' _ IH Hstep].
  - destruct loaded; unfold position_ok; cbn;
      unfold TabRequest, SectionMethod; lia.
  - exact (position_ok_step s s' IH Hstep).
Qed.

End Position.

(** ** The method stays an index of [MethodNames] *)

Section Methods.
Context {E : Env}.
#[local] Arguments int_rem : simpl never.
#[local] Arguments int_add : simpl never.
#[local] Arguments int_sub : simpl never.

Lemma method_next m :
  method_ok m -> method_ok (int_rem (int_add m 1) nMethods).
Proof.
  unfold method_ok. intros Hm. change nMethods with 7.
  apply cycle_forward; lia.
Qed.

Lemma method_prev m :
  method_ok m -> method_ok (int_rem (int_add (int_sub m 1) nMethods) nMethods).
Proof.
  unfold method_ok. intros Hm. change nMethods with 7.
  apply cycle_backward; lia.
Qed.

Lemma methods_ok_same s s' :
  (GetSelectedMethod s', savedRequests (model s'), l_items (savedList (model s')))
  = (GetSelectedMethod s, savedRequests (model s), l_items (savedList (model s))) ->
  methods_ok s -> methods_ok s'.
Proof. unfold methods_ok. injection 1 as -> -> ->. auto. Qed.

Lemma methods_updateFocus s :
  (GetSelectedMethod (updateFocus s), savedRequests (model (updateFocus s)),
   l_items (savedList (model (updateFocus s))))
  = (GetSelectedMethod s, savedRequests (model s), l_items (savedList (model s))).
Proof. unfold updateFocus. repeat case_match; reflexivity. Qed.

Lemma methods_ok_handleEnterOnRequestTab s :
  methods_ok s -> methods_ok (fst (handleEnterOnRequestTab s)).
Proof.
  apply methods_ok_same.
  unfold handleEnterOnRequestTab, AddHeader, AddParam.
  repeat case_match; reflexivity.
Qed.

Lemma methods_ok_handleBackspaceKey s :
  methods_ok s -> methods_ok (fst (handleBackspaceKey s)).
Proof.
  apply methods_ok_same.
  unfold handleBackspaceKey, RemoveLastHeader, RemoveLastParam.
  repeat case_match; reflexivity.
Qed.

Lemma methods_ok_LoadRequestFromSaved s :
  methods_ok s -> methods_ok (LoadRequestFromSaved s).
Proof.
  intros [Hm [Hs Hi]]. unfold LoadRequestFromSaved.
  destruct (l_SelectedItem (savedList (model s)))
    as [item |] eqn:Hsel; [| exact (conj Hm (conj Hs Hi))].
  pose proof (proj1 (Forall_forall _ _) Hi _ (l_SelectedItem_item _ _ Hsel))
    as Hitem.
  exact (conj Hitem (conj Hs Hi)).
Qed.

Lemma methods_ok_handleEnterKey s :
  methods_ok s -> methods_ok (fst (handleEnterKey s)).
Proof.
  intros Hok. unfold handleEnterKey. repeat case_match; simpl; auto.
  - now apply methods_ok_handleEnterOnRequestTab.
  - now apply methods_ok_LoadRequestFromSaved.
Qed.

Ltac methods_frame Hok :=
  repeat (eapply methods_ok_same; [apply methods_updateFocus |]);
  first [ exact Hok | eapply methods_ok_same; [| exact Hok]; reflexivity ].

Lemma methods_ok_handleNavigationMode s k :
  methods_ok s -> methods_ok (fst (fst (handleNavigationMode s k))).
Proof.
  intros Hok.
  pose proof (methods_ok_handleEnterKey s Hok) as Henter.
  pose proof (methods_ok_handleBackspaceKey s Hok) as Hback.
  unfold handleNavigationMode.
  destruct (handleEnterKey s) as [se ce].
  destruct (handleBackspaceKey s) as [sb cb].
  simpl in Henter, Hback.
  destruct Hok as [Hm [Hs Hi]].
  repeat case_match; simpl; auto;
    try (methods_frame (conj Hm (conj Hs Hi)));
    (split; [| split; assumption]).
  - now apply method_prev.
  - now apply method_next.
Qed.

Lemma methods_ok_handleSaveAsPrompt s k :
  methods_ok s -> methods_ok (fst (fst (handleSaveAsPrompt s k))).
Proof.
  intros [Hm [Hs Hi]]. unfold handleSaveAsPrompt, close_save_prompt.
  assert (Hadd : methods_ok
                   (AddNewSavedRequest (ti_value (saveNameInput (model s))) s)).
  { assert (Hall : Forall (fun r => method_ok (Method r))
              (savedRequests (model s) ++
               [mkSavedRequest (ti_value (saveNameInput (model s)))
                  (selectedMethod (model s)) (ti_value (urlInput (model s)))
                  (ta_value (bodyInput (model s))) (headers (model s))
                  (params (model s))])).
    { apply Forall_app. split; [exact Hs |].
      constructor; [exact Hm | constructor]. }
    exact (conj Hm (conj Hall Hall)). }
  repeat case_match; simpl;
    first [ methods_frame (conj Hm (conj Hs Hi))
          | eapply methods_ok_same; [| exact Hadd]; reflexivity ].
Qed.

Lemma methods_ok_HandleKeyEvent s k r :
  methods_ok s -> HandleKeyEvent s k = Some r -> methods_ok (fst (fst r)).
Proof.
  intros Hok. unfold HandleKeyEvent.
  destruct (IsSaving s).
  { injection 1 as <-. now apply methods_ok_handleSaveAsPrompt. }
  destruct (IsDeleting s).
  { destruct Hok as [Hm [Hs Hi]].
    unfold handleDeleteConfirmation, DeleteSelectedRequest.
    assert (Hall : Forall (fun r => method_ok (Method r))
              (take (l_index (savedList (model s))) (savedRequests (model s)) ++
               drop (l_index (savedList (model s)) + 1)
                 (savedRequests (model s)))).
    { apply Forall_app.
      split; [now apply Forall_take | now apply Forall_drop]. }
    repeat case_match; intros; simplify_eq;
      first [ exact (conj Hm (conj Hs Hi)) | exact (conj Hm (conj Hall Hall)) ]. }
  destruct (negb (GetInputMode s)); injection 1 as <-.
  - now apply methods_ok_handleNavigationMode.
  - pose proof (methods_ok_handleEnterOnRequestTab s Hok) as Henter.
    unfold handleInputMode.
    destruct (handleEnterOnRequestTab s) as [se ce]. simpl in Henter.
    repeat case_match; simpl; auto; methods_frame Hok.
Qed.

Lemma methods_ok_step s s' : methods_ok s -> step s s' -> methods_ok s'.
Proof.
  intros Hok Hstep. destruct Hstep as [s k s' cmd eaten Hk | s msg | | |].
  - exact (methods_ok_HandleKeyEvent s k _ Hok Hk).
  - apply (methods_ok_same s); [| exact Hok].
    unfold UpdateComponents. repeat case_match; reflexivity.
  - exact Hok.
  - exact Hok.
  - exact Hok.
Qed.

Lemma methods_ok_sends s :
  methods_ok s ->
  exists w msg,
    sendRequest_run s = Some (w, msg) /\
    MethodNames !! Z.to_nat (GetSelectedMethod s) = Some (wMethod w).
Proof.
  intros [Hm _]. unfold sendRequest_run, NewHTTPRequest, GetCurrentMethod.
  unfold method_ok, GetSelectedMethod in Hm.
  replace (selectedMethod (model s) <? 0)%Z with false
    by (symmetry; apply Z.ltb_ge; lia).
  assert (Hlt : (Z.to_nat (selectedMethod (model s)) < length MethodNames)%nat)
    by (simpl; lia).
  destruct (lookup_lt_is_Some_2 _ _ Hlt) as [name Hname].
  unfold GetSelectedMethod. rewrite Hname. eauto.
Qed.

(** X2.  If the methods of the saved requests of the file are indices
    of [MethodNames], then in every state of every run the selected
    method is one, and the send command, whenever the runtime runs it,
    builds its request and calls the transport with the name of that
    method: [MethodNames[m.selectedMethod]] never panics. *)
Theorem valid_methods_never_panic path hm pm loaded s :
  (forall items, loaded = Some items ->
                 Forall (fun r => method_ok (Method r)) items) ->
  rtc step (NewAppModel path hm pm loaded) s ->
  methods_ok s /\
  exists w msg,
    sendRequest_run s = Some (w, msg) /\
    MethodNames !! Z.to_nat (GetSelectedMethod s) = Some (wMethod w).
Proof.
  intros Hfile Hrun.
  assert (Hok : methods_ok s).
  { eapply (rtc_ind_r (fun s => methods_ok s)); [| | exact Hrun].
    - destruct loaded as [items |]; unfold methods_ok, method_ok; cbn.
      + pose proof (Hfile items eq_refl). unfold MethodGET.
        split; [lia | split; assumption].
      + unfold MethodGET. split; [lia | split; constructor].
    - intros y z _ Hstep IH. exact (methods_ok_step _ _ IH Hstep). }
  split; [exact Hok | now apply methods_ok_sends].
Qed.

(** X3.  Loading a saved request whose method is not an index of
    [MethodNames] (the file can hold any integer) leaves a state in
    which the send command panics when it runs. *)
Theorem invalid_method_panics_on_send s (r : SavedRequest) :
  l_SelectedItem (savedList (model s)) = Some r ->
  ~ method_ok (Method r) ->
  GetSelectedMethod (LoadRequestFromSaved s) = Method r /\
  sendRequest_run (LoadRequestFromSaved s) = None.
Proof.
  intros Hsel Hbad. unfold LoadRequestFromSaved. rewrite Hsel.
  split; [reflexivity |].
  unfold sendRequest_run, NewHTTPRequest, GetCurrentMethod. cbn.
  unfold method_ok in Hbad.
  destruct (Z.ltb_spec (Method r) 0) as [Hneg | Hpos]; [reflexivity |].
  rewrite lookup_ge_None_2; [reflexivity |]. simpl. lia.
Qed.

End Methods.

(** ** Focus *)

Section Focus.
Context {E : Env}.
#[local] Arguments Z.eqb : simpl never.

(** X4.  [updateFocus] changes nothing but the focus of the four inputs
    of the request tab, and afterwards the focus is where the section
    says: in text-edit mode on the request tab the input of the active
    section is focused and no other (none for the Method section), and
    otherwise no input is focused. *)
Theorem updateFocus_follows_the_section s :
  focus_of (updateFocus s)
  = (if GetInputMode s && (GetActiveTab s =? TabRequest)%Z then
       ((GetActiveSection s =? SectionURL)%Z,
        (GetActiveSection s =? SectionHeaders)%Z,
        (GetActiveSection s =? SectionBody)%Z,
        (GetActiveSection s =? SectionParams)%Z)
     else (false, false, false, false)) /\
  draft (updateFocus s) = draft s /\
  flags (updateFocus s) = flags s /\
  shape (updateFocus s) = shape s /\
  (ti_value (urlInput (model (updateFocus s))),
   ti_value (headerInput (model (updateFocus s))),
   ta_value (bodyInput (model (updateFocus s))),
   ti_value (paramInput (model (updateFocus s))),
   ti_value (saveNameInput (model (updateFocus s))))
  = (ti_value (urlInput (model s)), ti_value (headerInput (model s)),
     ta_value (bodyInput (model s)), ti_value (paramInput (model s)),
     ti_value (saveNameInput (model s))) /\
  GetActiveTab (updateFocus s) = GetActiveTab s /\
  GetActiveSection (updateFocus s) = GetActiveSection s.
Proof.
  split.
  - unfold updateFocus, focus_of, GetInputMode, GetActiveTab, GetActiveSection.
    cbn.
    destruct (inputMode (model s)); cbn; [| reflexivity].
    destruct (activeTab (model s) =? TabRequest)%Z; cbn; [| reflexivity].
    destruct (Z.eqb_spec (activeSection (model s)) SectionURL) as [-> | _];
      [reflexivity |].
    destruct (Z.eqb_spec (activeSection (model s)) SectionHeaders) as [-> | _];
      [reflexivity |].
    destruct (Z.eqb_spec (activeSection (model s)) SectionBody) as [-> | _];
      [reflexivity |].
    destruct (activeSection (model s) =? SectionParams)%Z; reflexivity.
  - unfold updateFocus. repeat case_match; repeat split; reflexivity.
Qed.

(** X5.  From navigation mode, the key i (or a) followed by esc leads
    back to navigation mode: the result is the state before with the
    four inputs defocused, so the tab, the section, the draft and the
    buffers are as before and no input is focused. *)
Theorem text_edit_then_escape s k :
  mode_of s = Navigation ->
  k = "i" \/ k = "a" ->
  press s [k; "esc"] = Some (updateFocus s) /\
  mode_of (updateFocus s) = Navigation /\
  focus_of (updateFocus s) = (false, false, false, false) /\
  GetActiveTab (updateFocus s) = GetActiveTab s /\
  GetActiveSection (updateFocus s) = GetActiveSection s /\
  draft (updateFocus s) = draft s.
Proof.
  intros Hmode Hk. unfold mode_of in Hmode.
  destruct (IsSaving s) eqn:Hs; [discriminate |].
  destruct (IsDeleting s) eqn:Hd; [discriminate |].
  destruct (GetInputMode s) eqn:Hi; [discriminate |].
  destruct (updateFocus_follows_the_section s)
    as [Hf [Hdraft [Hflags [_ [_ [Htab Hsec]]]]]].
  split; [| split; [| split; [| repeat split; assumption]]].
  - destruct s as [m hm pm w]. destruct m.
    unfold IsSaving, IsDeleting, GetInputMode in *. simpl in *. subst.
    destruct Hk as [-> | ->]; unfold press, HandleKeyEvent; cbn;
      unfold updateFocus; cbn; repeat case_match; simplify_eq; cbn;
      reflexivity.
  - unfold flags in Hflags. injection Hflags as Hs' Hd' Hi' _ _.
    unfold mode_of, IsSaving, IsDeleting, GetInputMode in *.
    now rewrite Hs', Hs, Hd', Hd, Hi', Hi.
  - rewrite Hf, Hi. reflexivity.
Qed.

End Focus.

(** ** The save prompt *)

Section SavePrompt.
Context {E : Env}.

Lemma prompt_flags s :
  reachable s -> mode_of s = SaveNamePrompt ->
  IsSaving s = true /\ IsDeleting s = false /\ GetInputMode s = false.
Proof.
  intros Hreach Hmode. unfold mode_of in Hmode.
  destruct (reachable_modal_inv s Hreach) as [Hex [Hnav _]].
  destruct (IsSaving s) eqn:Hs;
    [| destruct (IsDeleting s); [| destruct (negb _)]; discriminate].
  auto.
Qed.


(** X7.  In the save prompt, esc, and Enter with an empty name, save
    nothing: the saved requests and the file are as before, the name
    buffer is cleared and defocused, the draft is untouched and the
    program is back in navigation mode.  The key is consumed. *)
Theorem save_prompt_cancel s k :
  reachable s ->
  mode_of s = SaveNamePrompt ->
  k = "esc" \/ (k = "enter" /\ ti_value (saveNameInput (model s)) = "") ->
  HandleKeyEvent s k = Some (close_save_prompt s, None, true) /\
  savedRequests (model (close_save_prompt s)) = savedRequests (model s) /\
  written (close_save_prompt s) = written s /\
  saveNameInput (model (close_save_prompt s)) = mkTextinput "" false /\
  draft (close_save_prompt s) = draft s /\
  mode_of (close_save_prompt s) = Navigation.
Proof.
  intros Hreach Hmode Hk.
  destruct (prompt_flags s Hreach Hmode) as [Hs [Hd Hi]].
  split.
  - unfold HandleKeyEvent. rewrite Hs. unfold handleSaveAsPrompt.
    destruct Hk as [-> | [-> Hname]]; cbn; [| rewrite Hname; cbn];
      reflexivity.
  - repeat split.
    unfold mode_of, IsSaving, IsDeleting, GetInputMode in *. cbn.
    now rewrite Hd, Hi.
Qed.

(** X8.  In the save prompt every key other than Enter and esc goes to
    the name buffer and nowhere else: only the name input can change,
    the prompt stays open and there is no command, also for the keys
    that quit or navigate elsewhere (q, ctrl+c, i, d, the digits). *)
Theorem save_prompt_other_keys s k :
  IsSaving s = true ->
  k <> "enter" -> k <> "esc" ->
  HandleKeyEvent s k
  = Some (on_model (fun m => set_saveNameInput
                               (ti_Update (saveNameInput m) (KeyMsg k)) m) s,
          None, true) /\
  forall s', HandleKeyEvent s k = Some (s', None, true) ->
    mode_of s' = SaveNamePrompt /\
    draft s' = draft s /\
    savedRequests (model s') = savedRequests (model s) /\
    written s' = written s /\
    GetActiveTab s' = GetActiveTab s /\
    GetActiveSection s' = GetActiveSection s.
Proof.
  intros Hs Hk1 Hk2. apply str_eqb_neq in Hk1, Hk2.
  assert (Hres : HandleKeyEvent s k
    = Some (on_model (fun m => set_saveNameInput
                                 (ti_Update (saveNameInput m) (KeyMsg k)) m) s,
            None, true)).
  { unfold HandleKeyEvent. rewrite Hs. unfold handleSaveAsPrompt, key_in.
    cbn. now rewrite Hk1, Hk2. }
  split; [exact Hres |].
  intros s' Hs'. rewrite Hres in Hs'. injection Hs' as <-.
  repeat split.
  unfold mode_of, IsSaving in *. cbn. now rewrite Hs.
Qed.

End SavePrompt.

(** ** The navigation table and the text-edit handler *)

Section Tables.
Context {E : Env}.

Ltac split_keys k :=
  repeat match goal with
         | |- context [str_eqb k ?c] => destruct (str_eqb k c) eqn:?; cbn
         end.

(** X9.  The navigation handler consumes a key exactly when the key is
    one of the case labels of its table, whatever the tab and the
    section; a key outside the table comes back with the state as it
    was and no command. *)
Theorem navigation_consumes_its_table s k :
  snd (handleNavigationMode s k) = key_in k navigation_keys /\
  (key_in k navigation_keys = false ->
   handleNavigationMode s k = (s, None, false)).
Proof.
  split.
  - unfold handleNavigationMode, navigation_keys, key_in. cbn.
    destruct (handleEnterKey s) as [se ce].
    destruct (handleBackspaceKey s) as [sb cb].
    split_keys k; repeat case_match; reflexivity.
  - unfold navigation_keys, key_in. cbn. intros Hout.
    repeat (apply orb_false_elim in Hout as [? Hout]).
    unfold handleNavigationMode, key_in. cbn.
    repeat match goal with
           | H : str_eqb k _ = false |- _ => rewrite H; clear H
           end.
    reflexivity.
Qed.

(** X10.  The text-edit handler: esc is the only key that leaves
    text-edit mode; q and ctrl+c quit, except in the Body section, where
    they are left to the widget like any text; Enter is consumed only in
    the Headers and Params sections; every key that is not consumed, and
    every key other than esc, q, ctrl+c and Enter, comes back with the
    state as it was and no command. *)
Theorem text_edit_passes_keys_through s k :
  (snd (handleInputMode s k) = false -> handleInputMode s k = (s, None, false)) /\
  (key_in k ["esc"; "ctrl+c"; "q"; "enter"] = false ->
   handleInputMode s k = (s, None, false)) /\
  (key_in k ["ctrl+c"; "q"] = true ->
   handleInputMode s k
   = if (GetActiveSection s =? SectionBody)%Z then (s, None, false)
     else (s, Some Quit, true)) /\
  (k = "enter" ->
   GetActiveSection s <> SectionHeaders -> GetActiveSection s <> SectionParams ->
   handleInputMode s k = (s, None, false)) /\
  (GetInputMode (fst (fst (handleInputMode s k))) <> GetInputMode s ->
   k = "esc").
Proof.
  unfold handleInputMode, key_in. cbn.
  destruct (handleEnterOnRequestTab s) as [se ce] eqn:Henter.
  assert (Hmode : GetInputMode se = GetInputMode s).
  { pose proof (flags_handleEnterOnRequestTab s) as Hf. rewrite Henter in Hf.
    unfold flags in Hf. now injection Hf. }
  split; [| split; [| split; [| split]]].
  - split_keys k; repeat case_match; simpl; congruence.
  - intros Hout. repeat (apply orb_false_elim in Hout as [? Hout]).
    repeat match goal with
           | H : str_eqb k _ = false |- _ => rewrite H; clear H
           end.
    reflexivity.
  - destruct (str_eqb k "esc") eqn:Hesc.
    { apply str_eqb_eq in Hesc. subst k. discriminate. }
    cbn. intros ->. now destruct (GetActiveSection s =? SectionBody)%Z.
  - intros -> Hh Hp. apply Z.eqb_neq in Hh, Hp. cbn. now rewrite Hh, Hp.
  - destruct (str_eqb k "esc") eqn:Hesc; [now intros _; apply str_eqb_eq |].
    cbn. repeat case_match; simpl; congruence.
Qed.

(** X11.  In navigation mode ctrl+s opens the save prompt only on the
    request tab, and d opens the delete confirmation only on the saved
    tab, where it opens even when there is no saved request; on the
    other tabs both keys are consumed and change nothing. *)
Theorem overlays_open_on_their_tab s :
  mode_of s = Navigation ->
  (GetActiveTab s = TabRequest ->
   exists s', HandleKeyEvent s "ctrl+s" = Some (s', None, true) /\
     mode_of s' = SaveNamePrompt /\
     ti_focus (saveNameInput (model s')) = true /\ draft s' = draft s) /\
  (GetActiveTab s <> TabRequest ->
   HandleKeyEvent s "ctrl+s" = Some (s, None, true)) /\
  (GetActiveTab s = TabSaved ->
   HandleKeyEvent s "d" = Some (SetIsDeleting true s, None, true) /\
   mode_of (SetIsDeleting true s) = DeleteConfirm) /\
  (GetActiveTab s <> TabSaved -> HandleKeyEvent s "d" = Some (s, None, true)).
Proof.
  intros Hmode. unfold mode_of in Hmode. unfold HandleKeyEvent.
  destruct (IsSaving s) eqn:Hs; [discriminate |].
  destruct (IsDeleting s) eqn:Hd; [discriminate |].
  destruct (negb (GetInputMode s)); [| discriminate].
  unfold handleNavigationMode. cbn.
  split; [| split; [| split]].
  - intros ->. cbn. eexists. split; [reflexivity |]. repeat split.
  - intros Htab. apply Z.eqb_neq in Htab. now rewrite Htab.
  - intros ->. cbn. split; [reflexivity |].
    unfold mode_of, IsSaving in *. cbn. now rewrite Hs.
  - intros Htab. apply Z.eqb_neq in Htab. now rewrite Htab.
Qed.

End Tables.

(** ** Cycling *)

Section Cycling.
Context {E : Env}.

Lemma tab_cases s : position_ok s ->
  (GetActiveTab s = 0 \/ GetActiveTab s = 1 \/ GetActiveTab s = 2) /\
  (GetActiveSection s = 0 \/ GetActiveSection s = 1 \/ GetActiveSection s = 2 \/
   GetActiveSection s = 3 \/ GetActiveSection s = 4).
Proof. unfold position_ok. lia. Qed.

Lemma method_cases m : method_ok m ->
  m = 0 \/ m = 1 \/ m = 2 \/ m = 3 \/ m = 4 \/ m = 5 \/ m = 6.
Proof. unfold method_ok. lia. Qed.

(** X12.  The keys l and h (right and left) in the navigation handler.
    On the request tab with the Method section active they select the
    next and the previous method, cyclically over the seven methods, and
    leave the tab alone, so that there the tab cannot be left with these
    keys; in every other case they select the next and the previous tab,
    cyclically over the three tabs, and leave the method alone.  Pressed
    one after the other they cancel out, unless the first of them enters
    the request tab with the Method section active. *)
Theorem left_right_cycle s :
  position_ok s ->
  method_ok (GetSelectedMethod s) ->
  let on_method :=
    (GetActiveTab s =? TabRequest)%Z && (GetActiveSection s =? SectionMethod)%Z in
  handleNavigationMode s "l"
  = (if on_method then SetSelectedMethod ((GetSelectedMethod s + 1) mod 7) s
     else SetActiveTab ((GetActiveTab s + 1) mod 3) s, None, true) /\
  handleNavigationMode s "h"
  = (if on_method then SetSelectedMethod ((GetSelectedMethod s - 1) mod 7) s
     else SetActiveTab ((GetActiveTab s - 1) mod 3) s, None, true) /\
  handleNavigationMode s "right" = handleNavigationMode s "l" /\
  handleNavigationMode s "left" = handleNavigationMode s "h" /\
  (GetActiveSection s <> SectionMethod \/ GetActiveTab s <> TabSaved ->
   handleNavigationMode (fst (fst (handleNavigationMode s "l"))) "h"
   = (s, None, true)) /\
  (GetActiveSection s <> SectionMethod \/ GetActiveTab s <> TabResponse ->
   handleNavigationMode (fst (fst (handleNavigationMode s "h"))) "l"
   = (s, None, true)).
Proof.
  intros Hpos Hm on_method. subst on_method.
  destruct (tab_cases s Hpos) as [Htab Hsec].
  apply method_cases in Hm.
  destruct s as [m hm pm w]. destruct m.
  unfold GetActiveTab, GetActiveSection, GetSelectedMethod in *. cbn in *.
  unfold TabSaved, TabResponse, SectionMethod in *.
  split; [| split; [| split; [| split; [| split]]]].
  - destruct Htab as [-> | [-> | ->]];
      destruct Hsec as [-> | [-> | [-> | [-> | ->]]]];
      try reflexivity;
      destruct Hm as [-> | [-> | [-> | [-> | [-> | [-> | ->]]]]]]; reflexivity.
  - destruct Htab as [-> | [-> | ->]];
      destruct Hsec as [-> | [-> | [-> | [-> | ->]]]];
      try reflexivity;
      destruct Hm as [-> | [-> | [-> | [-> | [-> | [-> | ->]]]]]]; reflexivity.
  - reflexivity.
  - reflexivity.
  - intros Hnot.
    destruct Htab as [-> | [-> | ->]];
      destruct Hsec as [-> | [-> | [-> | [-> | ->]]]];
      try reflexivity; try (exfalso; lia);
      destruct Hm as [-> | [-> | [-> | [-> | [-> | [-> | ->]]]]]]; reflexivity.
  - intros Hnot.
    destruct Htab as [-> | [-> | ->]];
      destruct Hsec as [-> | [-> | [-> | [-> | ->]]]];
      try reflexivity; try (exfalso; lia);
      destruct Hm as [-> | [-> | [-> | [-> | [-> | [-> | ->]]]]]]; reflexivity.
Qed.

(** X13.  The section keys of the navigation handler.  On the request
    tab, j (down, tab) selects the next section and k (up, shift+tab)
    the previous one, cyclically over the five sections, each of the
    digits 1 to 5 selects its section (Method, URL, Headers, Body,
    Params), and the focus is recomputed; j followed by k,
    and k followed by j, change nothing but the focus, which is
    recomputed.  On the other tabs no key at all changes the
    section. *)
Theorem section_keys_cycle s k :
  position_ok s ->
  (GetActiveTab s = TabRequest ->
   handleNavigationMode s "j"
   = (updateFocus (SetActiveSection ((GetActiveSection s + 1) mod 5) s),
      None, true) /\
   handleNavigationMode s "k"
   = (updateFocus (SetActiveSection ((GetActiveSection s - 1) mod 5) s),
      None, true) /\
   handleNavigationMode s "down" = handleNavigationMode s "j" /\
   handleNavigationMode s "tab" = handleNavigationMode s "j" /\
   handleNavigationMode s "up" = handleNavigationMode s "k" /\
   handleNavigationMode s "shift+tab" = handleNavigationMode s "k" /\
   handleNavigationMode (fst (fst (handleNavigationMode s "j"))) "k"
   = (updateFocus s, None, true) /\
   handleNavigationMode (fst (fst (handleNavigationMode s "k"))) "j"
   = (updateFocus s, None, true) /\
   handleNavigationMode s "1"
   = (updateFocus (SetActiveSection SectionMethod s), None, true) /\
   handleNavigationMode s "2"
   = (updateFocus (SetActiveSection SectionURL s), None, true) /\
   handleNavigationMode s "3"
   = (updateFocus (SetActiveSection SectionHeaders s), None, true) /\
   handleNavigationMode s "4"
   = (updateFocus (SetActiveSection SectionBody s), None, true) /\
   handleNavigationMode s "5"
   = (updateFocus (SetActiveSection SectionParams s), None, true)) /\
  (GetActiveTab s <> TabRequest ->
   GetActiveSection (fst (fst (handleNavigationMode s k))) = GetActiveSection s).
Proof.
  intros Hpos. destruct (tab_cases s Hpos) as [Htab Hsec]. split.
  - intros Hreq.
    destruct s as [m hm pm w]. destruct m.
    unfold GetActiveTab, GetActiveSection in *. cbn in *. subst.
    repeat split;
      destruct Hsec as [-> | [-> | [-> | [-> | ->]]]];
      unfold handleNavigationMode, updateFocus; cbn;
      match goal with
      | |- context [inputMode0 && true] => destruct inputMode0
      | _ => idtac
      end; reflexivity.
  - intros Hreq. apply Z.eqb_neq in Hreq.
    assert (Henter : GetActiveSection (fst (handleEnterKey s))
                     = GetActiveSection s).
    { unfold handleEnterKey, LoadRequestFromSaved.
      rewrite Hreq. repeat case_match; reflexivity. }
    pose proof (proj2 (position_handleBackspaceKey s)) as Hback.
    unfold handleNavigationMode.
    destruct (handleEnterKey s) as [se ce].
    destruct (handleBackspaceKey s) as [sb cb].
    simpl in Henter, Hback. rewrite Hreq.
    repeat case_match; simpl; rewrite ?(proj2 (position_updateFocus _));
      auto.
Qed.

End Cycling.

(** ** Saved requests and edits that remove nothing *)

Section AppendOnly.
Context {A : Type}.
Variable zero : A.
Variable growslice : nat -> nat.

Lemma elems_append_behind (h : heap A) s x t :
  wf_slice h t -> behind t s ->
  elems (fst (go_append zero growslice h s x)) t = elems h t /\
  behind t (snd (go_append zero growslice h s x)).
Proof.
  intros [Hle [a [Ha Hc]]] Hb. unfold go_append, behind in *.
  destruct (Nat.ltb (s_len s) (s_cap s)); simpl.
  - split; [| intros Heq; specialize (Hb Heq); lia].
    unfold elems, backing. simpl.
    destruct (decide (s_arr s = s_arr t)) as [Heq | Hne].
    + assert (Hlt : (s_arr t < length h)%nat)
        by (eapply lookup_lt_Some; exact Ha).
      rewrite Heq, Ha. simpl.
      rewrite list_lookup_insert_eq by exact Hlt.
      simpl. apply take_insert_ge. specialize (Hb (eq_sym Heq)). lia.
    + now rewrite list_lookup_insert_ne.
  - split.
    + unfold elems, backing. simpl.
      now rewrite (lookup_app_l_Some _ _ _ _ Ha), Ha.
    + intros Heq. apply lookup_lt_Some in Ha. lia.
Qed.
End AppendOnly.

Section PresetsAndEdits.
Context {E : Env}.

Lemma edit_keeps_preset s e r :
  preset_behind_draft s r ->
  preset_behind_draft (apply_edit s e) r /\
  marshal (apply_edit s e) r = marshal s r /\
  savedList (model (apply_edit s e)) = savedList (model s).
Proof.
  intros [Hh [Hp [[Hrh Hrp] [Hbh Hbp]]]].
  destruct e as [key value | key value | m | t | t]; simpl.
  - unfold AddHeader.
    pose proof (elems_append_behind zeroHeader growslice _ _
                  (mkHeader key value) _ Hrh Hbh) as [Hel Hb'].
    pose proof (wf_append zeroHeader growslice _ _ (mkHeader key value) Hh)
      as Hnew.
    pose proof (wf_append_other zeroHeader growslice (headerMem s)
                  (headers (model s)) (mkHeader key value) _ Hrh) as Hold.
    destruct (go_append zeroHeader growslice (headerMem s) (headers (model s))
                (mkHeader key value)) as [hm hs].
    simpl in *. unfold preset_behind_draft, wf_saved, marshal. simpl.
    rewrite Hel. auto 10.
  - unfold AddParam.
    pose proof (elems_append_behind zeroParam growslice _ _
                  (mkParam key value) _ Hrp Hbp) as [Hel Hb'].
    pose proof (wf_append zeroParam growslice _ _ (mkParam key value) Hp)
      as Hnew.
    pose proof (wf_append_other zeroParam growslice (paramMem s)
                  (params (model s)) (mkParam key value) _ Hrp) as Hold.
    destruct (go_append zeroParam growslice (paramMem s) (params (model s))
                (mkParam key value)) as [pm ps].
    simpl in *. unfold preset_behind_draft, wf_saved, marshal. simpl.
    rewrite Hel. auto 10.
  - unfold preset_behind_draft, wf_saved. simpl. auto 10.
  - unfold preset_behind_draft, wf_saved. simpl. auto 10.
  - unfold preset_behind_draft, wf_saved. simpl. auto 10.
Qed.

Lemma edits_keep_preset edits : forall s r,
  preset_behind_draft s r ->
  marshal (fold_left apply_edit edits s) r = marshal s r /\
  savedList (model (fold_left apply_edit edits s)) = savedList (model s).
Proof.
  induction edits as [| e edits IH]; intros s r Hinv; simpl; [auto |].
  destruct (edit_keeps_preset s e r Hinv) as [Hinv' [Hm Hl]].
  destruct (IH _ r Hinv') as [Hm' Hl'].
  split; congruence.
Qed.

(** X14.  A draft saved under a name and then edited without removing a
    header or a parameter (headers and parameters added, the method, the
    URL and the body changed) is restored by loading the new saved
    request from the unfiltered list: method, URL, body, headers and
    parameters are those of the draft at the time of the save, and the
    request tab is active.  (With a removal in between this fails, as
    [preset_shares_the_header_array] shows.)  With a filter on the list,
    the save empties the items shown, nothing is selected and the load
    does nothing. *)
Theorem preset_survives_edits_without_removal s name edits :
  wf_store s ->
  l_index (savedList (model s)) = length (savedRequests (model s)) ->
  let saved := AddNewSavedRequest name s in
  let edited := fold_left apply_edit edits saved in
  (l_filter (savedList (model s)) = None ->
   draft (LoadRequestFromSaved edited) = draft s /\
   GetActiveTab (LoadRequestFromSaved edited) = TabRequest) /\
  (l_filter (savedList (model s)) <> None ->
   LoadRequestFromSaved edited = edited) /\
  List.last (hd [] (written saved)) (mkSavedRequestJSON "" 0 "" "" [] [])
  = mkSavedRequestJSON name (GetSelectedMethod s) (URLInputValue s)
      (BodyInputValue s) (GetHeaders s) (GetParams s).
Proof.
  intros [Hh [Hp _]] Hidx saved edited.
  set (r := mkSavedRequest name (selectedMethod (model s))
              (ti_value (urlInput (model s))) (ta_value (bodyInput (model s)))
              (headers (model s)) (params (model s))).
  assert (Hinv : preset_behind_draft saved r).
  { unfold preset_behind_draft, wf_saved, behind. simpl. auto 10. }
  destruct (edits_keep_preset edits saved r Hinv) as [Hm Hl].
  fold edited in Hm, Hl.
  split; [| split].
  - intros Hnofilter.
    assert (Hsel : l_SelectedItem (savedList (model edited)) = Some r).
    { rewrite Hl. unfold l_SelectedItem, l_VisibleItems. simpl.
      rewrite Hnofilter, Hidx. apply list_lookup_middle. reflexivity. }
    split.
    + unfold LoadRequestFromSaved. rewrite Hsel. unfold draft. simpl.
      unfold marshal in Hm. simpl in Hm. injection Hm as Hmh Hmp.
      unfold GetHeaders, GetParams, GetSelectedMethod, URLInputValue,
        BodyInputValue. simpl.
      change (headerMem (fold_left apply_edit edits saved))
        with (headerMem edited).
      change (paramMem (fold_left apply_edit edits saved))
        with (paramMem edited).
      now rewrite Hmh, Hmp.
    + unfold LoadRequestFromSaved. now rewrite Hsel.
  - intros Hfilter. unfold LoadRequestFromSaved. rewrite Hl.
    unfold l_SelectedItem, l_VisibleItems. simpl.
    destruct (l_filter (savedList (model s))); [reflexivity | congruence].
  - simpl. rewrite map_app. simpl. apply last_last.
Qed.

End PresetsAndEdits.

(** ** Sending, folding and forwarding *)

Section SendAndFold.
Context {E : Env}.

(** X15.  Folding a response or an error changes neither the draft
    (method, URL, body, headers, parameters) nor the mode, the section,
    the focus, the saved requests or the file.  As the fold selects the
    response tab, a message forwarded to the widgets afterwards reaches
    the viewport only: the four inputs of the request tab stay as they
    are, also in text-edit mode with one of them focused. *)
Theorem fold_leaves_the_draft s msg :
  (forall d,
     let s1 := SetResponseData d s in
     draft s1 = draft s /\ mode_of s1 = mode_of s /\
     focus_of s1 = focus_of s /\
     GetActiveSection s1 = GetActiveSection s /\
     savedRequests (model s1) = savedRequests (model s) /\
     written s1 = written s /\
     (urlInput (model (UpdateComponents s1 msg)),
      headerInput (model (UpdateComponents s1 msg)),
      bodyInput (model (UpdateComponents s1 msg)),
      paramInput (model (UpdateComponents s1 msg)))
     = (urlInput (model s), headerInput (model s), bodyInput (model s),
        paramInput (model s))) /\
  (forall e,
     let s1 := SetError e s in
     draft s1 = draft s /\ mode_of s1 = mode_of s /\
     focus_of s1 = focus_of s /\
     GetActiveSection s1 = GetActiveSection s /\
     savedRequests (model s1) = savedRequests (model s) /\
     written s1 = written s /\
     (urlInput (model (UpdateComponents s1 msg)),
      headerInput (model (UpdateComponents s1 msg)),
      bodyInput (model (UpdateComponents s1 msg)),
      paramInput (model (UpdateComponents s1 msg)))
     = (urlInput (model s), headerInput (model s), bodyInput (model s),
        paramInput (model s))).
Proof. split; intros x; repeat split. Qed.

(** X16.  The Enter action with a non-empty URL and a section other
    than Headers and Params sets [loading] and returns the send command,
    whether or not a request is already under way: a second Enter
    dispatches a second command.  Nothing else changes, and the command,
    run on that state with a method of the table, hands the transport
    the name of the method, the URL, the headers and the parameters of
    the draft, and the body, or no body when the body field is empty. *)
Theorem enter_sends_whatever_loading s :
  URLInputValue s <> "" ->
  GetActiveSection s <> SectionHeaders ->
  GetActiveSection s <> SectionParams ->
  handleEnterOnRequestTab s = (SetLoading true s, Some sendRequest) /\
  snd (handleEnterOnRequestTab (SetLoading true s)) = Some sendRequest /\
  GetLoading (SetLoading true s) = true /\
  draft (SetLoading true s) = draft s /\
  flags (SetLoading true s) = flags s /\
  (method_ok (GetSelectedMethod s) ->
   exists name msg,
     MethodNames !! Z.to_nat (GetSelectedMethod s) = Some name /\
     sendRequest_run (SetLoading true s)
     = Some (mkWireRequest name (URLInputValue s) (GetHeaders s) (GetParams s)
               (if str_eqb (BodyInputValue s) "" then None
                else Some (BodyInputValue s)), msg)).
Proof.
  intros Hurl Hh Hp.
  apply Z.eqb_neq in Hh. apply Z.eqb_neq in Hp. apply str_eqb_neq in Hurl.
  assert (Hsend : forall s0,
            GetActiveSection s0 = GetActiveSection s ->
            URLInputValue s0 = URLInputValue s ->
            handleEnterOnRequestTab s0 = (SetLoading true s0, Some sendRequest)).
  { intros s0 Hs0 Hu0. unfold handleEnterOnRequestTab.
    now rewrite Hs0, Hh, Hp, Hu0, Hurl. }
  split; [now apply Hsend |].
  split; [now rewrite (Hsend (SetLoading true s)) |].
  repeat split.
  intros Hm. unfold method_ok, GetSelectedMethod in Hm.
  assert (Hlt : (Z.to_nat (selectedMethod (model s)) < length MethodNames)%nat)
    by (simpl; lia).
  destruct (lookup_lt_is_Some_2 _ _ Hlt) as [name Hname].
  exists name.
  unfold sendRequest_run, NewHTTPRequest, GetCurrentMethod. cbn.
  replace (selectedMethod (model s) <? 0)%Z with false
    by (symmetry; apply Z.ltb_ge; lia).
  rewrite Hname. unfold on_wire, GetHeaders, GetParams, BodyInputValue,
    URLInputValue. cbn.
  destruct (str_eqb (ta_value (bodyInput (model s))) ""); cbn;
    eexists; (split; [exact Hname | reflexivity]).
Qed.

(** X17.  Messages forwarded to the widgets.  [UpdateComponents] never
    changes the headers, the parameters, the method, the tab, the
    section, the mode, the saved requests or the file.  In navigation
    mode on the request tab, and on the Method section of the request
    tab, it changes nothing at all; outside the request tab it leaves
    the four inputs of the request tab as they are. *)
Theorem UpdateComponents_frame s msg :
  (GetHeaders (UpdateComponents s msg), GetParams (UpdateComponents s msg),
   GetSelectedMethod (UpdateComponents s msg))
  = (GetHeaders s, GetParams s, GetSelectedMethod s) /\
  flags (UpdateComponents s msg) = flags s /\
  shape (UpdateComponents s msg) = shape s /\
  GetActiveTab (UpdateComponents s msg) = GetActiveTab s /\
  GetActiveSection (UpdateComponents s msg) = GetActiveSection s /\
  written (UpdateComponents s msg) = written s /\
  (GetActiveTab s = TabRequest ->
   GetInputMode s = false \/ GetActiveSection s = SectionMethod ->
   UpdateComponents s msg = s) /\
  (GetActiveTab s <> TabRequest ->
   (urlInput (model (UpdateComponents s msg)),
    headerInput (model (UpdateComponents s msg)),
    bodyInput (model (UpdateComponents s msg)),
    paramInput (model (UpdateComponents s msg)))
   = (urlInput (model s), headerInput (model s), bodyInput (model s),
      paramInput (model s))).
Proof.
  unfold UpdateComponents.
  repeat split; try (repeat case_match; reflexivity).
  - intros -> [-> | ->]; cbn; [reflexivity |].
    now destruct (GetInputMode s).
  - intros Htab. apply Z.eqb_neq in Htab. rewrite Htab.
    repeat case_match; reflexivity.
Qed.

End SendAndFold.

(** ** Adding and removing *)

Section AddRemove.
Context {E : Env}.

(** X18.  Headers and parameters are two stacks.  Removing the last
    header right after adding one gives back the headers there were,
    and the parameters are not affected; removing from an empty list
    changes nothing.  The same holds with parameters and headers
    exchanged. *)
Theorem add_then_remove_last s key value :
  wf_store s ->
  GetHeaders (RemoveLastHeader (AddHeader key value s)) = GetHeaders s /\
  GetParams (RemoveLastHeader (AddHeader key value s)) = GetParams s /\
  GetParams (RemoveLastParam (AddParam key value s)) = GetParams s /\
  GetHeaders (RemoveLastParam (AddParam key value s)) = GetHeaders s /\
  (GetHeaders s = [] -> RemoveLastHeader s = s) /\
  (GetParams s = [] -> RemoveLastParam s = s).
Proof.
  intros Hwf.
  pose proof (wf_store_AddHeader key value s Hwf) as [Hh' _].
  pose proof (wf_store_AddParam key value s Hwf) as [_ [Hp' _]].
  destruct Hwf as [Hh [Hp _]].
  destruct (AddHeader_lists key value s Hh) as [Hah Hap].
  destruct (AddParam_lists key value s Hp) as [Hbp Hbh].
  assert (Hne : GetHeaders (AddHeader key value s) <> [])
    by (rewrite Hah; now destruct (GetHeaders s)).
  assert (Hne' : GetParams (AddParam key value s) <> [])
    by (rewrite Hbp; now destruct (GetParams s)).
  destruct (RemoveLastHeader_lists _ Hh' Hne) as [Hrh Hrp].
  destruct (RemoveLastParam_lists _ Hp' Hne') as [Hsp Hsh].
  split; [rewrite Hrh, Hah; apply removelast_last |].
  split; [now rewrite Hrp |].
  split; [rewrite Hsp, Hbp; apply removelast_last |].
  split; [now rewrite Hsh |].
  split; intros Hnil.
  - pose proof (elems_length _ _ Hh) as Hlen.
    unfold GetHeaders in Hnil. rewrite Hnil in Hlen. simpl in Hlen.
    unfold RemoveLastHeader. now rewrite <- Hlen.
  - pose proof (elems_length _ _ Hp) as Hlen.
    unfold GetParams in Hnil. rewrite Hnil in Hlen. simpl in Hlen.
    unfold RemoveLastParam. now rewrite <- Hlen.
Qed.

End AddRemove.

(** ** The further properties at concrete states *)

Lemma press_steps {E : Env} keys : forall s s',
  press s keys = Some s' -> rtc step s s'.
Proof.
  induction keys as [| k keys IH]; simpl; intros s s' Hp.
  - injection Hp as <-. apply rtc_refl.
  - destruct (HandleKeyEvent s k) as [[[s1 cmd] eaten] |] eqn:Hk;
      [| discriminate].
    eapply rtc_l; [exact (step_key s k s1 cmd eaten Hk) | now apply IH].
Qed.

Section FurtherWitnesses.
#[local] Existing Instance plainEnv.

Lemma promptingDemo_reachable : reachable promptingDemo.
Proof.
  apply (press_reachable ["D"; "e"; "m"; "o"] prompting promptingDemo).
  - exact prompting_reachable.
  - reflexivity.
Qed.

Lemma wf_store_fresh : wf_store fresh.
Proof. now apply wf_store_init. Qed.

Lemma position_ok_fresh : position_ok fresh.
Proof.
  unfold position_ok. cbn. unfold TabRequest, SectionMethod. lia.
Qed.

Lemma reachable_position_ok_witness : position_ok confirming.
Proof. exact (reachable_position_ok confirming confirming_reachable). Defined.

Lemma valid_methods_never_panic_witness :
  methods_ok confirming /\
  exists w msg,
    sendRequest_run confirming = Some (w, msg) /\
    MethodNames !! Z.to_nat (GetSelectedMethod confirming) = Some (wMethod w).
Proof.
  apply (valid_methods_never_panic "requests.json" fileHeaders fileParams
           (Some [reqA; reqB]) confirming).
  - intros items [= <-].
    repeat constructor; cbn; unfold MethodGET, MethodPOST; lia.
  - apply (press_steps ["2"; "l"; "l"; "d"]). reflexivity.
Defined.

Lemma invalid_method_panics_on_send_witness :
  GetSelectedMethod (LoadRequestFromSaved withBadFile) = 7 /\
  sendRequest_run (LoadRequestFromSaved withBadFile) = None.
Proof.
  apply (invalid_method_panics_on_send withBadFile reqBad).
  - reflexivity.
  - unfold method_ok. cbn. lia.
Defined.

Lemma text_edit_then_escape_witness :
  press fresh ["i"; "esc"] = Some (updateFocus fresh) /\
  mode_of (updateFocus fresh) = Navigation /\
  focus_of (updateFocus fresh) = (false, false, false, false) /\
  GetActiveTab (updateFocus fresh) = GetActiveTab fresh /\
  GetActiveSection (updateFocus fresh) = GetActiveSection fresh /\
  draft (updateFocus fresh) = draft fresh.
Proof.
  exact (text_edit_then_escape fresh "i" eq_refl (or_introl eq_refl)).
Defined.


Lemma save_prompt_cancel_witness :
  HandleKeyEvent promptingDemo "esc"
  = Some (close_save_prompt promptingDemo, None, true) /\
  HandleKeyEvent prompting "enter"
  = Some (close_save_prompt prompting, None, true) /\
  savedRequests (model (close_save_prompt prompting)) = [] /\
  written (close_save_prompt prompting) = [].
Proof.
  destruct (save_prompt_cancel promptingDemo "esc" promptingDemo_reachable
              eq_refl (or_introl eq_refl)) as [Hesc _].
  destruct (save_prompt_cancel prompting "enter" prompting_reachable
              eq_refl (or_intror (conj eq_refl eq_refl)))
    as [Henter [Hs [Hw _]]].
  exact (conj Hesc (conj Henter (conj Hs Hw))).
Defined.

Lemma save_prompt_other_keys_witness :
  HandleKeyEvent prompting "q" = Some (with_saveName "q" prompting, None, true).
Proof.
  exact (proj1 (save_prompt_other_keys prompting "q" eq_refl
                  ltac:(discriminate) ltac:(discriminate))).
Defined.

Lemma navigation_consumes_its_table_witness :
  handleNavigationMode fresh "x" = (fresh, None, false).
Proof.
  exact (proj2 (navigation_consumes_its_table fresh "x") eq_refl).
Defined.

Lemma text_edit_passes_keys_through_witness :
  handleInputMode editingURL "x" = (editingURL, None, false) /\
  handleInputMode editingURL "q" = (editingURL, Some Quit, true) /\
  handleInputMode (SetActiveSection SectionBody editingURL) "q"
  = (SetActiveSection SectionBody editingURL, None, false) /\
  handleInputMode editingURL "enter" = (editingURL, None, false).
Proof.
  destruct (text_edit_passes_keys_through editingURL "x") as [_ [Hx _]].
  destruct (text_edit_passes_keys_through editingURL "q") as [_ [_ [Hq _]]].
  destruct (text_edit_passes_keys_through
              (SetActiveSection SectionBody editingURL) "q")
    as [_ [_ [Hb _]]].
  destruct (text_edit_passes_keys_through editingURL "enter")
    as [_ [_ [_ [He _]]]].
  split; [exact (Hx eq_refl) |]. split; [exact (Hq eq_refl) |].
  split; [exact (Hb eq_refl) |].
  apply He; [reflexivity | discriminate | discriminate].
Defined.

Lemma overlays_open_on_their_tab_witness :
  (exists s', HandleKeyEvent fresh "ctrl+s" = Some (s', None, true) /\
     mode_of s' = SaveNamePrompt) /\
  HandleKeyEvent onSavedTab "ctrl+s" = Some (onSavedTab, None, true) /\
  HandleKeyEvent onSavedTab "d" = Some (SetIsDeleting true onSavedTab, None, true) /\
  HandleKeyEvent fresh "d" = Some (fresh, None, true).
Proof.
  destruct (overlays_open_on_their_tab fresh eq_refl) as [Hs [_ [_ Hd]]].
  destruct (overlays_open_on_their_tab onSavedTab eq_refl)
    as [_ [Hs' [Hd' _]]].
  split.
  { destruct (Hs eq_refl) as [s' [Hk [Hm _]]]. exists s'. now split. }
  split; [apply Hs'; discriminate |].
  split; [exact (proj1 (Hd' eq_refl)) |].
  apply Hd. discriminate.
Defined.

Lemma left_right_cycle_witness :
  handleNavigationMode fresh "h" = (SetSelectedMethod MethodOPTIONS fresh, None, true) /\
  handleNavigationMode (fst (fst (handleNavigationMode fresh "l"))) "h"
  = (fresh, None, true).
Proof.
  assert (Hm : method_ok (GetSelectedMethod fresh))
    by (unfold method_ok; cbn; unfold MethodGET; lia).
  destruct (left_right_cycle fresh position_ok_fresh Hm)
    as [_ [Hh [_ [_ [Hlh _]]]]].
  split; [exact Hh |]. apply Hlh. right. discriminate.
Defined.

Lemma section_keys_cycle_witness :
  handleNavigationMode fresh "k"
  = (updateFocus (SetActiveSection SectionParams fresh), None, true) /\
  handleNavigationMode (fst (fst (handleNavigationMode fresh "j"))) "k"
  = (updateFocus fresh, None, true) /\
  GetActiveSection (fst (fst (handleNavigationMode onSavedTab "j")))
  = SectionURL.
Proof.
  assert (Hpos : position_ok onSavedTab)
    by (unfold position_ok; cbn; unfold TabSaved, SectionURL; lia).
  destruct (section_keys_cycle fresh "k" position_ok_fresh) as [Hreq _].
  destruct (Hreq eq_refl) as [_ [Hk [_ [_ [_ [_ [Hjk _]]]]]]].
  destruct (section_keys_cycle onSavedTab "j" Hpos) as [_ Hoff].
  split; [exact Hk |]. split; [exact Hjk |]. apply Hoff. discriminate.
Defined.

Lemma preset_survives_edits_without_removal_witness :
  draft (LoadRequestFromSaved
           (fold_left apply_edit
              [EditAddHeader "X" "1"; EditMethod MethodPOST;
               EditURL (mkTextinput "http://x" false); EditAddParam "q" "1"]
              (AddNewSavedRequest "Demo" fresh)))
  = (MethodGET, "", "", [contentType], []).
Proof.
  exact (proj1 (proj1 (preset_survives_edits_without_removal fresh "Demo"
                         [EditAddHeader "X" "1"; EditMethod MethodPOST;
                          EditURL (mkTextinput "http://x" false);
                          EditAddParam "q" "1"]
                         wf_store_fresh eq_refl) eq_refl)).
Defined.

Lemma enter_sends_whatever_loading_witness :
  handleEnterOnRequestTab (with_url "http://x/y" fresh)
  = (SetLoading true (with_url "http://x/y" fresh), Some sendRequest) /\
  snd (handleEnterOnRequestTab (SetLoading true (with_url "http://x/y" fresh)))
  = Some sendRequest.
Proof.
  destruct (enter_sends_whatever_loading (with_url "http://x/y" fresh)
              ltac:(discriminate) ltac:(discriminate) ltac:(discriminate))
    as [H1 [H2 _]].
  exact (conj H1 H2).
Defined.

Lemma UpdateComponents_frame_witness :
  UpdateComponents fresh (KeyMsg "x") = fresh /\
  urlInput (model (UpdateComponents onSavedTab (KeyMsg "x")))
  = urlInput (model onSavedTab).
Proof.
  destruct (UpdateComponents_frame fresh (KeyMsg "x"))
    as [_ [_ [_ [_ [_ [_ [Hid _]]]]]]].
  destruct (UpdateComponents_frame onSavedTab (KeyMsg "x"))
    as [_ [_ [_ [_ [_ [_ [_ Hoff]]]]]]].
  split; [exact (Hid eq_refl (or_introl eq_refl)) |].
  assert (Htab : GetActiveTab onSavedTab <> TabRequest) by discriminate.
  exact (f_equal (fun q => fst (fst (fst q))) (Hoff Htab)).
Defined.

Lemma add_then_remove_last_witness :
  GetHeaders (RemoveLastHeader (AddHeader "X" "1" fresh)) = [contentType] /\
  GetParams (RemoveLastParam (AddParam "q" "1" fresh)) = [] /\
  RemoveLastParam fresh = fresh.
Proof.
  destruct (add_then_remove_last fresh "X" "1" wf_store_fresh)
    as [Hh _].
  destruct (add_then_remove_last fresh "q" "1" wf_store_fresh)
    as [_ [_ [Hp [_ [_ Hnil]]]]].
  split; [exact Hh |]. split; [exact Hp |]. exact (Hnil eq_refl).
Defined.

End FurtherWitnesses.

(** ** The variant with two panes *)

Section TwoPaneFacts.
Context {E : Env} {S : TwoPane.Scroll}.
#[local] Arguments int_rem : simpl never.
#[local] Arguments int_add : simpl never.
#[local] Arguments int_sub : simpl never.

Lemma pane_section_updateFocus s :
  TwoPane.GetActiveSection (TwoPane.updateFocus s) = TwoPane.GetActiveSection s.
Proof. unfold TwoPane.updateFocus. repeat case_match; reflexivity. Qed.

Lemma pane_section_UpdateComponents s msg :
  TwoPane.GetActiveSection (TwoPane.UpdateComponents s msg)
  = TwoPane.GetActiveSection s.
Proof. unfold TwoPane.UpdateComponents. repeat case_match; reflexivity. Qed.

Lemma pane_section_handleEnterKey s :
  TwoPane.GetActiveSection (fst (TwoPane.handleEnterKey s))
  = TwoPane.GetActiveSection s.
Proof.
  unfold TwoPane.handleEnterKey, TwoPane.AddHeader, TwoPane.AddParam.
  repeat case_match; reflexivity.
Qed.

Lemma pane_section_handleBackspaceKey s :
  TwoPane.GetActiveSection (fst (TwoPane.handleBackspaceKey s))
  = TwoPane.GetActiveSection s.
Proof.
  unfold TwoPane.handleBackspaceKey, TwoPane.RemoveLastHeader,
    TwoPane.RemoveLastParam.
  repeat case_match; reflexivity.
Qed.

Lemma pane_section_ok_HandleKeyEvent s k :
  pane_section_ok s -> pane_section_ok (fst (TwoPane.HandleKeyEvent s k)).
Proof.
  unfold pane_section_ok. intros Hok.
  pose proof (pane_section_handleEnterKey s) as Henter.
  pose proof (pane_section_handleBackspaceKey s) as Hback.
  unfold TwoPane.HandleKeyEvent, TwoPane.handleNavigationMode,
    TwoPane.handleInputMode, TwoPane.scroll_response.
  destruct (TwoPane.handleEnterKey s) as [se ce].
  destruct (TwoPane.handleBackspaceKey s) as [sb cb].
  simpl in Henter, Hback.
  repeat case_match; simpl; rewrite ?pane_section_updateFocus;
    unfold TwoPane.GetActiveSection in *; cbn;
    unfold SectionMethod, SectionURL, SectionHeaders, SectionBody,
      SectionParams, TwoPane.SectionResponse;
    first [ lia | apply cycle_forward; lia ].
Qed.

(** X19.  In the variant with two panes the active section is one of
    the six sections in every state of a run of the event loop. *)
Theorem two_pane_section_in_range s :
  TwoPane.reachable s -> 0 <= TwoPane.GetActiveSection s < 6.
Proof.
  induction 1 as [| s msg _ IH].
  - cbn. unfold SectionMethod. lia.
  - unfold TwoPane.Update.
    destruct msg as [k | w h | d | e | ranks |]; simpl;
      try (rewrite pane_section_UpdateComponents; exact IH).
    pose proof (pane_section_ok_HandleKeyEvent s k IH) as Hk.
    destruct (TwoPane.HandleKeyEvent s k) as [s1 c]. simpl in *.
    rewrite pane_section_UpdateComponents. exact Hk.
Qed.

(** X20.  In the variant with two panes a key is handled and then
    forwarded to the widgets all the same.  So the key i (or a) that
    enters text-edit mode from navigation mode is also given to the
    widget of the active section, whichever it is: the input of the
    URL, Headers, Body or Params section, which has just been focused,
    receives it as a key typed, and on the Response section the
    viewport receives it; only on the Method section is there no widget
    to receive it.  Likewise q in text-edit mode on the URL, Headers or
    Params section both returns the quit command and is given to the
    focused input of that section. *)
Theorem two_pane_mode_key_reaches_the_widget s k :
  (TwoPane.GetInputMode s = false -> k = "i" \/ k = "a" ->
   TwoPane.Update s (KeyMsg k)
   = (TwoPane.UpdateComponents
        (TwoPane.updateFocus (TwoPane.SetInputMode true s)) (KeyMsg k), None) /\
   (TwoPane.GetActiveSection s = SectionURL ->
    TwoPane.urlInput (TwoPane.model (fst (TwoPane.Update s (KeyMsg k))))
    = textinput_edit
        (mkTextinput (ti_value (TwoPane.urlInput (TwoPane.model s))) true)
        (KeyMsg k)) /\
   (TwoPane.GetActiveSection s = SectionHeaders ->
    TwoPane.headerInput (TwoPane.model (fst (TwoPane.Update s (KeyMsg k))))
    = textinput_edit
        (mkTextinput (ti_value (TwoPane.headerInput (TwoPane.model s))) true)
        (KeyMsg k)) /\
   (TwoPane.GetActiveSection s = SectionBody ->
    TwoPane.bodyInput (TwoPane.model (fst (TwoPane.Update s (KeyMsg k))))
    = textarea_edit
        (mkTextarea (ta_value (TwoPane.bodyInput (TwoPane.model s))) true)
        (KeyMsg k)) /\
   (TwoPane.GetActiveSection s = SectionParams ->
    TwoPane.paramInput (TwoPane.model (fst (TwoPane.Update s (KeyMsg k))))
    = textinput_edit
        (mkTextinput (ti_value (TwoPane.paramInput (TwoPane.model s))) true)
        (KeyMsg k)) /\
   (TwoPane.GetActiveSection s = TwoPane.SectionResponse ->
    TwoPane.responseVP (TwoPane.model (fst (TwoPane.Update s (KeyMsg k))))
    = viewport_Update (TwoPane.responseVP (TwoPane.model s)) (KeyMsg k)) /\
   (TwoPane.GetActiveSection s = SectionMethod ->
    fst (TwoPane.Update s (KeyMsg k))
    = TwoPane.updateFocus (TwoPane.SetInputMode true s))) /\
  (TwoPane.GetInputMode s = true ->
   (TwoPane.GetActiveSection s = SectionURL ->
    ti_focus (TwoPane.urlInput (TwoPane.model s)) = true ->
    TwoPane.Update s (KeyMsg "q")
    = (TwoPane.on_model
         (TwoPane.set_urlInput
            (textinput_edit (TwoPane.urlInput (TwoPane.model s)) (KeyMsg "q")))
         s, Some Quit)) /\
   (TwoPane.GetActiveSection s = SectionHeaders ->
    ti_focus (TwoPane.headerInput (TwoPane.model s)) = true ->
    TwoPane.Update s (KeyMsg "q")
    = (TwoPane.on_model
         (TwoPane.set_headerInput
            (textinput_edit (TwoPane.headerInput (TwoPane.model s))
               (KeyMsg "q")))
         s, Some Quit)) /\
   (TwoPane.GetActiveSection s = SectionParams ->
    ti_focus (TwoPane.paramInput (TwoPane.model s)) = true ->
    TwoPane.Update s (KeyMsg "q")
    = (TwoPane.on_model
         (TwoPane.set_paramInput
            (textinput_edit (TwoPane.paramInput (TwoPane.model s))
               (KeyMsg "q")))
         s, Some Quit))).
Proof.
  split.
  - intros Hmode Hk.
    assert (Hup : TwoPane.Update s (KeyMsg k)
      = (TwoPane.UpdateComponents
           (TwoPane.updateFocus (TwoPane.SetInputMode true s)) (KeyMsg k),
         None)).
    { unfold TwoPane.Update, TwoPane.HandleKeyEvent. rewrite Hmode.
      destruct Hk as [-> | ->]; reflexivity. }
    rewrite Hup. clear Hup. split; [reflexivity |].
    unfold TwoPane.GetActiveSection.
    repeat split; intros Hsec;
      unfold TwoPane.UpdateComponents, TwoPane.updateFocus,
        TwoPane.GetActiveSection, TwoPane.GetInputMode, ti_Update, ta_Update;
      cbn; rewrite Hsec; cbn; rewrite ?Hsec; cbn; reflexivity.
  - intros Hmode.
    repeat split; intros Hsec Hfocus;
      destruct s as [m hm pm]; destruct m;
      destruct urlInput0, headerInput0, paramInput0;
      unfold TwoPane.GetInputMode, TwoPane.GetActiveSection in *;
      cbn in *; subst; reflexivity.
Qed.

(** X21.  In the variant with two panes Enter and Backspace act on the
    lists in navigation mode only, and there is no tab to guard them.
    In navigation mode the event loop, on Backspace with the Headers
    section active, an empty header buffer and at least one header,
    removes the last header and nothing else; on Enter with the header
    buffer [key=value] it adds (key, value) at the end and clears the
    buffer.  In text-edit mode the handler leaves both keys and the
    state alone. *)
Theorem two_pane_enter_and_backspace s :
  (TwoPane.GetInputMode s = false ->
   TwoPane.GetActiveSection s = SectionHeaders ->
   wf_slice (TwoPane.headerMem s) (TwoPane.headers (TwoPane.model s)) ->
   ti_value (TwoPane.headerInput (TwoPane.model s)) = "" ->
   TwoPane.GetHeaders s <> [] ->
   TwoPane.Update s (KeyMsg "backspace") = (TwoPane.RemoveLastHeader s, None) /\
   TwoPane.GetHeaders (TwoPane.RemoveLastHeader s)
   = removelast (TwoPane.GetHeaders s) /\
   TwoPane.GetParams (TwoPane.RemoveLastHeader s) = TwoPane.GetParams s) /\
  (forall key value,
     TwoPane.GetInputMode s = false ->
     TwoPane.GetActiveSection s = SectionHeaders ->
     wf_slice (TwoPane.headerMem s) (TwoPane.headers (TwoPane.model s)) ->
     no_eq key = true ->
     ti_value (TwoPane.headerInput (TwoPane.model s))
     = (key ++ "=" ++ value)%string ->
     exists s',
       TwoPane.Update s (KeyMsg "enter") = (s', None) /\
       TwoPane.GetHeaders s' = TwoPane.GetHeaders s ++ [mkHeader key value] /\
       ti_value (TwoPane.headerInput (TwoPane.model s')) = "") /\
  (TwoPane.GetInputMode s = true ->
   TwoPane.handleInputMode s "enter" = (s, None) /\
   TwoPane.handleInputMode s "backspace" = (s, None)).
Proof.
  split; [| split].
  - intros Hmode Hsec Hwf Hbuf Hne.
    pose proof (elems_nonempty_len _ _ Hne) as Hlen.
    split.
    + clear Hwf Hne.
      destruct s as [m hm pm]. destruct m. destruct headerInput0.
      destruct headers0 as [arr len cap].
      unfold TwoPane.GetInputMode, TwoPane.GetActiveSection in *.
      cbn in *. subst. destruct len as [| len]; [lia |]. reflexivity.
    + apply Nat.ltb_lt in Hlen.
      unfold TwoPane.RemoveLastHeader. rewrite Hlen.
      split; [apply (elems_prefix_pred _ _ Hwf) | reflexivity].
  - intros key value Hmode Hsec Hwf Hkey Hbuf.
    pose proof (elems_append zeroHeader growslice _ _ (mkHeader key value) Hwf)
      as Happ.
    assert (Henter : TwoPane.handleEnterKey s
      = (TwoPane.on_model
           (fun m => TwoPane.set_headerInput
                       (ti_SetValue "" (TwoPane.headerInput m)) m)
           (TwoPane.AddHeader key value s), None)).
    { unfold TwoPane.handleEnterKey. rewrite Hsec, Hbuf. simpl Z.eqb.
      cbv iota. rewrite append_eq_nonempty. unfold SplitN_eq_2.
      rewrite (cut_eq_first key value Hkey). reflexivity. }
    assert (Hup : TwoPane.Update s (KeyMsg "enter")
      = (TwoPane.UpdateComponents (fst (TwoPane.handleEnterKey s))
           (KeyMsg "enter"), snd (TwoPane.handleEnterKey s))).
    { unfold TwoPane.Update, TwoPane.HandleKeyEvent. rewrite Hmode.
      change (TwoPane.handleNavigationMode s "enter")
        with (TwoPane.handleEnterKey s).
      now destruct (TwoPane.handleEnterKey s). }
    rewrite Hup, Henter. clear Hup Henter.
    unfold TwoPane.AddHeader, TwoPane.GetHeaders.
    destruct (go_append zeroHeader growslice (TwoPane.headerMem s)
                (TwoPane.headers (TwoPane.model s)) (mkHeader key value))
      as [hm hs].
    simpl in Happ.
    unfold TwoPane.UpdateComponents, TwoPane.GetInputMode,
      TwoPane.GetActiveSection in *. simpl. rewrite Hmode, Hsec. simpl.
    eexists. split; [reflexivity |]. split; [exact Happ | reflexivity].
  - intros Hmode. split; reflexivity.
Qed.

End TwoPaneFacts.

Section TwoPaneWitnesses.
#[local] Existing Instance plainEnv.
#[local] Existing Instance plainScroll.

Lemma paneURL_reachable : TwoPane.reachable paneURL.
Proof.
  exact (TwoPane.reach_update TwoPane.NewAppModel (KeyMsg "2")
           TwoPane.reach_init).
Qed.

Lemma two_pane_section_in_range_witness :
  0 <= TwoPane.GetActiveSection paneURL < 6.
Proof. exact (two_pane_section_in_range paneURL paneURL_reachable). Defined.

Lemma two_pane_mode_key_reaches_the_widget_witness :
  TwoPane.urlInput (TwoPane.model (fst (TwoPane.Update paneURL (KeyMsg "i"))))
  = mkTextinput "i" true /\
  TwoPane.Update (fst (TwoPane.Update paneURL (KeyMsg "i"))) (KeyMsg "q")
  = (TwoPane.on_model (TwoPane.set_urlInput (mkTextinput "iq" true))
       (fst (TwoPane.Update paneURL (KeyMsg "i"))), Some Quit).
Proof.
  destruct (two_pane_mode_key_reaches_the_widget paneURL "i") as [Hi _].
  destruct (Hi eq_refl (or_introl eq_refl)) as [_ [Hurl _]].
  destruct (two_pane_mode_key_reaches_the_widget
              (fst (TwoPane.Update paneURL (KeyMsg "i"))) "q") as [_ Hq].
  split; [exact (Hurl eq_refl) | exact (proj1 (Hq eq_refl) eq_refl eq_refl)].
Defined.

Lemma two_pane_enter_and_backspace_witness :
  TwoPane.Update paneHeadersAB (KeyMsg "backspace")
  = (TwoPane.RemoveLastHeader paneHeadersAB, None) /\
  TwoPane.GetHeaders (TwoPane.RemoveLastHeader paneHeadersAB)
  = [mkHeader "A" "1"] /\
  TwoPane.handleInputMode (TwoPane.SetInputMode true paneHeadersAB) "backspace"
  = (TwoPane.SetInputMode true paneHeadersAB, None).
Proof.
  assert (Hwf : wf_slice (TwoPane.headerMem paneHeadersAB)
                  (TwoPane.headers (TwoPane.model paneHeadersAB))).
  { split; simpl; [lia |]. eexists. split; [reflexivity | simpl; lia]. }
  destruct (two_pane_enter_and_backspace paneHeadersAB) as [Hb _].
  destruct (two_pane_enter_and_backspace
              (TwoPane.SetInputMode true paneHeadersAB)) as [_ [_ Hedit]].
  destruct (Hb eq_refl eq_refl Hwf eq_refl ltac:(discriminate))
    as [H1 [H2 _]].
  split; [exact H1 |]. split; [exact H2 |].
  exact (proj2 (Hedit eq_refl)).
Defined.

End TwoPaneWitnesses.
